(** * SunPy coordinate transformations: a shallow embedding

    This development embeds the functions of
    [sunpy/coordinates/transformations.py] and states the properties that
    the specification of the transformation layer attributes to them.

    Conventions of the embedding.

    - Python exceptions are values of [Exception]; a function that may raise
      returns a [result].
    - NumPy scalars are IEEE binary64 numbers, here Rocq's primitive [float].
      Operations that raise only a [RuntimeWarning] in NumPy (division by
      zero, invalid value) return the IEEE result, as NumPy does.
    - Quantities are taken in one fixed unit per dimension (radians for
      angles, one common length unit), so a [Quantity] is its [float] value.
    - Vector data are single (0-d) vectors; observation times are scalars or
      one-dimensional arrays of instants, so that the element-wise
      comparisons of the source stay visible.
    - The libraries the module calls into (the libm functions behind NumPy,
      the ephemeris, the frame graph dispatch behind [transform_to], the
      Carrington longitude [L0]) are section variables: every theorem holds
      for all of them. *)

From Stdlib Require Import Floats ZArith List String Bool Lia.
From stdpp Require Import base option list gmap strings.
Import ListNotations.

(** ** Exceptions and results *)

Inductive Exception : Type :=
  | ValueError (msg : string)
  | ConvertError (msg : string)
  | NameError (name : string)
  | AttributeError (msg : string)
  | TypeError (msg : string)
  | OverflowError (msg : string)
  | LibraryError (msg : string).

Inductive result (A : Type) : Type :=
  | Ok (a : A)
  | Raise (e : Exception).

Arguments Ok {A} a.
Arguments Raise {A} e.

Definition bind {A B : Type} (r : result A) (k : A -> result B) : result B :=
  match r with
  | Ok a => k a
  | Raise e => Raise e
  end.

Notation "'let*' x ':=' e 'in' k" := (bind e (fun x => k))
  (at level 10, x name, e at level 100, k at level 200).
Notation "'let*' ' p ':=' e 'in' k" := (bind e (fun p => k))
  (at level 10, p strict pattern, e at level 100, k at level 200).

Definition is_ok {A : Type} (r : result A) : bool :=
  match r with Ok _ => true | Raise _ => false end.

(** ** Three-vectors and 3x3 matrices of binary64 numbers *)

Module Numeric.

Local Open Scope float_scope.

Record Vec3 : Type := mkVec3 { vx : float; vy : float; vz : float }.

Record Mat3 : Type := mkMat3 { row0 : Vec3; row1 : Vec3; row2 : Vec3 }.

Definition vget (v : Vec3) (i : nat) : float :=
  match i with
  | O => vx v
  | S O => vy v
  | _ => vz v
  end.

Definition vset (v : Vec3) (i : nat) (a : float) : Vec3 :=
  match i with
  | O => mkVec3 a (vy v) (vz v)
  | S O => mkVec3 (vx v) a (vz v)
  | _ => mkVec3 (vx v) (vy v) a
  end.

Definition mrow (m : Mat3) (i : nat) : Vec3 :=
  match i with
  | O => row0 m
  | S O => row1 m
  | _ => row2 m
  end.

Definition mget (m : Mat3) (i j : nat) : float := vget (mrow m i) j.

Definition mset (m : Mat3) (i j : nat) (a : float) : Mat3 :=
  match i with
  | O => mkMat3 (vset (row0 m) j a) (row1 m) (row2 m)
  | S O => mkMat3 (row0 m) (vset (row1 m) j a) (row2 m)
  | _ => mkMat3 (row0 m) (row1 m) (vset (row2 m) j a)
  end.

Definition vzero : Vec3 := mkVec3 0 0 0.
Definition mzeros : Mat3 := mkMat3 vzero vzero vzero.
Definition midentity : Mat3 :=
  mkMat3 (mkVec3 1 0 0) (mkVec3 0 1 0) (mkVec3 0 0 1).

Definition vadd (a b : Vec3) : Vec3 :=
  mkVec3 (vx a + vx b) (vy a + vy b) (vz a + vz b).

Definition vsub (a b : Vec3) : Vec3 :=
  mkVec3 (vx a - vx b) (vy a - vy b) (vz a - vz b).

Definition vneg (a : Vec3) : Vec3 :=
  mkVec3 (- vx a) (- vy a) (- vz a).

(** [v * k] for a scalar [k]. *)
Definition vscale (a : Vec3) (k : float) : Vec3 :=
  mkVec3 (vx a * k) (vy a * k) (vz a * k).

(** [(v.xyz.T * [k0, k1, k2]).T]: component-wise product. *)
Definition vmul (a k : Vec3) : Vec3 :=
  mkVec3 (vx a * vx k) (vy a * vy k) (vz a * vz k).

Definition vdot (a b : Vec3) : float :=
  (vx a * vx b + vy a * vy b) + vz a * vz b.

Definition vnorm (a : Vec3) : float :=
  sqrt ((vx a * vx a + vy a * vy a) + vz a * vz a).

Definition vcross (a b : Vec3) : Vec3 :=
  mkVec3 (vy a * vz b - vz a * vy b)
         (vz a * vx b - vx a * vz b)
         (vx a * vy b - vy a * vx b).

(** [matrix_transpose]. *)
Definition matrix_transpose (m : Mat3) : Mat3 :=
  mkMat3 (mkVec3 (mget m 0 0) (mget m 1 0) (mget m 2 0))
         (mkVec3 (mget m 0 1) (mget m 1 1) (mget m 2 1))
         (mkVec3 (mget m 0 2) (mget m 1 2) (mget m 2 2)).

(** [matrix @ v]: what [CartesianRepresentation.transform] does to the
    position (and to an attached velocity). *)
Definition mapply (m : Mat3) (v : Vec3) : Vec3 :=
  mkVec3 (vdot (row0 m) v) (vdot (row1 m) v) (vdot (row2 m) v).

Definition mcol (m : Mat3) (j : nat) : Vec3 :=
  mkVec3 (mget m 0 j) (mget m 1 j) (mget m 2 j).

(** [a @ b], also [matrix_product(a, b)]. Every product and every sum is
    rounded, in the order written; NumPy may accumulate in another order
    and differ in the last bit of an entry. The statements below depend on
    the propagation of NaN and of zeros only. *)
Definition matrix_product (a b : Mat3) : Mat3 :=
  let r (i : nat) :=
    mkVec3 (vdot (mrow a i) (mcol b 0))
           (vdot (mrow a i) (mcol b 1))
           (vdot (mrow a i) (mcol b 2)) in
  mkMat3 (r 0%nat) (r 1%nat) (r 2%nat).

(** [numpy.isclose] with [rtol = 1e-5], [atol = 0] and [equal_nan = False],
    which is what [u.allclose(a, b)] evaluates on two scalars. *)
Definition allclose (a b : float) : bool :=
  if PrimFloat.is_finite a && PrimFloat.is_finite b
  then PrimFloat.leb (abs (a - b)) (0 + 0x1.4f8b588e368f1p-17 * abs b)
  else PrimFloat.eqb a b.

Definition vec_all_nan (v : Vec3) : bool :=
  PrimFloat.is_nan (vx v) && PrimFloat.is_nan (vy v) && PrimFloat.is_nan (vz v).

Definition mat_all_nan (m : Mat3) : bool :=
  vec_all_nan (row0 m) && vec_all_nan (row1 m) && vec_all_nan (row2 m).

(** The axis argument of Astropy's [rotation_matrix]: one of the strings
    ['x'], ['y'], ['z'], or a three-element list. *)
Inductive Axis : Type :=
  | AxisX
  | AxisY
  | AxisZ
  | AxisVector (v : Vec3).

Section Libm.

Variables np_sin np_cos np_arccos : float -> float.

(** Astropy's [rotation_matrix(angle, axis)], named-axis branch:
    [R = zeros; R[i,i] = 1; R[a1,a1] = c; R[a1,a2] = s; R[a2,a1] = -s;
    R[a2,a2] = c] with [a1 = (i+1) % 3], [a2 = (i+2) % 3]. *)
Definition rotation_matrix_named (angle : float) (i : nat) : Mat3 :=
  let s := np_sin angle in
  let c := np_cos angle in
  let a1 := ((i + 1) mod 3)%nat in
  let a2 := ((i + 2) mod 3)%nat in
  let R := mzeros in
  let R := mset R i i 1 in
  let R := mset R a1 a1 c in
  let R := mset R a1 a2 s in
  let R := mset R a2 a1 (- s) in
  mset R a2 a2 c.

(** Astropy's [rotation_matrix(angle, axis)], general branch:
    [axis = axis / sqrt((axis*axis).sum())],
    [R = axis[:,None] * axis[None,:] * (1 - c)], then for [i] in
    [0, 1, 2]: [R[i,i] += c; R[a1,a2] += axis[i]*s; R[a2,a1] -= axis[i]*s]. *)
Definition rotation_matrix_general (angle : float) (axis : Vec3) : Mat3 :=
  let s := np_sin angle in
  let c := np_cos angle in
  let n := sqrt ((vx axis * vx axis + vy axis * vy axis) + vz axis * vz axis) in
  let axis := mkVec3 (vx axis / n) (vy axis / n) (vz axis / n) in
  let outer (i : nat) :=
    mkVec3 (vget axis i * vx axis * (1 - c))
           (vget axis i * vy axis * (1 - c))
           (vget axis i * vz axis * (1 - c)) in
  let R := mkMat3 (outer 0%nat) (outer 1%nat) (outer 2%nat) in
  fold_left
    (fun R i =>
       let R := mset R i i (mget R i i + c) in
       let a1 := ((i + 1) mod 3)%nat in
       let a2 := ((i + 2) mod 3)%nat in
       let R := mset R a1 a2 (mget R a1 a2 + vget axis i * s) in
       mset R a2 a1 (mget R a2 a1 - vget axis i * s))
    [0%nat; 1%nat; 2%nat] R.

Definition rotation_matrix (angle : float) (axis : Axis) : Mat3 :=
  match axis with
  | AxisX => rotation_matrix_named angle 0
  | AxisY => rotation_matrix_named angle 1
  | AxisZ => rotation_matrix_named angle 2
  | AxisVector v => rotation_matrix_general angle v
  end.

(** [_rotation_matrix_reprs_to_reprs] on scalar (0-d) representations,
    both already Cartesian. *)
Definition _rotation_matrix_reprs_to_reprs (A B : Vec3) : Mat3 :=
  let rotation_axis := vcross A B in
  let rotation_angle := - np_arccos (vdot A B / (vnorm A * vnorm B)) in
  rotation_matrix rotation_angle (AxisVector rotation_axis).

(** [_rotation_matrix_reprs_to_xz_about_z]. *)
Definition _rotation_matrix_reprs_to_xz_about_z (A : Vec3) : Mat3 :=
  let A_no_z := vmul A (mkVec3 1 1 0) in
  let x_axis := mkVec3 1 0 0 in
  _rotation_matrix_reprs_to_reprs A_no_z x_axis.

End Libm.

(** The matrix whose nine entries are NaN. *)
Definition mat_nan : Mat3 :=
  mkMat3 (mkVec3 nan nan nan) (mkVec3 nan nan nan) (mkVec3 nan nan nan).

(** A vector, a matrix of finite numbers; a vector of zeros of either
    sign. *)
Definition vec_finite (v : Vec3) : bool :=
  PrimFloat.is_finite (vx v) && PrimFloat.is_finite (vy v) && PrimFloat.is_finite (vz v).

Definition mat_finite (m : Mat3) : bool :=
  vec_finite (row0 m) && vec_finite (row1 m) && vec_finite (row2 m).

Definition vec_is_zero (v : Vec3) : bool :=
  PrimFloat.is_zero (vx v) && PrimFloat.is_zero (vy v) && PrimFloat.is_zero (vz v).

Definition signed_zero (a : float) : Prop := a = 0 \/ a = -0.

Definition zero_or_nan (a : float) : Prop := a = 0 \/ a = -0 \/ a = nan.

End Numeric.

(** ** Observation times and element-wise comparison *)

(** An instant is a number of ticks on a fixed time scale; a [Time] object
    holds one instant or a one-dimensional array of them. *)
Inductive Time : Type :=
  | TimeScalar (t : Z)
  | TimeArray (ts : list Z).

(** The value of an element-wise comparison: a NumPy boolean or an array
    of booleans. *)
Inductive BoolND : Type :=
  | BoolScalar (b : bool)
  | BoolArray (bs : list bool).

Definition np_all (b : BoolND) : bool :=
  match b with
  | BoolScalar b => b
  | BoolArray bs => forallb (fun x => x) bs
  end.

Definition np_any (b : BoolND) : bool :=
  match b with
  | BoolScalar b => b
  | BoolArray bs => existsb (fun x => x) bs
  end.

(** [bool(x)], as evaluated by [if x:] and by [x and y]. *)
Definition truth (b : BoolND) : result bool :=
  match b with
  | BoolScalar b => Ok b
  | BoolArray [] => Ok false
  | BoolArray [b] => Ok b
  | BoolArray (_ :: _ :: _) =>
      Raise (ValueError "The truth value of an array with more than one element is ambiguous. Use a.any() or a.all()")
  end.

Fixpoint zip_with_Z (f : Z -> Z -> bool) (xs ys : list Z) : list bool :=
  match xs, ys with
  | x :: xs, y :: ys => f x y :: zip_with_Z f xs ys
  | _, _ => []
  end.

(** Element-wise comparison of two [Time] objects with NumPy broadcasting
    (a scalar or a one-element array is repeated; other length mismatches
    raise). *)
Definition time_compare (f : Z -> Z -> bool) (a b : Time) : result BoolND :=
  match a, b with
  | TimeScalar x, TimeScalar y => Ok (BoolScalar (f x y))
  | TimeScalar x, TimeArray ys => Ok (BoolArray (map (f x) ys))
  | TimeArray xs, TimeScalar y => Ok (BoolArray (map (fun x => f x y) xs))
  | TimeArray xs, TimeArray ys =>
      if Nat.eqb (length xs) (length ys) then Ok (BoolArray (zip_with_Z f xs ys))
      else match xs, ys with
           | [x], _ => Ok (BoolArray (map (f x) ys))
           | _, [y] => Ok (BoolArray (map (fun x => f x y) xs))
           | _, _ => Raise (ValueError "operands could not be broadcast together")
           end
  end.

(** [a == b] on two [obstime] attribute values; [None] equals only [None]. *)
Definition obstime_eq (a b : option Time) : result BoolND :=
  match a, b with
  | None, None => Ok (BoolScalar true)
  | Some x, Some y => time_compare Z.eqb x y
  | _, _ => Ok (BoolScalar false)
  end.

(** [a != b] on two [obstime] attribute values. *)
Definition obstime_ne (a b : option Time) : result BoolND :=
  match a, b with
  | None, None => Ok (BoolScalar false)
  | Some x, Some y => time_compare (fun x y => negb (Z.eqb x y)) x y
  | _, _ => Ok (BoolScalar true)
  end.

(** [Time('J2000.0', scale='tt')]: the origin of the tick count. *)
Definition _J2000 : Time := TimeScalar 0.

(** ** Representations and frames *)

Import Numeric.

(** A Cartesian representation with an optional attached velocity (the
    differential stored under the key ['s']). *)
Record CartesianRepresentation : Type := mkCartesian {
  xyz : Vec3;
  differentials : option Vec3
}.

Inductive Position : Type :=
  | Cartesian (v : Vec3)
  | Spherical (lon lat distance : float)
  | UnitSpherical (lon lat : float).

(** The data of a frame: a position in one of the representation classes,
    with an optional velocity, kept in Cartesian components. *)
Record Representation : Type := mkRepresentation {
  position : Position;
  velocity : option Vec3
}.

Inductive FrameClass : Type :=
  | ICRS
  | HCRS
  | HeliocentricMeanEcliptic
  | HeliographicStonyhurst
  | HeliographicCarrington
  | Heliocentric
  | Helioprojective
  | HeliocentricEarthEcliptic
  | GeocentricSolarEcliptic
  | HeliocentricInertial
  | GeocentricEarthEquatorial.

(** The value of an [observer] attribute: [None], a name such as ["earth"]
    that has not been resolved, or a frame instance. *)
Inductive ObserverAttr (F : Type) : Type :=
  | ObsNone
  | ObsName (name : string)
  | ObsFrame (f : F).

Arguments ObsNone {F}.
Arguments ObsName {F} name.
Arguments ObsFrame {F} f.

Inductive Frame : Type := mkFrame {
  frame_class : FrameClass;
  _data : option Representation;
  obstime : option Time;
  equinox : option Time;
  observer : ObserverAttr Frame
}.

(** [isinstance(x, BaseCoordinateFrame)]. *)
Definition is_frame (x : ObserverAttr Frame) : bool :=
  match x with
  | ObsFrame _ => true
  | _ => false
  end.

(** [frame.realize_frame(data)]: the same class and attributes, new data. *)
Definition realize_frame (f : Frame) (d : Representation) : Frame :=
  mkFrame (frame_class f) (Some d) (obstime f) (equinox f) (observer f).

(** [frame.data]: raises when the frame has no data. *)
Definition frame_data (f : Frame) : result Representation :=
  match _data f with
  | Some d => Ok d
  | None => Raise (ValueError "The frame object does not have associated data")
  end.

(** [frame.replicate(obstime=t)]: a copy of the frame and of its data with
    the attribute replaced; it reads [frame.data]. *)
Definition replicate_obstime (f : Frame) (t : option Time) : result Frame :=
  let* d := frame_data f in
  Ok (mkFrame (frame_class f) (Some d) t (equinox f) (observer f)).

Definition of_cartesian (c : CartesianRepresentation) : Representation :=
  mkRepresentation (Cartesian (xyz c)) (differentials c).

(** [rep.transform(matrix)]: the matrix is applied to the position and to
    an attached velocity. *)
Definition cartesian_transform (c : CartesianRepresentation) (m : Mat3)
  : CartesianRepresentation :=
  mkCartesian (mapply m (xyz c)) (option_map (mapply m) (differentials c)).

Definition raise_if_has_differentials (op : string) (c : CartesianRepresentation)
  : result unit :=
  match differentials c with
  | Some _ => Raise (TypeError ("Operation '" ++ op ++ "' is not supported when differentials are attached"))
  | None => Ok tt
  end.

(** [a - b] and [a + b] on Cartesian representations. *)
Definition cartesian_sub (a b : CartesianRepresentation) : result CartesianRepresentation :=
  let* _ := raise_if_has_differentials "sub" a in
  Ok (mkCartesian (vsub (xyz a) (xyz b)) None).

Definition cartesian_add (a b : CartesianRepresentation) : result CartesianRepresentation :=
  let* _ := raise_if_has_differentials "add" a in
  Ok (mkCartesian (vadd (xyz a) (xyz b)) None).

(** [-a]. *)
Definition cartesian_neg (a : CartesianRepresentation) : result CartesianRepresentation :=
  let* _ := raise_if_has_differentials "neg" a in
  Ok (mkCartesian (vneg (xyz a)) None).

(** [CartesianRepresentation((a.xyz.T * [k0, k1, k2]).T)]: a fresh
    representation of the scaled components, without differentials. *)
Definition cartesian_flip (a : CartesianRepresentation) (k : Vec3)
  : CartesianRepresentation :=
  mkCartesian (vmul (xyz a) k) None.

(** [_matrix_hcc_to_hpc]: HPC_X = -HCC_Z, HPC_Y = HCC_X, HPC_Z = HCC_Y. *)
Definition _matrix_hcc_to_hpc : Mat3 :=
  mkMat3 (mkVec3 0 0 (-1)) (mkVec3 1 0 0) (mkVec3 0 1 0).

(** ** The documentation graph

    The transform graph is a mutable object; the functions below act on a
    store of such objects. Two module-level names refer to it: the one of
    [astropy.coordinates.baseframe], through which [transform_to] finds its
    transformations, and the one that [from ... import
    frame_transform_graph] binds in [sunpy.coordinates.transformations],
    which the statement [global frame_transform_graph] lets the function
    rebind. Frame classes are identified by their class names. *)

Module DocGraph.

(** Python's [str.find], slicing from an index, and [str.replace]. *)
Fixpoint find_from (sub s : string) (i : nat) : option nat :=
  if String.prefix sub s then Some i
  else match s with
       | EmptyString => None
       | String _ s' => find_from sub s' (S i)
       end.

Definition str_find (s sub : string) : Z :=
  match find_from sub s 0 with
  | Some i => Z.of_nat i
  | None => (-1)%Z
  end.

Fixpoint drop_chars (n : nat) (s : string) : string :=
  match n, s with
  | S n, String _ s' => drop_chars n s'
  | _, _ => s
  end.

(** [s[i:]]. *)
Definition slice_from (s : string) (i : Z) : string :=
  if (0 <=? i)%Z then drop_chars (Z.to_nat i) s
  else drop_chars (String.length s - Z.to_nat (- i)) s.

(** [s.replace(old, new)] for a non-empty [old]; [skip] counts the
    characters of a match that remain to be dropped. *)
Fixpoint replace_aux (old new s : string) (skip : nat) : string :=
  match s with
  | EmptyString => EmptyString
  | String c s' =>
      match skip with
      | S k => replace_aux old new s' k
      | O =>
          if String.prefix old s
          then String.append new (replace_aux old new s' (String.length old - 1))
          else String c (replace_aux old new s' 0)
      end
  end.

Definition str_replace (s old new : string) : string := replace_aux old new s 0.

(** The double quote and the newline. *)
Definition dq : string := String (Ascii.ascii_of_nat 34) EmptyString.
Definition nl : string := String (Ascii.ascii_of_nat 10) EmptyString.

Definition concat_all (parts : list string) : string :=
  fold_right String.append EmptyString parts.

(** [_add_legend_row(label, color)]. *)
Definition _add_legend_row (label color : string) : string :=
  concat_all
    [ "        <li style="; dq; "list-style: none;"; dq; ">"; nl;
      "            <p style="; dq;
      "font-size: 12px;line-height: 24px;font-weight: normal;";
      "color: #848484;padding: 0;margin: 0;"; dq; ">"; nl;
      "                <b>"; label; ":</b>"; nl;
      "                    <span class="; dq; "dot"; dq; " style="; dq;
      "height: 20px;width: 40px;";
      "background-color: "; color;
      ";border-radius: 50%;border: 1px solid black;";
      "display: inline-block;"; dq; "></span>"; nl;
      "            </p>"; nl;
      "        </li>"; nl; nl; nl ].

(** [_tweak_graph(docstr)]. *)
Definition _tweak_graph (docstr : string) : string :=
  let output := slice_from docstr (str_find docstr ".. Wrap the graph") in
  let output :=
    str_replace output
      (concat_all ["Astropy [shape=oval label="; dq; "Astropy\n`REPLACE`"; dq; "]"])
      (concat_all ["Astropy [shape=box3d style=filled fillcolor=lightcyan ";
                   "label="; dq; "Other frames\nin Astropy"; dq; "]"]) in
  let output :=
    str_replace output
      (concat_all ["ICRS -> Astropy[  color = "; dq; "#783001"; dq; " ]"])
      (concat_all ["ICRS -> Astropy[  color = "; dq; "#000000"; dq; " ]"]) in
  let output :=
    str_replace output
      (concat_all ["Astropy -> ICRS[  color = "; dq; "#783001"; dq; " ]"])
      (concat_all ["Astropy -> ICRS[  color = "; dq; "#000000"; dq; " ]"]) in
  let output :=
    str_replace output "AstropyCoordinateTransformGraph {"
      (concat_all ["AstropyCoordinateTransformGraph {"; nl;
                   "        node [style=filled fillcolor=lightcyan]"]) in
  let sunpy_frames :=
    [ "HeliographicStonyhurst"; "HeliographicCarrington"; "Heliocentric";
      "Helioprojective"; "HeliocentricEarthEcliptic"; "GeocentricSolarEcliptic";
      "HeliocentricInertial"; "GeocentricEarthEquatorial" ] in
  let output :=
    fold_left
      (fun output frame =>
         str_replace output (String.append frame " [")
           (String.append frame " [fillcolor=white "))
      sunpy_frames output in
  let output :=
    str_replace output "        overlap=false"
      (concat_all ["        overlap=false"; nl; "        rankdir=LR"; nl;
                   "        {rank=same; ICRS; HCRS; Astropy}"]) in
  str_replace output (concat_all ["<ul>"; nl; nl])
    (concat_all ["<ul>"; nl; nl; _add_legend_row "SunPy frames" "white";
                 _add_legend_row "Astropy frames" "lightcyan"]).

(** A transform graph object: [_graph] maps a source class to the map from
    destination classes to the registered transformation (here its name),
    [_cached_names_dct] is the cache of the table from frame names to
    classes ([None] when it has been invalidated). *)
Record TransformGraph : Type := mkTransformGraph {
  _graph : gmap string (gmap string string);
  _cached_names_dct : option (gmap string string)
}.

(** The store of graph objects and the two module-level names. *)
Record World : Type := mkWorld {
  heap : gmap nat TransformGraph;
  astropy_frame_transform_graph : nat;
  frame_transform_graph : nat
}.

Definition read (w : World) (l : nat) : result TransformGraph :=
  match heap w !! l with
  | Some g => Ok g
  | None => Raise (LibraryError "no such object")
  end.

Definition write (w : World) (l : nat) (g : TransformGraph) : World :=
  mkWorld (<[l := g]> (heap w)) (astropy_frame_transform_graph w)
    (frame_transform_graph w).

Definition bind_global (w : World) (l : nat) : World :=
  mkWorld (heap w) (astropy_frame_transform_graph w) l.

(** [deepcopy(obj)]: a new object with the same contents. *)
Definition deepcopy (w : World) (l : nat) : result (World * nat) :=
  let* g := read w l in
  let l' := fresh (dom (heap w)) in
  Ok (write w l' g, l').

(** The transformation that [transform_to] finds for a pair of classes:
    it is looked up in the graph of [astropy.coordinates.baseframe]. *)
Definition registered_transform (w : World) (fromsys tosys : string) : option string :=
  match heap w !! astropy_frame_transform_graph w with
  | Some g =>
      match _graph g !! fromsys with
      | Some edges => edges !! tosys
      | None => None
      end
  | None => None
  end.

(** Every object of the earlier store is still there with the same
    contents, and the name of [astropy.coordinates.baseframe] still refers
    to the same object. *)
Definition unchanged_on (w0 w : World) : Prop :=
  astropy_frame_transform_graph w = astropy_frame_transform_graph w0 /\
  forall l g, heap w0 !! l = Some g -> heap w !! l = Some g.

(** The state of the copy that is being pruned. *)
Definition small_is (w : World) (small : nat) (names : gmap string string) : Prop :=
  exists graph, heap w !! small = Some (mkTransformGraph graph (Some names)).

Definition keep_list : list string :=
  [ "icrs"; "hcrs"; "heliocentrictrueecliptic"; "heliocentricmeanecliptic";
    "heliographic_stonyhurst"; "heliographic_carrington";
    "heliocentric"; "helioprojective";
    "heliocentricearthecliptic"; "geocentricsolarecliptic";
    "heliocentricinertial"; "geocentricearthequatorial";
    "gcrs"; "precessedgeocentric"; "geocentrictrueecliptic";
    "geocentricmeanecliptic"; "cirs"; "altaz"; "itrs" ].

(** The transformation registered in a [_graph] dictionary from the class
    [a] to the class [b]. *)
Definition edge (graph : gmap string (gmap string string)) (a b : string)
  : option string :=
  match graph !! a with
  | Some edges => edges !! b
  | None => None
  end.

(** [cull_list] and [cull_frames] of [_make_sunpy_graph] for a table of
    names: the names outside the keep list, and their classes. *)
Definition cull_list_of (names : gmap string string) : list string :=
  filter (fun name => negb (existsb (String.eqb name) keep_list))
    (map fst (map_to_list names)).

Definition cull_frames_of (names : gmap string string) : list string :=
  omap (fun name => names !! name) (cull_list_of names).

(** The [_graph] dictionary after one iteration of [for frame in
    cull_frames]. *)
Definition culled_graph (graph : gmap string (gmap string string)) (frame : string)
  : gmap string (gmap string string) :=
  delete frame <$>
    match graph !! frame with
    | Some _ => delete frame graph
    | None => graph
    end.

Section Library.

(** The table from frame names to classes that the library builds from the
    classes of a graph when the cache is empty. *)
Variable build_names : gmap string (gmap string string) -> gmap string string.

(** [make_transform_graph_docs()]: it reads the graphs and writes nothing. *)
Variable make_transform_graph_docs : World -> string.

(** The property [graph._cached_names]: fills the cache of that object. *)
Definition cached_names (w : World) (l : nat)
  : result (World * gmap string string) :=
  let* g := read w l in
  match _cached_names_dct g with
  | Some names => Ok (w, names)
  | None =>
      let names := build_names (_graph g) in
      Ok (write w l (mkTransformGraph (_graph g) (Some names)), names)
  end.

(** One iteration of [for frame in cull_frames]: the class is removed as a
    source, then as a destination of every remaining source. *)
Definition cull_frame (w : World) (small_graph : nat) (frame : string) : result World :=
  let* g := read w small_graph in
  let graph := _graph g in
  let graph :=
    match graph !! frame with
    | Some _ => delete frame graph
    | None => graph
    end in
  let graph := delete frame <$> graph in
  Ok (write w small_graph (mkTransformGraph graph (_cached_names_dct g))).

(** One iteration of [for name in cull_list]:
    [small_graph._cached_names.pop(name)]. *)
Definition pop_name (w : World) (small_graph : nat) (name : string) : result World :=
  let* '(w, names) := cached_names w small_graph in
  let* g := read w small_graph in
  match names !! name with
  | Some _ =>
      Ok (write w small_graph (mkTransformGraph (_graph g) (Some (delete name names))))
  | None => Raise (LibraryError "KeyError")
  end.

(** [graph.add_transform(fromsys, tosys, transform)], which ends with
    [invalidate_cache()]. *)
Definition add_transform (w : World) (graph : nat) (fromsys tosys transform : string)
  : result World :=
  let* g := read w graph in
  let edges := default ∅ (_graph g !! fromsys) in
  Ok (write w graph
        (mkTransformGraph (<[fromsys := <[tosys := transform]> edges]> (_graph g)) None)).

(** [_add_astropy_node(graph)]. *)
Definition _add_astropy_node (w : World) (graph : nat) : result World :=
  let* w := add_transform w graph "Astropy" "ICRS" "fake_transform1" in
  add_transform w graph "ICRS" "Astropy" "fake_transform2".

(** A loop over a list that records the state after every iteration. *)
Fixpoint run_loop (step : World -> string -> result World) (w : World)
  (items : list string) : result (World * list World) :=
  match items with
  | [] => Ok (w, [])
  | x :: rest =>
      let* w1 := step w x in
      let* '(w2, states) := run_loop step w1 rest in
      Ok (w2, w1 :: states)
  end.

(** [_make_sunpy_graph()]. Besides the returned string, the result lists
    the states of the store and of the two names after every statement of
    the function and every iteration of its two loops. *)
Definition _make_sunpy_graph (w0 : World) : result (string * list World) :=
  let* '(w1, backup_graph) := deepcopy w0 (frame_transform_graph w0) in
  let* '(w2, small_graph) := deepcopy w1 (frame_transform_graph w1) in
  let* '(w3, names) := cached_names w2 small_graph in
  let cull_list :=
    filter (fun name => negb (existsb (String.eqb name) keep_list))
      (map fst (map_to_list names)) in
  let cull_frames := omap (fun name => names !! name) cull_list in
  let* '(w4, culled) := run_loop (fun w => cull_frame w small_graph) w3 cull_frames in
  let* '(w5, popped) := run_loop (fun w => pop_name w small_graph) w4 cull_list in
  let* w6 := _add_astropy_node w5 small_graph in
  let w7 := bind_global w6 small_graph in
  let docstr := make_transform_graph_docs w7 in
  let w8 := bind_global w7 backup_graph in
  let docstr := _tweak_graph docstr in
  Ok (docstr, [w1; w2; w3] ++ culled ++ popped ++ [w6; w7; w8]).

End Library.

End DocGraph.

(** ** The LYRA helpers of [sunpy/instr/lyra.py] *)

Module Lyra.

Local Open Scope Z_scope.

(** The argument of [_lytaf_event2string]: an [int] or a list of them. *)
Inductive Integers : Type :=
  | AnInt (i : Z)
  | IntList (l : list Z).

(** [if i == k: out.append(label)]. *)
Definition append_if (i k : Z) (label : string) (out : list string) : list string :=
  if i =? k then out ++ [label] else out.

(** The body of the loop [for i in integers] of [_lytaf_event2string]: a
    sequence of eleven [if] statements. *)
Definition event2string_body (out : list string) (i : Z) : list string :=
  let out := append_if i 1 "LAR" out in
  let out := append_if i 2 "N/A" out in
  let out := append_if i 3 "UV occult." out in
  let out := append_if i 4 "Vis. occult." out in
  let out := append_if i 5 "Offpoint" out in
  let out := append_if i 6 "SAA" out in
  let out := append_if i 7 "Auroral zone" out in
  let out := append_if i 8 "Moon in LYRA" out in
  let out := append_if i 9 "Moon in SWAP" out in
  let out := append_if i 10 "Venus in LYRA" out in
  append_if i 11 "Venus in SWAP" out.

(** The codes for which the loop has a label. *)
Definition known_event (i : Z) : bool := (1 <=? i) && (i <=? 11).

(** [_lytaf_event2string(integers)]. *)
Definition _lytaf_event2string (integers : Integers) : list string :=
  let integers :=
    match integers with
    | AnInt i => [i]
    | IntList l => l
    end in
  fold_left event2string_body integers [].

(** An entry of the LYTAF table, as far as [split_series_using_lytaf] reads
    it; a [datetime] is a number of microseconds. *)
Record LytafEvent : Type := mkLytafEvent {
  start_time : Z;
  end_time : Z
}.

(** [numpy.searchsorted(a, v)] (side ['left']): the binary search of NumPy
    between the indices [lo] and [hi]. *)
Fixpoint binsearch_left (fuel : nat) (a : list Z) (v : Z) (lo hi : nat) : nat :=
  match fuel with
  | O => lo
  | S fuel =>
      if (lo <? hi)%nat then
        let mid := (lo + (hi - lo) / 2)%nat in
        if nth mid a 0 <? v then binsearch_left fuel a v (mid + 1) hi
        else binsearch_left fuel a v lo mid
      else lo
  end.

Definition searchsorted (a : list Z) (v : Z) : nat :=
  binsearch_left (length a) a v 0 (length a).

(** [mask[start:end] = 0]. *)
Definition zero_slice (mask : list Z) (start stop : nat) : list Z :=
  imap (fun i m => if (start <=? i)%nat && (i <? stop)%nat then 0 else m) mask.

(** [numpy.diff(mask)]. *)
Fixpoint np_diff (l : list Z) : list Z :=
  match l with
  | a :: (b :: _) as rest => (b - a) :: np_diff rest
  | _ => []
  end.

(** [numpy.where(l != 0.)[0]]. *)
Fixpoint where_nonzero (l : list Z) (i : nat) : list nat :=
  match l with
  | [] => []
  | x :: rest => if x =? 0 then where_nonzero rest (S i) else i :: where_nonzero rest (S i)
  end.

(** [l[start:stop]] for indices that are not negative. *)
Definition slice {A : Type} (l : list A) (start stop : nat) : list A :=
  take (stop - start) (drop start l).

(** [l[start:-1]]. *)
Definition slice_to_last {A : Type} (l : list A) (start : nat) : list A :=
  slice l start (length l - 1).

Section Series.

(** The elements of [timearray], those of [data], and
    [sunpy.time.parse_time]. *)
Variables T D : Type.
Variable parse_time : T -> result Z.

Record SubSeries : Type := mkSubSeries {
  subtimes : list Z;
  subdata : list D
}.

Fixpoint parse_all (timearray : list T) : result (list Z) :=
  match timearray with
  | [] => Ok []
  | tim :: rest =>
      let* t := parse_time tim in
      let* ts := parse_all rest in
      Ok (t :: ts)
  end.

(** [for h in range(0, limit, 2)] of [split_series_using_lytaf], on the
    indices [disc[h:]]. *)
Fixpoint good_regions (datetime_array : list Z) (data : list D)
  (disc : list nat) : list SubSeries :=
  match disc with
  | [] => []
  | [d] => [mkSubSeries (slice_to_last datetime_array d) (slice_to_last data d)]
  | d :: d' :: rest =>
      mkSubSeries (slice datetime_array d d') (slice data d d')
      :: good_regions datetime_array data rest
  end.

(** [split_series_using_lytaf(timearray, data, lar)]. The mask holds the
    numbers 1.0 and 0.0, here the integers 1 and 0; the message printed
    when no event is found is not part of the result. *)
Definition split_series_using_lytaf (timearray : list T) (data : list D)
  (lar : list LytafEvent) : result (list SubSeries) :=
  let n := length timearray in
  let mask := replicate n 1 in
  let* datetime_array := parse_all timearray in
  let mask :=
    fold_left
      (fun mask ev =>
         let start_ind := searchsorted datetime_array (start_time ev) in
         let end_ind := searchsorted datetime_array (end_time ev) in
         zero_slice mask start_ind end_ind)
      lar mask in
  let diffmask := np_diff mask in
  let disc := where_nonzero diffmask 0 in
  if (length disc =? 0)%nat then Ok [mkSubSeries datetime_array data]
  else
    let disc :=
      if nth (nth 0 disc 0%nat) diffmask 0 =? -1 then 0%nat :: disc else disc in
    Ok (good_regions datetime_array data disc).

End Series.

(** Python values, as far as the input checks of the module tell them
    apart; a [datetime] is a number of microseconds. *)
Inductive PyType : Type :=
  | NoneType
  | IntType
  | StrType
  | DatetimeType
  | ListType
  | NdarrayType
  | DatetimeIndexType
  | TypeType.

Inductive PyVal : Type :=
  | PNone
  | PInt (i : Z)
  | PStr (s : string)
  | PDatetime (t : Z)
  | PList (items : list PyVal)
  | PArray (items : list PyVal)
  | PDatetimeIndex (ts : list Z)
  | PType (t : PyType).

Definition PyType_eqb (a b : PyType) : bool :=
  match a, b with
  | NoneType, NoneType | IntType, IntType | StrType, StrType
  | DatetimeType, DatetimeType | ListType, ListType | NdarrayType, NdarrayType
  | DatetimeIndexType, DatetimeIndexType | TypeType, TypeType => true
  | _, _ => false
  end.

(** [type(v)]. *)
Definition py_type (v : PyVal) : PyType :=
  match v with
  | PNone => NoneType
  | PInt _ => IntType
  | PStr _ => StrType
  | PDatetime _ => DatetimeType
  | PList _ => ListType
  | PArray _ => NdarrayType
  | PDatetimeIndex _ => DatetimeIndexType
  | PType _ => TypeType
  end.

(** [a is not b] where [a] is a type object and [b] is [None] or a type
    object: [None] and each type are single objects. *)
Definition is_not (a b : PyVal) : bool :=
  match a, b with
  | PNone, PNone => false
  | PType s, PType t => negb (PyType_eqb s t)
  | _, _ => true
  end.

(** [isinstance(v, datetime)] and [isinstance(v, str)]. *)
Definition is_datetime (v : PyVal) : bool :=
  match v with PDatetime _ => true | _ => false end.

Definition is_str (v : PyVal) : bool :=
  match v with PStr _ => true | _ => false end.

(** The elements that [for t in v] goes through; the elements of a
    [DatetimeIndex] are [Timestamp] objects, which are [datetime]s. *)
Definition py_iter (v : PyVal) : result (list PyVal) :=
  match v with
  | PList items => Ok items
  | PArray items => Ok items
  | PStr s => Ok (map (fun c => PStr (String c EmptyString)) (list_ascii_of_string s))
  | PDatetimeIndex ts => Ok (map PDatetime ts)
  | PNone => Raise (TypeError "'NoneType' object is not iterable")
  | PInt _ => Raise (TypeError "'int' object is not iterable")
  | PDatetime _ => Raise (TypeError "'datetime.datetime' object is not iterable")
  | PType _ => Raise (TypeError "'type' object is not iterable")
  end.

Fixpoint map_result {A B : Type} (f : A -> result B) (l : list A) : result (list B) :=
  match l with
  | [] => Ok []
  | x :: rest =>
      let* y := f x in
      let* ys := map_result f rest in
      Ok (y :: ys)
  end.

(** The values of a C [int], to which [datetime] converts its arguments. *)
Definition c_int_min : Z := -2147483648.
Definition c_int_max : Z := 2147483647.

(** [datetime(t)]: the constructor needs a year, a month and a day. Its
    first argument is converted to a C [int], which fails with
    [OverflowError] for an integer out of range and with [TypeError] for a
    value that is not an integer; then the missing month is reported. *)
Definition datetime_of (t : PyVal) : result PyVal :=
  match t with
  | PInt i =>
      if i <? c_int_min then
        Raise (OverflowError "signed integer is less than minimum")
      else if c_int_max <? i then
        Raise (OverflowError "signed integer is greater than maximum")
      else Raise (TypeError "Required argument 'month' (pos 2) not found")
  | _ => Raise (TypeError "an integer is required")
  end.


Section Checks.

(** [sunpy.time.parse_time] on a string. *)
Variable parse_time : string -> result Z.

(** [parse_time(t)] on an element of [time]. *)
Definition parse_time_of (t : PyVal) : result PyVal :=
  match t with
  | PStr s => let* d := parse_time s in Ok (PDatetime d)
  | _ => Raise (TypeError "parse_time: not a time string")
  end.

(** [_check_datetime(time)]. *)
Definition _check_datetime (time : PyVal) : result PyVal :=
  let* items := py_iter time in
  if negb (forallb is_datetime items) then
    if PyType_eqb (py_type time) DatetimeIndexType then Ok (PArray items)
    else if forallb is_str items then
      let* ts := map_result parse_time_of items in Ok (PArray ts)
    else
      match map_result datetime_of items with
      | Ok ts => Ok (PArray ts)
      | Raise (TypeError _) =>
          Raise (TypeError "time must be an array-like of datetime objects, valid time strings, or pandas DatetimeIndexes.")
      | Raise e => Raise e
      end
  else Ok time.

(** The statements of [remove_lyra_artifacts(time, channels, artifacts, ...)]
    under [# Check inputs], with which the function starts; the value is
    the checked [time]. *)
Definition remove_lyra_artifacts_check_inputs (time channels artifacts : PyVal)
  : result PyVal :=
  let* time := _check_datetime time in
  let* types := py_iter artifacts in
  if negb (forallb is_str types) then
    Raise (TypeError "All elements in artifacts must in strings.")
  else if is_not (PType (py_type channels)) PNone &&
          is_not (PType (py_type channels)) (PType ListType) then
    Raise (TypeError "channels must be None or a list of numpy arrays of dtype 'float64'.")
  else Ok time.

End Checks.

End Lyra.

(** ** A small scenario for evaluating the functions

    Concrete collaborators: polynomial approximations of the libm
    functions, a Sun at the barycentre with the Earth one length unit away
    on the X axis, moving along Y, and a graph dispatch for frames whose
    axes coincide (the data are handed over unchanged). *)

Module Scenario.

Definition pi : float := 0x1.921fb54442d18p+1%float.

(** Taylor polynomials of sine and cosine, of degree 17 and 16. *)
Definition np_sin (x : float) : float :=
  let q := (x * x)%float in
  (x * (1 - q / 6 * (1 - q / 20 * (1 - q / 42 * (1 - q / 72 * (1 - q / 110 *
     (1 - q / 156 * (1 - q / 210 * (1 - q / 272)))))))))%float.

Definition np_cos (x : float) : float :=
  let q := (x * x)%float in
  (1 - q / 2 * (1 - q / 12 * (1 - q / 30 * (1 - q / 56 * (1 - q / 90 *
     (1 - q / 132 * (1 - q / 182 * (1 - q / 240))))))))%float.

(** The arctangent: three halvings of the angle, then the series. *)
Definition halve (t : float) : float := (t / (1 + sqrt (1 + t * t)))%float.

Definition arctan (t : float) : float :=
  let u := halve (halve (halve t)) in
  let q := (u * u)%float in
  (8 * (u * (1 - q * (1 / 3 - q * (1 / 5 - q * (1 / 7 - q * (1 / 9 - q / 11)))))))%float.

Definition np_arccos (x : float) : float :=
  if PrimFloat.leb x (-1) then pi
  else (2 * arctan (sqrt ((1 - x) / (1 + x))))%float.

Definition np_arctan2 (y x : float) : float :=
  if PrimFloat.ltb 0 x then arctan (y / x)
  else if PrimFloat.ltb x 0 then
    (if PrimFloat.ltb y 0 then arctan (y / x) - pi else arctan (y / x) + pi)%float
  else if PrimFloat.ltb 0 y then (pi / 2)%float
  else if PrimFloat.ltb y 0 then (- (pi / 2))%float
  else 0%float.

Definition np_hypot (x y : float) : float := sqrt (x * x + y * y)%float.

Definition get_body_barycentric (body : string) (t : option Time) : result Vec3 :=
  match t with
  | None => Raise (LibraryError "no time given")
  | Some _ =>
      if String.eqb body "sun" then Ok (mkVec3 0 0 0) else Ok (mkVec3 1 0 0)
  end.

Definition get_body_barycentric_posvel (body : string) (t : option Time)
  : result (Vec3 * Vec3) :=
  let* pos := get_body_barycentric body t in
  if String.eqb body "sun" then Ok (pos, mkVec3 0 0 0)
  else Ok (pos, mkVec3 0 0x1.19ce075f6fd22p-6 0).

Definition L0 (t : Time) : result float := Ok 0%float.

Definition _OBLIQUITY_J2000 : float := 0x1.a2e92bb261a7fp-2%float.

Definition transform_to (coord frame : Frame) : result Frame :=
  let* d := frame_data coord in Ok (realize_frame frame d).

Definition calculate_distance (coord : Frame) : result Frame := Ok coord.

(** Two distinct frame objects do not compare equal. *)
Definition frame_eq (a b : Frame) : result bool := Ok false.

Definition t0 : Time := TimeScalar 0.
Definition t1 : Time := TimeScalar 86400.

Definition unit_x : Representation := mkRepresentation (Cartesian (mkVec3 1 0 0)) None.

Definition moving_x : Representation :=
  mkRepresentation (Cartesian (mkVec3 1 0 0)) (Some (mkVec3 0 1 0)).

(** The Earth as an observer at [t0]. *)
Definition earth : Frame :=
  mkFrame HeliographicStonyhurst (Some (mkRepresentation (Spherical 0 0 1) None))
    (Some t0) None ObsNone.


(** A coordinate of class [cls] with data [(1, 0, 0)] at time [t]. *)
Definition coord_at (cls : FrameClass) (t : option Time) (obs : ObserverAttr Frame)
  : Frame :=
  mkFrame cls (Some unit_x) t None obs.

(** A destination frame without data. *)
Definition frame_at (cls : FrameClass) (t : option Time) (obs : ObserverAttr Frame)
  : Frame :=
  mkFrame cls None t None obs.

(** A graph with two Astropy classes outside the keep list, and the store
    in which both module-level names refer to it. *)
Definition example_graph : DocGraph.TransformGraph :=
  DocGraph.mkTransformGraph
    (<["ICRS" := <["HCRS" := "icrs_to_hcrs"]> (<["Galactic" := "icrs_to_gal"]> ∅)]>
       (<["Galactic" := <["ICRS" := "gal_to_icrs"]> ∅]>
          (<["HCRS" := <["ICRS" := "hcrs_to_icrs"]> ∅]> ∅)))
    None.

Definition example_names (g : gmap string (gmap string string)) : gmap string string :=
  <["icrs" := "ICRS"]> (<["hcrs" := "HCRS"]> (<["galactic" := "Galactic"]> ∅)).

Definition example_docs (w : DocGraph.World) : string := ".. Wrap the graph".

Definition example_world : DocGraph.World :=
  DocGraph.mkWorld (<[0%nat := example_graph]> ∅) 0 0.

End Scenario.

(** ** The transformation functions *)

Section Transformations.

(** The libm functions behind [numpy.sin], [numpy.cos], [numpy.arccos],
    [numpy.arctan2] and [numpy.hypot]. *)
Variables np_sin np_cos np_arccos : float -> float.
Variables np_arctan2 np_hypot : float -> float -> float.

(** The ephemeris: [get_body_barycentric(body, time)] and
    [get_body_barycentric_posvel(body, time)]. *)
Variable get_body_barycentric : string -> option Time -> result Vec3.
Variable get_body_barycentric_posvel : string -> option Time -> result (Vec3 * Vec3).

(** [sunpy.coordinates.sun.L0(time)], in radians. *)
Variable L0 : Time -> result float.

(** The mean obliquity of the ecliptic at J2000.0 ([obl06] of ERFA), in
    radians. *)
Variable _OBLIQUITY_J2000 : float.

(** [coord.transform_to(frame)]: the dispatch through Astropy's transform
    graph. *)
Variable transform_to : Frame -> Frame -> result Frame.

(** [Helioprojective.calculate_distance], defined in [frames.py]. *)
Variable calculate_distance : Frame -> result Frame.

(** The truth value of [a == b] on two frame instances. *)
Variable frame_eq : Frame -> Frame -> result bool.

(** [rep.represent_as(SphericalRepresentation)] on a Cartesian
    representation; differentials are not carried over. The longitude is
    the value of [arctan2]; Astropy stores it wrapped into the range from 0
    to 360 degrees, which no statement below depends on. *)
Definition represent_as_spherical (c : CartesianRepresentation) : Representation :=
  let s := np_hypot (vx (xyz c)) (vy (xyz c)) in
  let r := np_hypot s (vz (xyz c)) in
  let lon := np_arctan2 (vy (xyz c)) (vx (xyz c)) in
  let lat := np_arctan2 (vz (xyz c)) s in
  mkRepresentation (Spherical lon lat r) None.

(** [rep.to_cartesian()] on the position. *)
Definition to_cartesian (p : Position) : Vec3 :=
  match p with
  | Cartesian v => v
  | Spherical lon lat d =>
      mkVec3 (d * np_cos lat * np_cos lon)%float
             (d * np_cos lat * np_sin lon)%float
             (d * np_sin lat)%float
  | UnitSpherical lon lat =>
      mkVec3 (np_cos lat * np_cos lon)%float
             (np_cos lat * np_sin lon)%float
             (np_sin lat)%float
  end.

(** [frame.cartesian]. *)
Definition frame_cartesian (f : Frame) : result CartesianRepresentation :=
  let* d := frame_data f in
  Ok (mkCartesian (to_cartesian (position d)) (velocity d)).

(** The spherical components [(lon, lat, radius)] of a frame's data, as
    read by [frame.lon], [frame.lat] and [frame.radius]. *)
Definition frame_spherical (f : Frame) : result (float * float * float) :=
  let* d := frame_data f in
  match position d with
  | Spherical lon lat r => Ok (lon, lat, r)
  | UnitSpherical lon lat => Ok (lon, lat, 1%float)
  | Cartesian v =>
      let s := np_hypot (vx v) (vy v) in
      Ok (np_arctan2 (vy v) (vx v), np_arctan2 (vz v) s, np_hypot s (vz v))
  end.

Definition frame_lon (f : Frame) : result float :=
  let* '(lon, _, _) := frame_spherical f in Ok lon.

Definition frame_lat (f : Frame) : result float :=
  let* '(_, lat, _) := frame_spherical f in Ok lat.

Definition frame_radius (f : Frame) : result float :=
  let* '(_, _, r) := frame_spherical f in Ok r.

(** [observer.radius] on the value of an [observer] attribute. *)
Definition observer_radius (obs : ObserverAttr Frame) : result float :=
  match obs with
  | ObsFrame f => frame_radius f
  | ObsName _ => Raise (AttributeError "'str' object has no attribute 'radius'")
  | ObsNone => Raise (AttributeError "'NoneType' object has no attribute 'radius'")
  end.

(** The truth value of [obs_1 == obs_2] on two [observer] attribute values. *)
Definition observer_eq (obs_1 obs_2 : ObserverAttr Frame) : result bool :=
  match obs_1, obs_2 with
  | ObsNone, ObsNone => Ok true
  | ObsName a, ObsName b => Ok (String.eqb a b)
  | ObsFrame f1, ObsFrame f2 => frame_eq f1 f2
  | _, _ => Ok false
  end.

(** [_observers_are_equal(obs_1, obs_2, string_ok)]. The value of the
    [and] chain is its first false operand or its last operand, which is
    the element-wise comparison of the two observation times. *)
Definition _observers_are_equal (obs_1 obs_2 : ObserverAttr Frame) (string_ok : bool)
  : result BoolND :=
  let* same := (if string_ok then observer_eq obs_1 obs_2 else Ok false) in
  if same then Ok (BoolScalar true)
  else
    match obs_1, obs_2 with
    | ObsFrame f1, ObsFrame f2 =>
        let* lat1 := frame_lat f1 in
        let* lat2 := frame_lat f2 in
        if negb (allclose lat1 lat2) then Ok (BoolScalar false)
        else
          let* lon1 := frame_lon f1 in
          let* lon2 := frame_lon f2 in
          if negb (allclose lon1 lon2) then Ok (BoolScalar false)
          else
            let* r1 := frame_radius f1 in
            let* r2 := frame_radius f2 in
            if negb (allclose r1 r2) then Ok (BoolScalar false)
            else obstime_eq (obstime f1) (obstime f2)
    | _, _ =>
        Raise (ValueError "To compare two observers, both must be instances of BaseCoordinateFrame. Cannot compare two observers {} and {}.")
    end.

(** [_transform_obstime(frame, obstime)]; the second parameter is called
    [new_obstime] here. *)
Definition _transform_obstime (frame : Frame) (new_obstime : option Time)
  : result Frame :=
  let* unchanged :=
    match new_obstime with
    | None => Ok true
    | Some _ =>
        let* e := obstime_eq (obstime frame) new_obstime in Ok (np_all e)
    end in
  if unchanged then Ok frame
  else
    let* new_frame := replicate_obstime frame new_obstime in
    match obstime frame with
    | Some _ => transform_to frame new_frame
    | None => Ok new_frame
    end.

(** [_transform_obstime] applied to the value of an [observer] attribute,
    as [hcc_to_hpc] and [hpc_to_hcc] do: with [obstime is None] the value
    is returned untouched, otherwise [frame.obstime] is read. *)
Definition _transform_obstime_observer (obs : ObserverAttr Frame)
  (new_obstime : option Time) : result (ObserverAttr Frame) :=
  match new_obstime with
  | None => Ok obs
  | Some _ =>
      match obs with
      | ObsFrame f =>
          let* f' := _transform_obstime f new_obstime in Ok (ObsFrame f')
      | ObsName _ => Raise (AttributeError "'str' object has no attribute 'obstime'")
      | ObsNone => Raise (AttributeError "'NoneType' object has no attribute 'obstime'")
      end
  end.

(** Frame constructors with keyword arguments, and the instances that
    [transform_to] builds when it is given a class: [HCRS()] has the
    J2000.0 observation time, the SunPy frames have none. *)
Definition new_frame (cls : FrameClass) (t : option Time) : Frame :=
  mkFrame cls None t None ObsNone.

Definition HCRS_default : Frame := new_frame HCRS (Some _J2000).


(** [_rotation_matrix_hgs_to_hgc(obstime)]. *)
Definition _rotation_matrix_hgs_to_hgc (t : option Time) : result Mat3 :=
  match t with
  | None =>
      Raise (ValueError "To perform this transformation the coordinate Frame needs an obstime Attribute")
  | Some t =>
      let* l0 := L0 t in
      Ok (rotation_matrix np_sin np_cos (- l0)%float AxisZ)
  end.

(** [hgs_to_hgc(hgscoord, hgcframe)]. *)
Definition hgs_to_hgc (hgscoord hgcframe : Frame) : result Frame :=
  let* int_coord := _transform_obstime hgscoord (obstime hgcframe) in
  let* total_matrix := _rotation_matrix_hgs_to_hgc (obstime int_coord) in
  let* c := frame_cartesian int_coord in
  let newrepr := cartesian_transform c total_matrix in
  Ok (realize_frame hgcframe (of_cartesian newrepr)).

(** [hgc_to_hgs(hgccoord, hgsframe)]. *)
Definition hgc_to_hgs (hgccoord hgsframe : Frame) : result Frame :=
  let* int_coord := _transform_obstime hgccoord (obstime hgsframe) in
  let* m := _rotation_matrix_hgs_to_hgc (obstime int_coord) in
  let total_matrix := matrix_transpose m in
  let* c := frame_cartesian int_coord in
  let newrepr := cartesian_transform c total_matrix in
  Ok (realize_frame hgsframe (of_cartesian newrepr)).

(** [hcc_to_hpc(helioccoord, heliopframe)]. *)
Definition hcc_to_hpc (helioccoord heliopframe : Frame) : result Frame :=
  let* observer' :=
    _transform_obstime_observer (observer heliopframe) (obstime heliopframe) in
  let int_frame := mkFrame Heliocentric None (obstime heliopframe) None observer' in
  let* int_coord := transform_to helioccoord int_frame in
  let* distance := observer_radius (observer int_coord) in
  let* c := frame_cartesian int_coord in
  let* newrepr := cartesian_sub c (mkCartesian (mkVec3 0 0 distance) None) in
  let newrepr := cartesian_transform newrepr _matrix_hcc_to_hpc in
  Ok (realize_frame heliopframe (represent_as_spherical newrepr)).

(** [hpc_to_hcc(heliopcoord, heliocframe)]. *)
Definition hpc_to_hcc (heliopcoord heliocframe : Frame) : result Frame :=
  if negb (is_frame (observer heliopcoord)) then
    Raise (ConvertError "Cannot transform helioprojective coordinates to heliocentric coordinates for observer '{}' without `obstime` being specified.")
  else
    let* heliopcoord := calculate_distance heliopcoord in
    let* c := frame_cartesian heliopcoord in
    let newrepr := cartesian_transform c (matrix_transpose _matrix_hcc_to_hpc) in
    let* observer' :=
      _transform_obstime_observer (observer heliopcoord) (obstime heliopcoord) in
    let* distance := observer_radius observer' in
    let* newrepr := cartesian_add newrepr (mkCartesian (mkVec3 0 0 distance) None) in
    let int_coord :=
      mkFrame Heliocentric (Some (of_cartesian newrepr)) (obstime heliopcoord)
        None observer' in
    transform_to int_coord heliocframe.

(** The condition shared by [hpc_to_hpc] and [hcc_to_hcc]:
    [_observers_are_equal(a, b, string_ok=True) and np.all(t1 == t2)]. *)
Definition same_observer_and_obstime (from_coo to_frame : Frame) : result bool :=
  let* eq := _observers_are_equal (observer from_coo) (observer to_frame) true in
  let* b := truth eq in
  if b then
    let* e := obstime_eq (obstime from_coo) (obstime to_frame) in Ok (np_all e)
  else Ok false.


(** The condition [np.all(from_coo.obstime == to_frame.obstime)]. *)
Definition same_obstime (from_coo to_frame : Frame) : result bool :=
  let* e := obstime_eq (obstime from_coo) (obstime to_frame) in Ok (np_all e).




(** [hpc_to_hpc(from_coo, to_frame)]. *)
Definition hpc_to_hpc (from_coo to_frame : Frame) : result Frame :=
  let* shortcut := same_observer_and_obstime from_coo to_frame in
  if shortcut then
    let* d := frame_data from_coo in Ok (realize_frame to_frame d)
  else if negb (is_frame (observer to_frame)) then
    Raise (ConvertError "Cannot transform between helioprojective frames without `obstime` being specified for observer {}.")
  else if negb (is_frame (observer from_coo)) then
    Raise (ConvertError "Cannot transform between helioprojective frames without `obstime` being specified for observer {}.")
  else
    let* hgs :=
      transform_to from_coo (new_frame HeliographicStonyhurst (obstime to_frame)) in
    transform_to hgs to_frame.

(** [_sun_earth_icrf(time)]. *)
Definition _sun_earth_icrf (time : option Time) : result Vec3 :=
  let* sun_pos_icrs := get_body_barycentric "sun" time in
  let* earth_pos_icrs := get_body_barycentric "earth" time in
  Ok (vsub earth_pos_icrs sun_pos_icrs).

(** One degree in radians: the factor by which an angle in degrees is
    scaled before a trigonometric function is applied. *)
Definition deg : float := 0x1.1df46a2529d39p-6%float.

(** [_SOLAR_NORTH_POLE_HCRS]: longitude 286.13 degrees and latitude 63.87
    degrees (the binary64 numbers nearest to these decimals). *)
Definition _SOLAR_NORTH_POLE_HCRS : Position :=
  UnitSpherical (0x1.1e2147ae147aep+8 * deg)%float
                (0x1.fef5c28f5c28fp+5 * deg)%float.

(** [_SUN_DETILT_MATRIX]. *)
Definition _SUN_DETILT_MATRIX : Mat3 :=
  _rotation_matrix_reprs_to_reprs np_sin np_cos np_arccos
    (to_cartesian _SOLAR_NORTH_POLE_HCRS) (mkVec3 0 0 1).

Definition has_differentials (f : Frame) : bool :=
  match _data f with
  | Some d => match velocity d with Some _ => true | None => false end
  | None => false
  end.

(** [hcrs_to_hgs(hcrscoord, hgsframe)]: the matrix and the offset of the
    affine transformation. *)
Definition hcrs_to_hgs (hcrscoord hgsframe : Frame)
  : result (Mat3 * CartesianRepresentation) :=
  match obstime hgsframe with
  | None =>
      Raise (ValueError "To perform this transformation the coordinate Frame needs an obstime Attribute")
  | Some _ =>
      let with_velocity := has_differentials hcrscoord || has_differentials hgsframe in
      let* '(sun_pos_icrs, earth_pos_icrs, vels) :=
        (if with_velocity then
           let* '(sun_pos, sun_vel) :=
             get_body_barycentric_posvel "sun" (obstime hgsframe) in
           let* '(earth_pos, earth_vel) :=
             get_body_barycentric_posvel "earth" (obstime hgsframe) in
           Ok (sun_pos, earth_pos, Some (sun_vel, earth_vel))
         else
           let* sun_pos := get_body_barycentric "sun" (obstime hgsframe) in
           let* earth_pos := get_body_barycentric "earth" (obstime hgsframe) in
           Ok (sun_pos, earth_pos, None)) in
      let sun_earth := vsub earth_pos_icrs sun_pos_icrs in
      let sun_earth_detilt := mapply _SUN_DETILT_MATRIX sun_earth in
      let rot_matrix :=
        _rotation_matrix_reprs_to_xz_about_z np_sin np_cos np_arccos sun_earth_detilt in
      let total_matrix := matrix_product rot_matrix _SUN_DETILT_MATRIX in
      let* differ := obstime_ne (obstime hcrscoord) (obstime hgsframe) in
      let* offset_icrf :=
        (if np_any differ then
           let* sun_pos_old_icrs := get_body_barycentric "sun" (obstime hcrscoord) in
           Ok (vsub sun_pos_icrs sun_pos_old_icrs)
         else Ok (vscale sun_pos_icrs 0)) in
      let offset_icrf :=
        match vels with
        | Some (sun_vel, earth_vel) =>
            mkCartesian offset_icrf (Some (vsub sun_vel earth_vel))
        | None => mkCartesian offset_icrf None
        end in
      let offset := cartesian_transform offset_icrf total_matrix in
      Ok (total_matrix, offset)
  end.

(** [hgs_to_hcrs(hgscoord, hcrsframe)]. *)
Definition hgs_to_hcrs (hgscoord hcrsframe : Frame)
  : result (Mat3 * CartesianRepresentation) :=
  let* '(total_matrix, offset) := hcrs_to_hgs hcrsframe hgscoord in
  let reverse_matrix := matrix_transpose total_matrix in
  let* offset :=
    match differentials offset with
    | Some s =>
        let* pos := cartesian_neg (mkCartesian (xyz offset) None) in
        let vel := vneg s in
        Ok (mkCartesian (xyz pos) (Some vel))
    | None => cartesian_neg offset
    end in
  let reverse_offset := cartesian_transform offset reverse_matrix in
  Ok (reverse_matrix, reverse_offset).



(** [hcc_to_hcc(from_coo, to_frame)]. *)
Definition hcc_to_hcc (from_coo to_frame : Frame) : result Frame :=
  let* shortcut := same_observer_and_obstime from_coo to_frame in
  if shortcut then
    let* d := frame_data from_coo in Ok (realize_frame to_frame d)
  else
    let* hgscoord :=
      transform_to from_coo (new_frame HeliographicStonyhurst (obstime to_frame)) in
    transform_to hgscoord to_frame.

(** [hee_to_hee(from_coo, to_frame)]. *)
Definition hee_to_hee (from_coo to_frame : Frame) : result Frame :=
  let* same := same_obstime from_coo to_frame in
  if same then
    let* d := frame_data from_coo in Ok (realize_frame to_frame d)
  else
    let* c := transform_to from_coo HCRS_default in
    transform_to c to_frame.

(** [hee_to_gse(heecoord, gseframe)]. *)
Definition hee_to_gse (heecoord gseframe : Frame) : result Frame :=
  let int_frame := new_frame HeliocentricEarthEcliptic (obstime gseframe) in
  let* int_coord := transform_to heecoord int_frame in
  let* se := _sun_earth_icrf (obstime int_frame) in
  let sun_earth :=
    mkFrame HCRS (Some (mkRepresentation (Cartesian se) None)) (obstime int_frame)
      None ObsNone in
  let* sun_earth' := transform_to sun_earth int_frame in
  let* sun_earth_int := frame_cartesian sun_earth' in
  let* c := frame_cartesian int_coord in
  let* earth_object_int := cartesian_sub c sun_earth_int in
  let newrepr := cartesian_flip earth_object_int (mkVec3 (-1) (-1) 1) in
  Ok (realize_frame gseframe (of_cartesian newrepr)).

(** [gse_to_hee(gsecoord, heeframe)]. *)
Definition gse_to_hee (gsecoord heeframe : Frame) : result Frame :=
  let int_frame := new_frame HeliocentricEarthEcliptic (obstime gsecoord) in
  let* se := _sun_earth_icrf (obstime int_frame) in
  let sun_earth :=
    mkFrame HCRS (Some (mkRepresentation (Cartesian se) None)) (obstime int_frame)
      None ObsNone in
  let* sun_earth' := transform_to sun_earth int_frame in
  let* sun_earth_int := frame_cartesian sun_earth' in
  let* c := frame_cartesian gsecoord in
  let earth_object_int := cartesian_flip c (mkVec3 (-1) (-1) 1) in
  let* sun_object_int := cartesian_add sun_earth_int earth_object_int in
  let int_coord := realize_frame int_frame (of_cartesian sun_object_int) in
  transform_to int_coord heeframe.




(** [hme_to_gei(hmecoord, geiframe)]. The intermediate frame keeps the
    observation time it is given; for [None] Astropy's
    [HeliocentricMeanEcliptic] falls back to J2000.0, a case the statements
    below do not depend on. *)
Definition hme_to_gei (hmecoord geiframe : Frame) : result Frame :=
  let int_frame :=
    mkFrame HeliocentricMeanEcliptic None (obstime geiframe) (Some _J2000) ObsNone in
  let* hcrs := transform_to hmecoord HCRS_default in
  let* int_coord := transform_to hcrs int_frame in
  let* se := _sun_earth_icrf (obstime int_frame) in
  let sun_earth :=
    mkFrame HCRS (Some (mkRepresentation (Cartesian se) None)) (obstime int_frame)
      None ObsNone in
  let* sun_earth' := transform_to sun_earth int_frame in
  let* sun_earth_int := frame_cartesian sun_earth' in
  let* c := frame_cartesian int_coord in
  let* earth_object_int := cartesian_sub c sun_earth_int in
  let newrepr :=
    cartesian_transform earth_object_int
      (rotation_matrix np_sin np_cos (- _OBLIQUITY_J2000)%float AxisX) in
  Ok (realize_frame geiframe (of_cartesian newrepr)).

(** *** Name resolution

    A name used in a function body is looked up among the local variables
    bound so far, then among the names bound at module level (none of the
    Python builtins is involved in what follows). *)

Inductive PyValue : Type :=
  | VFrame (f : Frame)
  | VCartesian (c : CartesianRepresentation)
  | VModuleLevel (name : string).

(** The names bound at the top level of [transformations.py]: its imports,
    constants and functions. *)
Definition module_level_names : list string :=
  [ "deepcopy"; "np"; "u"; "ICRS"; "HCRS"; "ConvertError"; "BaseCoordinateFrame";
    "get_body_barycentric"; "get_body_barycentric_posvel"; "frame_transform_graph";
    "CartesianRepresentation"; "SphericalRepresentation";
    "UnitSphericalRepresentation"; "CartesianDifferential"; "FunctionTransform";
    "AffineTransform"; "FunctionTransformWithFiniteDifference"; "matrix_product";
    "rotation_matrix"; "matrix_transpose"; "HeliocentricMeanEcliptic"; "obl06";
    "get_jd12"; "Time"; "constants"; "Heliocentric"; "Helioprojective";
    "HeliographicCarrington"; "HeliographicStonyhurst"; "HeliocentricEarthEcliptic";
    "GeocentricSolarEcliptic"; "HeliocentricInertial"; "GeocentricEarthEquatorial";
    "make_transform_graph_docs"; "_make_transform_graph_docs"; "RSUN_METERS";
    "_J2000"; "_OBLIQUITY_J2000"; "__all__"; "_observers_are_equal";
    "_transform_obstime"; "_rotation_matrix_hgs_to_hgc"; "hgs_to_hgc"; "hgc_to_hgs";
    "_matrix_hcc_to_hpc"; "hcc_to_hpc"; "hpc_to_hcc"; "_rotation_matrix_hcc_to_hgs";
    "hcc_to_hgs"; "hgs_to_hcc"; "hpc_to_hpc"; "_rotation_matrix_reprs_to_reprs";
    "_rotation_matrix_reprs_to_xz_about_z"; "_sun_earth_icrf";
    "_SOLAR_NORTH_POLE_HCRS"; "_SUN_DETILT_MATRIX"; "hcrs_to_hgs"; "hgs_to_hcrs";
    "hgs_to_hgs"; "hgc_to_hgc"; "hcc_to_hcc"; "_rotation_matrix_hme_to_hee";
    "hme_to_hee"; "hee_to_hme"; "hee_to_hee"; "hee_to_gse"; "gse_to_hee";
    "gse_to_gse"; "_rotation_matrix_hme_to_hci"; "hme_to_hci"; "hci_to_hme";
    "hci_to_hci"; "hme_to_gei"; "gei_to_hme"; "gei_to_gei"; "_make_sunpy_graph";
    "_add_astropy_node"; "_tweak_graph"; "_add_legend_row" ].

Fixpoint lookup_local (locals : list (string * PyValue)) (name : string)
  : option PyValue :=
  match locals with
  | [] => None
  | (n, v) :: rest => if String.eqb n name then Some v else lookup_local rest name
  end.

Definition load_name (locals : list (string * PyValue)) (name : string)
  : result PyValue :=
  match lookup_local locals name with
  | Some v => Ok v
  | None =>
      if existsb (String.eqb name) module_level_names then Ok (VModuleLevel name)
      else Raise (NameError name)
  end.

(** [value.transform(matrix)]: only representations have the method. *)
Definition call_transform (v : PyValue) (m : Mat3) : result CartesianRepresentation :=
  match v with
  | VCartesian c => Ok (cartesian_transform c m)
  | VFrame _ => Raise (AttributeError "frame object has no attribute 'transform'")
  | VModuleLevel _ => Raise (AttributeError "object has no attribute 'transform'")
  end.

(** [gei_to_hme(geicoord, hmeframe)]. The body reads a variable called
    [gsecoord]. *)
Definition gei_to_hme (geicoord hmeframe : Frame) : result Frame :=
  let int_frame :=
    mkFrame HeliocentricMeanEcliptic None (obstime geicoord) (Some _J2000) ObsNone in
  let* se := _sun_earth_icrf (obstime int_frame) in
  let sun_earth :=
    mkFrame HCRS (Some (mkRepresentation (Cartesian se) None)) (obstime int_frame)
      None ObsNone in
  let* sun_earth' := transform_to sun_earth int_frame in
  let* sun_earth_int := frame_cartesian sun_earth' in
  let locals :=
    [ ("geicoord", VFrame geicoord); ("hmeframe", VFrame hmeframe);
      ("int_frame", VFrame int_frame); ("sun_earth", VFrame sun_earth);
      ("sun_earth_int", VCartesian sun_earth_int) ] in
  let* gsecoord := load_name locals "gsecoord" in
  let* earth_object_int :=
    call_transform gsecoord (rotation_matrix np_sin np_cos _OBLIQUITY_J2000 AxisX) in
  let* sun_object_int := cartesian_add sun_earth_int earth_object_int in
  let int_coord := realize_frame int_frame (of_cartesian sun_object_int) in
  let* hcrs := transform_to int_coord HCRS_default in
  transform_to hcrs hmeframe.

(** *** The remaining transformations *)

(** [observer.lon] and [observer.lat] on the value of an [observer]
    attribute. *)
Definition observer_lon (obs : ObserverAttr Frame) : result float :=
  match obs with
  | ObsFrame f => frame_lon f
  | ObsName _ => Raise (AttributeError "'str' object has no attribute 'lon'")
  | ObsNone => Raise (AttributeError "'NoneType' object has no attribute 'lon'")
  end.

Definition observer_lat (obs : ObserverAttr Frame) : result float :=
  match obs with
  | ObsFrame f => frame_lat f
  | ObsName _ => Raise (AttributeError "'str' object has no attribute 'lat'")
  | ObsNone => Raise (AttributeError "'NoneType' object has no attribute 'lat'")
  end.

(** [_rotation_matrix_hcc_to_hgs(longitude, latitude)]:
    HGS_X = HCC_Z, HGS_Y = HCC_X, HGS_Z = HCC_Y, then the rotations in
    latitude and longitude. *)
Definition _rotation_matrix_hcc_to_hgs (longitude latitude : float) : Mat3 :=
  let axes_matrix := mkMat3 (mkVec3 0 0 1) (mkVec3 1 0 0) (mkVec3 0 1 0) in
  let lat_matrix := rotation_matrix np_sin np_cos latitude AxisY in
  let lon_matrix := rotation_matrix np_sin np_cos (- longitude)%float AxisZ in
  matrix_product (matrix_product lon_matrix lat_matrix) axes_matrix.

(** [hcc_to_hgs(helioccoord, heliogframe)]. *)
Definition hcc_to_hgs (helioccoord heliogframe : Frame) : result Frame :=
  if negb (is_frame (observer helioccoord)) then
    Raise (ConvertError "Cannot transform heliocentric coordinates to heliographic coordinates for observer '{}' without `obstime` being specified.")
  else
    let* hcc_observer_at_hcc_obstime :=
      _transform_obstime_observer (observer helioccoord) (obstime helioccoord) in
    let* lon := observer_lon hcc_observer_at_hcc_obstime in
    let* lat := observer_lat hcc_observer_at_hcc_obstime in
    let total_matrix := _rotation_matrix_hcc_to_hgs lon lat in
    let* c := frame_cartesian helioccoord in
    let newrepr := cartesian_transform c total_matrix in
    let int_coord :=
      mkFrame HeliographicStonyhurst (Some (of_cartesian newrepr))
        (obstime helioccoord) None ObsNone in
    _transform_obstime int_coord (obstime heliogframe).

(** [hgs_to_hcc(heliogcoord, heliocframe)]. *)
Definition hgs_to_hcc (heliogcoord heliocframe : Frame) : result Frame :=
  if negb (is_frame (observer heliocframe)) then
    Raise (ConvertError "Cannot transform heliographic coordinates to heliocentric coordinates for observer '{}' without `obstime` being specified.")
  else
    let* int_coord := _transform_obstime heliogcoord (obstime heliocframe) in
    let* hcc_observer_at_hcc_obstime :=
      _transform_obstime_observer (observer heliocframe) (obstime heliocframe) in
    let* lon := observer_lon hcc_observer_at_hcc_obstime in
    let* lat := observer_lat hcc_observer_at_hcc_obstime in
    let total_matrix := matrix_transpose (_rotation_matrix_hcc_to_hgs lon lat) in
    let* c := frame_cartesian int_coord in
    let newrepr := cartesian_transform c total_matrix in
    Ok (realize_frame heliocframe (of_cartesian newrepr)).

(** [_rotation_matrix_hme_to_hee(hmeframe)]. *)
Definition _rotation_matrix_hme_to_hee (hmeframe : Frame) : result Mat3 :=
  let* se := _sun_earth_icrf (obstime hmeframe) in
  let sun_earth :=
    mkFrame HCRS (Some (mkRepresentation (Cartesian se) None)) (obstime hmeframe)
      None ObsNone in
  let* sun_earth' := transform_to sun_earth hmeframe in
  let* sun_earth_hme := frame_cartesian sun_earth' in
  let rot_matrix :=
    _rotation_matrix_reprs_to_xz_about_z np_sin np_cos np_arccos (xyz sun_earth_hme) in
  let tilt_matrix :=
    _rotation_matrix_reprs_to_reprs np_sin np_cos np_arccos
      (xyz (cartesian_transform sun_earth_hme rot_matrix)) (mkVec3 1 0 0) in
  Ok (matrix_product tilt_matrix rot_matrix).

(** [hme_to_hee(hmecoord, heeframe)]. *)
Definition hme_to_hee (hmecoord heeframe : Frame) : result Frame :=
  let int_frame :=
    mkFrame HeliocentricMeanEcliptic None (obstime heeframe) (obstime heeframe)
      ObsNone in
  let* hcrs := transform_to hmecoord HCRS_default in
  let* int_coord := transform_to hcrs int_frame in
  let* total_matrix := _rotation_matrix_hme_to_hee int_frame in
  let* c := frame_cartesian int_coord in
  let newrepr := cartesian_transform c total_matrix in
  Ok (realize_frame heeframe (of_cartesian newrepr)).

(** [hee_to_hme(heecoord, hmeframe)]. *)
Definition hee_to_hme (heecoord hmeframe : Frame) : result Frame :=
  let int_frame :=
    mkFrame HeliocentricMeanEcliptic None (obstime heecoord) (obstime heecoord)
      ObsNone in
  let* m := _rotation_matrix_hme_to_hee int_frame in
  let total_matrix := matrix_transpose m in
  let* c := frame_cartesian heecoord in
  let int_repr := cartesian_transform c total_matrix in
  let int_coord := realize_frame int_frame (of_cartesian int_repr) in
  let* hcrs := transform_to int_coord HCRS_default in
  transform_to hcrs hmeframe.

(** ** Properties *)

(** *** Element-wise comparison of a time with itself *)

Lemma zip_with_eqb_refl (xs : list Z) :
  forallb (fun x => x) (zip_with_Z Z.eqb xs xs) = true.
Proof.
  induction xs as [|x xs IH]; cbn; [reflexivity|].
  rewrite Z.eqb_refl. exact IH.
Qed.

Lemma time_compare_refl (t : Time) :
  exists e, time_compare Z.eqb t t = Ok e /\ np_all e = true.
Proof.
  destruct t as [x|xs]; cbn.
  - eexists; split; [reflexivity|]. cbn. apply Z.eqb_refl.
  - rewrite Nat.eqb_refl. eexists; split; [reflexivity|].
    cbn. apply zip_with_eqb_refl.
Qed.

Lemma obstime_eq_refl (t : option Time) :
  exists e, obstime_eq t t = Ok e /\ np_all e = true.
Proof.
  destruct t as [t|]; cbn.
  - apply time_compare_refl.
  - eexists; split; reflexivity.
Qed.

Lemma same_obstime_refl (from_coo to_frame : Frame) :
  obstime to_frame = obstime from_coo -> same_obstime from_coo to_frame = Ok true.
Proof.
  intros Ht. unfold same_obstime. rewrite Ht.
  destruct (obstime_eq_refl (obstime from_coo)) as (e & -> & He).
  cbn. rewrite He. reflexivity.
Qed.

(** *** The transformation from Geocentric Earth Equatorial *)

Lemma gei_to_hme_unfold (geicoord hmeframe : Frame) :
  gei_to_hme geicoord hmeframe =
  (let* se := _sun_earth_icrf (obstime geicoord) in
   let* sun_earth' :=
     transform_to
       (mkFrame HCRS (Some (mkRepresentation (Cartesian se) None))
          (obstime geicoord) None ObsNone)
       (mkFrame HeliocentricMeanEcliptic None (obstime geicoord) (Some _J2000)
          ObsNone) in
   let* _ := frame_cartesian sun_earth' in
   Raise (NameError "gsecoord")).
Proof.
  unfold gei_to_hme. cbn [obstime].
  destruct (_sun_earth_icrf (obstime geicoord)) as [se|e]; cbn [bind]; [|reflexivity].
  destruct (transform_to _ _) as [f|e]; cbn [bind]; [|reflexivity].
  destruct (frame_cartesian f) as [c|e]; cbn [bind]; reflexivity.
Qed.

Lemma gei_to_hme_not_ok (geicoord hmeframe : Frame) :
  is_ok (gei_to_hme geicoord hmeframe) = false.
Proof.
  rewrite gei_to_hme_unfold.
  destruct (_sun_earth_icrf (obstime geicoord)) as [se|e]; cbn [bind]; [|reflexivity].
  destruct (transform_to _ _) as [f|e]; cbn [bind]; [|reflexivity].
  destruct (frame_cartesian f) as [c|e]; cbn [bind]; reflexivity.
Qed.

(** C1 (defect of the code). [gei_to_hme] never returns a coordinate: once
    the Sun-Earth vector has been obtained in the intermediate frame, the
    body reads the variable [gsecoord], which is bound neither in the
    function nor in the module, and Python raises [NameError]. Hence no
    round trip from Heliocentric Mean Ecliptic to Geocentric Earth
    Equatorial and back reproduces the original vector: the way back
    always raises. *)
Theorem gei_to_hme_name_error (geicoord hmeframe : Frame) :
  is_ok (gei_to_hme geicoord hmeframe) = false /\
  gei_to_hme geicoord hmeframe =
  (let* se := _sun_earth_icrf (obstime geicoord) in
   let* sun_earth' :=
     transform_to
       (mkFrame HCRS (Some (mkRepresentation (Cartesian se) None))
          (obstime geicoord) None ObsNone)
       (mkFrame HeliocentricMeanEcliptic None (obstime geicoord) (Some _J2000)
          ObsNone) in
   let* _ := frame_cartesian sun_earth' in
   Raise (NameError "gsecoord")) /\
  (forall hmecoord geiframe : Frame,
     is_ok (let* geicoord' := hme_to_gei hmecoord geiframe in
            gei_to_hme geicoord' hmeframe) = false).
Proof.
  split; [apply gei_to_hme_not_ok|].
  split; [apply gei_to_hme_unfold|].
  intros hmecoord geiframe.
  destruct (hme_to_gei hmecoord geiframe) as [g|e]; cbn [bind]; [|reflexivity].
  apply gei_to_hme_not_ok.
Qed.

(** *** Observer equality *)

Lemma frame_components (f : Frame) (lon lat r : float) :
  frame_spherical f = Ok (lon, lat, r) ->
  frame_lon f = Ok lon /\ frame_lat f = Ok lat /\ frame_radius f = Ok r.
Proof.
  intros H. unfold frame_lon, frame_lat, frame_radius. rewrite H. cbn. auto.
Qed.


(** *** The obstime loopback *)

(** C6. [_transform_obstime(coord, target_time)]:
    - returns [coord] itself when [target_time] is [None], and when
      [target_time] equals the observation time of [coord] element-wise;
    - when [coord] has no observation time (and [target_time] is set), it
      returns the copy of [coord] whose only change is
      [obstime = target_time]: same class, same data, same other
      attributes, and [transform_to] is not called;
    - otherwise it is the transformation of [coord] to the frame of the same
      class, with [obstime = target_time]. *)
Theorem transform_obstime_spec (coord : Frame) (target_time : option Time) :
  (target_time = None -> _transform_obstime coord target_time = Ok coord) /\
  (forall e, obstime_eq (obstime coord) target_time = Ok e -> np_all e = true ->
     _transform_obstime coord target_time = Ok coord) /\
  (forall t d, target_time = Some t -> obstime coord = None -> _data coord = Some d ->
     _transform_obstime coord target_time =
     Ok (mkFrame (frame_class coord) (Some d) (Some t) (equinox coord)
           (observer coord))) /\
  (forall t t0 e d,
     target_time = Some t -> obstime coord = Some t0 ->
     obstime_eq (Some t0) (Some t) = Ok e -> np_all e = false ->
     _data coord = Some d ->
     _transform_obstime coord target_time =
     transform_to coord
       (mkFrame (frame_class coord) (Some d) (Some t) (equinox coord)
          (observer coord))).
Proof.
  repeat split.
  - intros ->. reflexivity.
  - intros e He Hall. unfold _transform_obstime.
    destruct target_time as [t|]; [|reflexivity].
    rewrite He. cbn [bind]. rewrite Hall. reflexivity.
  - intros t d -> Hnone Hd. unfold _transform_obstime, replicate_obstime, frame_data.
    rewrite Hnone, Hd. reflexivity.
  - intros t t0 e d -> Ht0 He Hall Hd.
    unfold _transform_obstime, replicate_obstime, frame_data.
    rewrite Ht0, He, Hd. cbn [bind]. rewrite Hall. reflexivity.
Qed.

(** A time that equals the observation time of the coordinate leaves the
    coordinate unchanged. *)
Lemma transform_obstime_same (coord : Frame) :
  _transform_obstime coord (obstime coord) = Ok coord.
Proof.
  unfold _transform_obstime.
  destruct (obstime coord) as [t|] eqn:Ht; [|reflexivity].
  destruct (obstime_eq_refl (Some t)) as (e & -> & He).
  cbn [bind]. rewrite He. reflexivity.
Qed.

(** *** The same-kind shortcut *)






(** *** Missing attributes *)

Lemma hgs_to_hgc_without_obstime (hgscoord hgcframe : Frame) :
  obstime hgscoord = None -> obstime hgcframe = None ->
  hgs_to_hgc hgscoord hgcframe =
  Raise (ValueError "To perform this transformation the coordinate Frame needs an obstime Attribute").
Proof.
  intros Hc Hf. unfold hgs_to_hgc, _transform_obstime. rewrite Hf. cbn [bind].
  rewrite Hc. reflexivity.
Qed.

Lemma hgc_to_hgs_without_obstime (hgccoord hgsframe : Frame) :
  obstime hgccoord = None -> obstime hgsframe = None ->
  hgc_to_hgs hgccoord hgsframe =
  Raise (ValueError "To perform this transformation the coordinate Frame needs an obstime Attribute").
Proof.
  intros Hc Hf. unfold hgc_to_hgs, _transform_obstime. rewrite Hf. cbn [bind].
  rewrite Hc. reflexivity.
Qed.

Lemma hcrs_to_hgs_without_obstime (hcrscoord hgsframe : Frame) :
  obstime hgsframe = None ->
  hcrs_to_hgs hcrscoord hgsframe =
  Raise (ValueError "To perform this transformation the coordinate Frame needs an obstime Attribute").
Proof. intros Hf. unfold hcrs_to_hgs. rewrite Hf. reflexivity. Qed.

(** With a destination that has no observation time, [hgs_to_hgc] works at
    the time of the coordinate. *)
Lemma hgs_to_hgc_destination_without_obstime (hgscoord hgcframe : Frame) (t : Time) :
  obstime hgscoord = Some t -> obstime hgcframe = None ->
  hgs_to_hgc hgscoord hgcframe =
  (let* l0 := L0 t in
   let* c := frame_cartesian hgscoord in
   Ok (realize_frame hgcframe
         (of_cartesian
            (cartesian_transform c (rotation_matrix np_sin np_cos (- l0)%float AxisZ))))).
Proof.
  intros Hc Hf. unfold hgs_to_hgc, _transform_obstime. rewrite Hf. cbn [bind].
  unfold _rotation_matrix_hgs_to_hgc. rewrite Hc.
  destruct (L0 t) as [l0|e]; reflexivity.
Qed.

(** C4 (as amended). [hpc_to_hcc] raises (a [ConvertError]) as soon as the
    observer of the coordinate is not a frame instance, before anything is
    computed. [hgs_to_hgc] and [hgc_to_hgs] raise the missing-obstime error
    (a [ValueError]) when neither the coordinate nor the destination frame
    has an observation time; [hcrs_to_hgs] raises it when the destination
    HGS frame has none, and [hgs_to_hcrs] when the HGS coordinate has none.
    In each case the outcome is the exception alone. When only the
    destination of [hgs_to_hgc] lacks an observation time, the rotation is
    carried out at the time of the coordinate. *)
Theorem missing_attribute_errors (coord frame : Frame) :
  (is_frame (observer coord) = false ->
   hpc_to_hcc coord frame =
   Raise (ConvertError "Cannot transform helioprojective coordinates to heliocentric coordinates for observer '{}' without `obstime` being specified.")) /\
  (obstime coord = None -> obstime frame = None ->
   hgs_to_hgc coord frame =
   Raise (ValueError "To perform this transformation the coordinate Frame needs an obstime Attribute") /\
   hgc_to_hgs coord frame =
   Raise (ValueError "To perform this transformation the coordinate Frame needs an obstime Attribute")) /\
  (obstime frame = None ->
   hcrs_to_hgs coord frame =
   Raise (ValueError "To perform this transformation the coordinate Frame needs an obstime Attribute")) /\
  (obstime coord = None ->
   hgs_to_hcrs coord frame =
   Raise (ValueError "To perform this transformation the coordinate Frame needs an obstime Attribute")) /\
  (forall t : Time,
     obstime coord = Some t -> obstime frame = None ->
     hgs_to_hgc coord frame =
     (let* l0 := L0 t in
      let* c := frame_cartesian coord in
      Ok (realize_frame frame
            (of_cartesian
               (cartesian_transform c
                  (rotation_matrix np_sin np_cos (- l0)%float AxisZ)))))).
Proof.
  split; [|split; [|split; [|split]]]; try split.
  - intros Hobs. unfold hpc_to_hcc. rewrite Hobs. reflexivity.
  - apply hgs_to_hgc_without_obstime; assumption.
  - apply hgc_to_hgs_without_obstime; assumption.
  - apply hcrs_to_hgs_without_obstime; assumption.
  - intros Hc. unfold hgs_to_hcrs.
    rewrite (hcrs_to_hgs_without_obstime frame coord Hc). reflexivity.
  - intros t. apply hgs_to_hgc_destination_without_obstime.
Qed.

(** *** The affine transformation between HCRS and HGS *)

(** C7. Whenever the forward function [hcrs_to_hgs] yields the matrix [M]
    and the offset [off], [hgs_to_hcrs] on the swapped arguments yields the
    transpose of [M] and the offset whose position is the transpose applied
    to the negated position of [off], and whose velocity is present exactly
    when [off] has one and is then the transpose applied to the negated
    velocity. An exception of the forward function is passed on. *)
Theorem hgs_to_hcrs_reverses_hcrs_to_hgs (hgscoord hcrsframe : Frame) :
  (forall (M : Mat3) (off : CartesianRepresentation),
     hcrs_to_hgs hcrsframe hgscoord = Ok (M, off) ->
     hgs_to_hcrs hgscoord hcrsframe =
     Ok (matrix_transpose M,
         mkCartesian
           (mapply (matrix_transpose M) (vneg (xyz off)))
           (option_map (fun v => mapply (matrix_transpose M) (vneg v))
              (differentials off)))) /\
  (forall e, hcrs_to_hgs hcrsframe hgscoord = Raise e ->
     hgs_to_hcrs hgscoord hcrsframe = Raise e).
Proof.
  split.
  - intros M off H. unfold hgs_to_hcrs. rewrite H. cbn [bind].
    destruct off as [p [v|]]; reflexivity.
  - intros e H. unfold hgs_to_hcrs. rewrite H. reflexivity.
Qed.

(** *** Heliocentric Earth Ecliptic to Geocentric Solar Ecliptic *)

(** C8 (as amended). Let a position-only Cartesian vector [p] be given in
    Heliocentric Earth Ecliptic, and a Geocentric Solar Ecliptic frame at
    the same observation time, the graph sending the coordinate to the
    intermediate frame through [hee_to_hee]. If [s] is the Sun-Earth vector
    in that frame, the result is the Earth-centred vector [p - s] with its
    X and Y components multiplied by [-1] and its Z component by [1]. *)
Theorem hee_to_gse_components (heecoord gseframe sun_earth' : Frame)
  (p se s : Vec3) (ds : option Vec3) :
  _data heecoord = Some (mkRepresentation (Cartesian p) None) ->
  obstime gseframe = obstime heecoord ->
  transform_to heecoord (new_frame HeliocentricEarthEcliptic (obstime gseframe)) =
    hee_to_hee heecoord (new_frame HeliocentricEarthEcliptic (obstime gseframe)) ->
  _sun_earth_icrf (obstime gseframe) = Ok se ->
  transform_to
    (mkFrame HCRS (Some (mkRepresentation (Cartesian se) None)) (obstime gseframe)
       None ObsNone)
    (new_frame HeliocentricEarthEcliptic (obstime gseframe)) = Ok sun_earth' ->
  frame_cartesian sun_earth' = Ok (mkCartesian s ds) ->
  hee_to_gse heecoord gseframe =
  Ok (realize_frame gseframe
        (mkRepresentation
           (Cartesian
              (mkVec3 ((vx p - vx s) * (-1))%float
                      ((vy p - vy s) * (-1))%float
                      ((vz p - vz s) * 1)%float))
           None)).
Proof.
  intros Hd Ht Hgraph Hse Hsun Hs.
  unfold hee_to_gse.
  change (obstime (new_frame HeliocentricEarthEcliptic (obstime gseframe)))
    with (obstime gseframe).
  rewrite Hgraph. unfold hee_to_hee.
  rewrite (same_obstime_refl heecoord
             (new_frame HeliocentricEarthEcliptic (obstime gseframe)) Ht).
  unfold frame_data. rewrite Hd. cbn [bind].
  rewrite Hse. cbn [bind]. rewrite Hsun. cbn [bind]. rewrite Hs. cbn [bind].
  reflexivity.
Qed.

(** *** Heliocentric to Helioprojective *)

(** C10. [hcc_to_hpc] returns its data as a spherical representation
    (longitude, latitude, distance), whatever the representation of the
    input data: every coordinate it returns has such data, and it does
    return one, built by [represent_as(SphericalRepresentation)], whenever
    the observer, the loopback transformation and the data of its result
    are available. *)
Theorem hcc_to_hpc_returns_spherical (helioccoord heliopframe : Frame) :
  (forall r : Frame,
     hcc_to_hpc helioccoord heliopframe = Ok r ->
     exists lon lat distance : float,
       _data r = Some (mkRepresentation (Spherical lon lat distance) None)) /\
  (forall (o : ObserverAttr Frame) (int_coord : Frame) (distance : float) (p : Vec3),
     _transform_obstime_observer (observer heliopframe) (obstime heliopframe) = Ok o ->
     transform_to helioccoord
       (mkFrame Heliocentric None (obstime heliopframe) None o) = Ok int_coord ->
     observer_radius (observer int_coord) = Ok distance ->
     frame_cartesian int_coord = Ok (mkCartesian p None) ->
     hcc_to_hpc helioccoord heliopframe =
     Ok (realize_frame heliopframe
           (represent_as_spherical
              (cartesian_transform
                 (mkCartesian (vsub p (mkVec3 0 0 distance)) None)
                 _matrix_hcc_to_hpc)))).
Proof.
  split.
  - unfold hcc_to_hpc. intros r H.
    destruct (_transform_obstime_observer _ _) as [o|e]; cbn [bind] in H;
      [|discriminate H].
    destruct (transform_to _ _) as [ic|e]; cbn [bind] in H; [|discriminate H].
    destruct (observer_radius _) as [dist|e]; cbn [bind] in H; [|discriminate H].
    destruct (frame_cartesian ic) as [c|e]; cbn [bind] in H; [|discriminate H].
    destruct (cartesian_sub _ _) as [n|e]; cbn [bind] in H; [|discriminate H].
    injection H as <-. unfold realize_frame, represent_as_spherical. cbn.
    eauto.
  - intros o ic dist p Ho Hic Hdist Hc. unfold hcc_to_hpc.
    rewrite Ho. cbn [bind]. rewrite Hic. cbn [bind]. rewrite Hdist. cbn [bind].
    rewrite Hc. reflexivity.
Qed.

(** *** Further properties of the transformations *)

Lemma transform_obstime_observer_same (o : Frame) (t : option Time) :
  obstime o = t ->
  _transform_obstime_observer (ObsFrame o) t = Ok (ObsFrame o).
Proof.
  intros <-. unfold _transform_obstime_observer.
  destruct (obstime o) as [t|] eqn:Ht; [|reflexivity].
  rewrite <- Ht, transform_obstime_same. reflexivity.
Qed.

Lemma transform_obstime_none_or_same (coord : Frame) (t : option Time) :
  t = None \/ t = obstime coord ->
  _transform_obstime coord t = Ok coord.
Proof.
  intros [-> | ->]; [reflexivity | apply transform_obstime_same].
Qed.

(** X1. Heliocentric to Heliographic Stonyhurst and back. When the
    observer of the Heliocentric coordinate is a frame given at the time of
    the coordinate, the HGS frame has that time (or none) and the
    destination has the same observer and time, [hcc_to_hgs] followed by
    [hgs_to_hcc] returns the destination realised with the data multiplied
    by the matrix [M] of the observer's longitude and latitude and then by
    the transpose of the same [M]; [transform_to] takes no part. *)
Theorem hcc_to_hgs_to_hcc (helioccoord heliogframe heliocframe o : Frame)
  (lon lat r : float) (c : CartesianRepresentation) :
  observer helioccoord = ObsFrame o ->
  observer heliocframe = ObsFrame o ->
  obstime o = obstime helioccoord ->
  obstime heliocframe = obstime helioccoord ->
  obstime heliogframe = None \/ obstime heliogframe = obstime helioccoord ->
  frame_spherical o = Ok (lon, lat, r) ->
  frame_cartesian helioccoord = Ok c ->
  (let* g := hcc_to_hgs helioccoord heliogframe in hgs_to_hcc g heliocframe) =
  Ok (realize_frame heliocframe
        (of_cartesian
           (cartesian_transform
              (cartesian_transform c (_rotation_matrix_hcc_to_hgs lon lat))
              (matrix_transpose (_rotation_matrix_hcc_to_hgs lon lat))))).
Proof.
  intros Hobs Hobs' Hto Htc Htg Hsph Hc.
  destruct (frame_components _ _ _ _ Hsph) as (Hlon & Hlat & _).
  unfold hcc_to_hgs. rewrite Hobs. cbn [is_frame negb].
  rewrite (transform_obstime_observer_same o _ Hto). cbn [bind observer_lon observer_lat].
  rewrite Hlon, Hlat. cbn [bind]. rewrite Hc. cbn [bind].
  rewrite transform_obstime_none_or_same by exact Htg. cbn [bind].
  unfold hgs_to_hcc. rewrite Hobs'. cbn [is_frame negb].
  rewrite transform_obstime_none_or_same by (right; exact Htc). cbn [bind].
  rewrite (transform_obstime_observer_same o (obstime heliocframe))
    by (rewrite Htc; exact Hto).
  cbn [bind observer_lon observer_lat]. rewrite Hlon, Hlat. cbn [bind].
  reflexivity.
Qed.

(** X2. Heliographic Stonyhurst to Carrington and back at one time [t]:
    with the coordinate and the HGS destination at [t] and the Carrington
    frame at [t] or without time, [hgs_to_hgc] followed by [hgc_to_hgs]
    returns the destination realised with the data rotated about Z by
    [-L0(t)] and then by the transpose of that rotation. *)
Theorem hgs_to_hgc_to_hgs (hgscoord hgcframe hgsframe : Frame) (t : Time)
  (l0 : float) (c : CartesianRepresentation) :
  obstime hgscoord = Some t ->
  obstime hgsframe = Some t ->
  obstime hgcframe = None \/ obstime hgcframe = Some t ->
  L0 t = Ok l0 ->
  frame_cartesian hgscoord = Ok c ->
  (let* g := hgs_to_hgc hgscoord hgcframe in hgc_to_hgs g hgsframe) =
  Ok (realize_frame hgsframe
        (of_cartesian
           (cartesian_transform
              (cartesian_transform c (rotation_matrix np_sin np_cos (- l0)%float AxisZ))
              (matrix_transpose (rotation_matrix np_sin np_cos (- l0)%float AxisZ))))).
Proof.
  intros Hc Hs Hg Hl0 Hcart.
  unfold hgs_to_hgc.
  rewrite transform_obstime_none_or_same
    by (destruct Hg as [-> | ->]; [left | right]; congruence).
  cbn [bind]. unfold _rotation_matrix_hgs_to_hgc at 1. rewrite Hc, Hl0. cbn [bind].
  rewrite Hcart. cbn [bind].
  unfold hgc_to_hgs.
  set (g := realize_frame hgcframe _).
  assert (Hint : exists int_coord,
            _transform_obstime g (obstime hgsframe) = Ok int_coord /\
            obstime int_coord = Some t /\
            frame_cartesian int_coord =
            Ok (cartesian_transform c (rotation_matrix np_sin np_cos (- l0)%float AxisZ))).
  { destruct Hg as [Hnone | Hsome].
    - exists (mkFrame (frame_class g) (_data g) (Some t) (equinox g) (observer g)).
      split; [|split; reflexivity].
      unfold _transform_obstime. rewrite Hs.
      change (obstime g) with (obstime hgcframe). rewrite Hnone. reflexivity.
    - exists g. split; [|split; [exact Hsome | reflexivity]].
      apply transform_obstime_none_or_same. right.
      change (obstime g) with (obstime hgcframe). congruence. }
  destruct Hint as (int_coord & -> & Hti & Hci). cbn [bind].
  unfold _rotation_matrix_hgs_to_hgc. rewrite Hti, Hl0. cbn [bind].
  rewrite Hci. reflexivity.
Qed.

(** X3. When the two observers are not both frame instances, [hpc_to_hpc]
    never reaches its pivot through HGS: observers that do not compare
    equal (two different names, a name and a frame, a name and [None])
    make both [hpc_to_hpc] and [hcc_to_hcc] raise the [ValueError] of
    [_observers_are_equal]; observers that compare equal, with observation
    times that are not all equal, make [hpc_to_hpc] raise [ConvertError],
    whereas [hcc_to_hcc] goes on to its pivot through HGS. *)
Theorem same_kind_with_unresolved_observers (from_coo to_frame : Frame) :
  is_frame (observer from_coo) && is_frame (observer to_frame) = false ->
  exists b : bool,
    observer_eq (observer from_coo) (observer to_frame) = Ok b /\
    (b = false ->
     exists msg,
       hpc_to_hpc from_coo to_frame = Raise (ValueError msg) /\
       hcc_to_hcc from_coo to_frame = Raise (ValueError msg)) /\
    (b = true -> same_obstime from_coo to_frame = Ok false ->
     (exists msg, hpc_to_hpc from_coo to_frame = Raise (ConvertError msg)) /\
     hcc_to_hcc from_coo to_frame =
     (let* hgscoord :=
        transform_to from_coo
          (new_frame HeliographicStonyhurst (obstime to_frame)) in
      transform_to hgscoord to_frame)).
Proof.
  intros Hnf.
  assert (Heq : exists b, observer_eq (observer from_coo) (observer to_frame) = Ok b /\
                  (b = true -> is_frame (observer to_frame) = false)).
  { destruct (observer from_coo) as [|n1|f1], (observer to_frame) as [|n2|f2];
      cbn in Hnf |- *; try discriminate Hnf; eexists; split; try reflexivity;
      intros; try discriminate; reflexivity. }
  destruct Heq as (b & Hb & Hto). exists b. split; [exact Hb|]. split.
  - intros ->.
    assert (Hraise : exists msg,
              _observers_are_equal (observer from_coo) (observer to_frame) true =
              Raise (ValueError msg)).
    { unfold _observers_are_equal. rewrite Hb. cbn [bind].
      destruct (observer from_coo) as [|n1|f1], (observer to_frame) as [|n2|f2];
        cbn in Hnf; try discriminate Hnf; eexists; reflexivity. }
    destruct Hraise as [msg Hmsg]. exists msg.
    unfold hpc_to_hpc, hcc_to_hcc, same_observer_and_obstime.
    rewrite Hmsg. split; reflexivity.
  - intros -> Hs.
    assert (Hshort : same_observer_and_obstime from_coo to_frame = Ok false).
    { unfold same_observer_and_obstime, _observers_are_equal. rewrite Hb. cbn [bind truth].
      exact Hs. }
    unfold hpc_to_hpc, hcc_to_hcc. rewrite Hshort. cbn [bind].
    rewrite (Hto eq_refl). cbn [negb]. split; [eexists|]; reflexivity.
Qed.

(** X4. The offset returned by [hcrs_to_hgs] carries a velocity exactly
    when the data of one of its two arguments carry differentials. *)
Theorem hcrs_to_hgs_offset_velocity (hcrscoord hgsframe : Frame) (M : Mat3)
  (offset : CartesianRepresentation) :
  hcrs_to_hgs hcrscoord hgsframe = Ok (M, offset) ->
  (exists v, differentials offset = Some v) <->
  has_differentials hcrscoord || has_differentials hgsframe = true.
Proof.
  unfold hcrs_to_hgs. intros H.
  destruct (obstime hgsframe) as [t|]; [|discriminate H].
  destruct (has_differentials hcrscoord || has_differentials hgsframe).
  - destruct (get_body_barycentric_posvel "sun" (Some t)) as [[sp sv]|e];
      cbn [bind] in H; [|discriminate H].
    destruct (get_body_barycentric_posvel "earth" (Some t)) as [[ep ev]|e];
      cbn [bind] in H; [|discriminate H].
    destruct (obstime_ne _ _) as [d|e]; cbn [bind] in H; [|discriminate H].
    destruct (np_any d).
    + destruct (get_body_barycentric "sun" (obstime hcrscoord)) as [old|e];
        cbn [bind] in H; [|discriminate H].
      injection H as _ <-. cbn. split; eauto.
    + cbn [bind] in H. injection H as _ <-. cbn. split; eauto.
  - destruct (get_body_barycentric "sun" (Some t)) as [sp|e];
      cbn [bind] in H; [|discriminate H].
    destruct (get_body_barycentric "earth" (Some t)) as [ep|e];
      cbn [bind] in H; [|discriminate H].
    destruct (obstime_ne _ _) as [d|e]; cbn [bind] in H; [|discriminate H].
    destruct (np_any d).
    + destruct (get_body_barycentric "sun" (obstime hcrscoord)) as [old|e];
        cbn [bind] in H; [|discriminate H].
      injection H as _ <-. cbn. split; [intros [v Hv]|intros Hf]; discriminate.
    + cbn [bind] in H. injection H as _ <-. cbn.
      split; [intros [v Hv]|intros Hf]; discriminate.
Qed.

(** X5. A Heliographic coordinate without observation time adopts the time
    of the destination: [hgs_to_hgc] and [hgc_to_hgs] then rotate its data
    by the Carrington angle of the destination time, and [transform_to] is
    not called. *)
Theorem heliographic_without_obstime_adopts_destination (coord frame : Frame)
  (t : Time) (l0 : float) (c : CartesianRepresentation) :
  obstime coord = None ->
  obstime frame = Some t ->
  frame_cartesian coord = Ok c ->
  L0 t = Ok l0 ->
  hgs_to_hgc coord frame =
  Ok (realize_frame frame
        (of_cartesian
           (cartesian_transform c (rotation_matrix np_sin np_cos (- l0)%float AxisZ)))) /\
  hgc_to_hgs coord frame =
  Ok (realize_frame frame
        (of_cartesian
           (cartesian_transform c
              (matrix_transpose (rotation_matrix np_sin np_cos (- l0)%float AxisZ))))).
Proof.
  intros Hc Hf Hcart Hl0.
  assert (Hd : exists d, _data coord = Some d /\
                 c = mkCartesian (to_cartesian (position d)) (velocity d)).
  { unfold frame_cartesian, frame_data in Hcart.
    destruct (_data coord) as [d|]; [|discriminate Hcart].
    exists d. split; [reflexivity|]. cbn in Hcart. congruence. }
  destruct Hd as (d & Hd & ->).
  assert (Hint : _transform_obstime coord (obstime frame) =
                 Ok (mkFrame (frame_class coord) (Some d) (Some t) (equinox coord)
                       (observer coord))).
  { unfold _transform_obstime, replicate_obstime, frame_data.
    rewrite Hf, Hc, Hd. reflexivity. }
  unfold hgs_to_hgc, hgc_to_hgs. rewrite Hint. cbn [bind].
  unfold _rotation_matrix_hgs_to_hgc. cbn [obstime]. rewrite Hl0. cbn [bind].
  split; reflexivity.
Qed.

(** X6. Coordinates with a velocity cannot be converted to the geocentric
    frames: when the coordinate that [hee_to_gse] or [hme_to_gei] obtains
    in its intermediate frame carries a differential, the subtraction of
    the Sun-Earth vector is refused and the function returns no
    coordinate. *)
Theorem geocentric_with_velocity_raises (coord frame : Frame) :
  (forall (int_coord : Frame) (c : CartesianRepresentation) (v : Vec3),
     transform_to coord (new_frame HeliocentricEarthEcliptic (obstime frame)) =
       Ok int_coord ->
     frame_cartesian int_coord = Ok c ->
     differentials c = Some v ->
     is_ok (hee_to_gse coord frame) = false) /\
  (forall (hcrs int_coord : Frame) (c : CartesianRepresentation) (v : Vec3),
     transform_to coord HCRS_default = Ok hcrs ->
     transform_to hcrs
       (mkFrame HeliocentricMeanEcliptic None (obstime frame) (Some _J2000) ObsNone) =
       Ok int_coord ->
     frame_cartesian int_coord = Ok c ->
     differentials c = Some v ->
     is_ok (hme_to_gei coord frame) = false).
Proof.
  assert (Hsub : forall c s v, differentials c = Some v ->
            exists e, cartesian_sub c s = Raise e).
  { intros c s v Hv. unfold cartesian_sub, raise_if_has_differentials.
    rewrite Hv. eexists. reflexivity. }
  split.
  - intros int_coord c v Hint Hc Hv. unfold hee_to_gse. rewrite Hint. cbn [bind].
    clear Hint.
    destruct (_sun_earth_icrf _) as [se|e]; cbn [bind]; [|reflexivity].
    destruct (transform_to _ _) as [se'|e]; cbn [bind]; [|reflexivity].
    destruct (frame_cartesian se') as [s|e]; cbn [bind]; [|reflexivity].
    rewrite Hc. cbn [bind].
    destruct (Hsub c s v Hv) as [e ->]. reflexivity.
  - intros hcrs int_coord c v Hh Hint Hc Hv. unfold hme_to_gei.
    rewrite Hh. cbn [bind]. rewrite Hint. cbn [bind]. clear Hh Hint.
    destruct (_sun_earth_icrf _) as [se|e]; cbn [bind]; [|reflexivity].
    destruct (transform_to _ _) as [se'|e]; cbn [bind]; [|reflexivity].
    destruct (frame_cartesian se') as [s|e]; cbn [bind]; [|reflexivity].
    rewrite Hc. cbn [bind].
    destruct (Hsub c s v Hv) as [e ->]. reflexivity.
Qed.

End Transformations.

(** ** Properties of the numeric kernel *)

Module NumericFacts.
Import Numeric.
Local Open Scope float_scope.

(** *** NaN propagation in binary64 arithmetic *)

Lemma nan_mul_l (x : float) : nan * x = nan.
Proof. apply Prim2SF_inj. rewrite mul_spec. reflexivity. Qed.

Lemma nan_mul_r (x : float) : x * nan = nan.
Proof.
  apply Prim2SF_inj. rewrite mul_spec.
  unfold SF64mul, SFmul. cbn. destruct (Prim2SF x); reflexivity.
Qed.

Lemma nan_add_l (x : float) : nan + x = nan.
Proof. apply Prim2SF_inj. rewrite add_spec. reflexivity. Qed.

Lemma nan_sub_l (x : float) : nan - x = nan.
Proof. apply Prim2SF_inj. rewrite sub_spec. reflexivity. Qed.

Lemma is_zero_cases (a : float) :
  PrimFloat.is_zero a = true -> a = 0 \/ a = -0.
Proof.
  unfold PrimFloat.is_zero. rewrite FloatAxioms.eqb_spec. intros Hz.
  destruct (Prim2SF a) as [ [|] | [|] | | [|] m e ] eqn:Ha; cbn in Hz;
    try discriminate.
  - right. apply Prim2SF_inj. rewrite Ha. reflexivity.
  - left. apply Prim2SF_inj. rewrite Ha. reflexivity.
Qed.

Lemma SFmul_comm (prec emax : Z) (x y : SpecFloat.spec_float) :
  SpecFloat.SFmul prec emax x y = SpecFloat.SFmul prec emax y x.
Proof.
  destruct x as [sx|sx| |sx mx ex], y as [sy|sy| |sy my ey]; cbn;
    rewrite ?(xorb_comm sx sy), ?(Pos.mul_comm mx my), ?(Z.add_comm ex ey);
    reflexivity.
Qed.

Lemma float_mul_comm (x y : float) : x * y = y * x.
Proof. apply Prim2SF_inj. rewrite !mul_spec. apply SFmul_comm. Qed.

(** [y * (-z)] and [z * (-y)] are the same binary64 number. *)
Lemma float_mul_opp_swap (y z : float) : y * (- z) = z * (- y).
Proof.
  apply Prim2SF_inj. rewrite !mul_spec, !opp_spec.
  destruct (Prim2SF y) as [sx|sx| |sx mx ex], (Prim2SF z) as [sy|sy| |sy my ey];
    cbn; rewrite ?(Pos.mul_comm mx my), ?(Z.add_comm ex ey);
    repeat match goal with b : bool |- _ => destruct b end; reflexivity.
Qed.

(** [w - w] is [+0] for a finite [w] and NaN for an infinite or NaN [w]. *)
Lemma float_sub_self (w : float) : w - w = 0 \/ w - w = nan.
Proof.
  destruct (Prim2SF w) as [s|s| |s m e] eqn:Hw.
  - left. apply Prim2SF_inj. rewrite sub_spec, Hw. destruct s; reflexivity.
  - right. apply Prim2SF_inj. rewrite sub_spec, Hw. destruct s; reflexivity.
  - right. apply Prim2SF_inj. rewrite sub_spec, Hw. reflexivity.
  - left. apply Prim2SF_inj. rewrite sub_spec, Hw.
    unfold SF64sub, SpecFloat.SFsub. cbv zeta. rewrite Z.min_id.
    unfold SpecFloat.shl_align. rewrite Z.sub_diag. cbn [fst]. reflexivity.
Qed.

Lemma mat_nan_not_identity : mat_nan <> midentity.
Proof. intros H. apply (f_equal (fun m => PrimFloat.is_nan (mget m 0 0))) in H. discriminate H. Qed.

Section DegenerateAxis.

Variables np_sin np_cos np_arccos : float -> float.

(** With NumPy's default error state, normalising an axis whose components
    are zeros or NaNs divides zero by zero (or by NaN): every entry of the
    result is NaN, whatever the angle. *)
Lemma rotation_matrix_general_degenerate_axis (angle a b c : float) :
  a = 0 \/ a = nan ->
  b = 0 \/ b = nan ->
  c = 0 \/ c = nan ->
  rotation_matrix_general np_sin np_cos angle (mkVec3 a b c) = mat_nan.
Proof.
  intros [-> | ->] [-> | ->] [-> | ->];
    unfold rotation_matrix_general, mat_nan; cbn;
    rewrite ?nan_mul_l, ?nan_add_l, ?nan_sub_l; reflexivity.
Qed.

Lemma cross_self_degenerate (V : Vec3) :
  let axis := vcross V V in
  (vx axis = 0 \/ vx axis = nan) /\
  (vy axis = 0 \/ vy axis = nan) /\
  (vz axis = 0 \/ vz axis = nan).
Proof.
  destruct V as [x y z]. cbn.
  rewrite (float_mul_comm z y), (float_mul_comm x z), (float_mul_comm y x).
  repeat split; apply float_sub_self.
Qed.

Lemma cross_opposite_degenerate (V : Vec3) :
  let axis := vcross V (vneg V) in
  (vx axis = 0 \/ vx axis = nan) /\
  (vy axis = 0 \/ vy axis = nan) /\
  (vz axis = 0 \/ vz axis = nan).
Proof.
  destruct V as [x y z]. cbn.
  rewrite (float_mul_opp_swap z y), (float_mul_opp_swap x z),
    (float_mul_opp_swap y x).
  repeat split; apply float_sub_self.
Qed.

Lemma reprs_to_reprs_self (V : Vec3) :
  _rotation_matrix_reprs_to_reprs np_sin np_cos np_arccos V V = mat_nan.
Proof.
  unfold _rotation_matrix_reprs_to_reprs, rotation_matrix.
  destruct (cross_self_degenerate V) as (Hx & Hy & Hz).
  destruct (vcross V V) as [a b c]. cbn in Hx, Hy, Hz.
  apply rotation_matrix_general_degenerate_axis; assumption.
Qed.

Lemma reprs_to_reprs_opposite (V : Vec3) :
  _rotation_matrix_reprs_to_reprs np_sin np_cos np_arccos V (vneg V) = mat_nan.
Proof.
  unfold _rotation_matrix_reprs_to_reprs, rotation_matrix.
  destruct (cross_opposite_degenerate V) as (Hx & Hy & Hz).
  destruct (vcross V (vneg V)) as [a b c]. cbn in Hx, Hy, Hz.
  apply rotation_matrix_general_degenerate_axis; assumption.
Qed.

(** C3 (defect of the code). For every vector [V], and whatever the libm
    functions return, [_rotation_matrix_reprs_to_reprs(V, V)] and
    [_rotation_matrix_reprs_to_reprs(V, -V)] do not raise but return the
    matrix whose nine entries are NaN: the rotation axis [V x V] is the
    zero vector (or NaN), and normalising it divides zero by zero. The
    result is therefore neither the identity nor a rotation by 180 degrees
    that maps [V] to [-V]. *)
Theorem vector_to_vector_parallel_is_nan (V : Vec3) :
  _rotation_matrix_reprs_to_reprs np_sin np_cos np_arccos V V = mat_nan /\
  _rotation_matrix_reprs_to_reprs np_sin np_cos np_arccos V (vneg V) = mat_nan /\
  _rotation_matrix_reprs_to_reprs np_sin np_cos np_arccos V V <> midentity /\
  vec_all_nan
    (mapply (_rotation_matrix_reprs_to_reprs np_sin np_cos np_arccos V (vneg V)) V)
  = true.
Proof.
  rewrite reprs_to_reprs_self, reprs_to_reprs_opposite.
  repeat split; try exact mat_nan_not_identity.
  destruct V as [x y z]. unfold mapply, vdot, vec_all_nan. cbn.
  rewrite !nan_mul_l, !nan_add_l. reflexivity.
Qed.

(** The same at the explicit input [V = (1, 0, 0)]: the entry that the
    identity has equal to one is NaN. *)
Example vector_to_vector_x_axis :
  PrimFloat.is_nan
    (mget (_rotation_matrix_reprs_to_reprs np_sin np_cos np_arccos
             (mkVec3 1 0 0) (mkVec3 1 0 0)) 0 0) = true.
Proof. rewrite reprs_to_reprs_self. reflexivity. Qed.

(** The rotation into the XZ plane has the same defect for a vector that
    already lies on the X axis: [_rotation_matrix_reprs_to_xz_about_z]
    compares it with the X axis itself. *)
Example xz_about_z_on_x_axis :
  _rotation_matrix_reprs_to_xz_about_z np_sin np_cos np_arccos (mkVec3 1 0 0) = mat_nan.
Proof.
  exact (reprs_to_reprs_self (mkVec3 1 0 0)).
Qed.

End DegenerateAxis.

(** *** Axes whose components are zeros of either sign *)

Ltac zero_or_nan_const :=
  first [ left; reflexivity | right; left; reflexivity | right; right; reflexivity ].

(** [a * 0] is a zero for a finite [a] and NaN otherwise. *)
Lemma mul_zero_r_cases (a : float) : zero_or_nan (a * 0).
Proof.
  unfold zero_or_nan.
  destruct (Prim2SF a) as [s|s| |s m e] eqn:Ha.
  - destruct s; [right; left|left]; apply Prim2SF_inj; rewrite mul_spec, Ha; reflexivity.
  - right; right. apply Prim2SF_inj; rewrite mul_spec, Ha; reflexivity.
  - right; right. apply Prim2SF_inj; rewrite mul_spec, Ha; reflexivity.
  - destruct s; [right; left|left]; apply Prim2SF_inj; rewrite mul_spec, Ha; reflexivity.
Qed.

Section ZeroAxis.

Variables np_sin np_cos np_arccos : float -> float.

Lemma rotation_matrix_general_zero_axis (angle a b c : float) :
  zero_or_nan a -> zero_or_nan b -> zero_or_nan c ->
  rotation_matrix_general np_sin np_cos angle (mkVec3 a b c) = mat_nan.
Proof.
  intros [-> | [-> | ->]] [-> | [-> | ->]] [-> | [-> | ->]];
    unfold rotation_matrix_general, mat_nan; cbn;
    rewrite ?nan_mul_l, ?nan_add_l, ?nan_sub_l; reflexivity.
Qed.

Lemma xz_about_z_degenerate (V : Vec3) :
  PrimFloat.is_zero (vy V) = true ->
  _rotation_matrix_reprs_to_xz_about_z np_sin np_cos np_arccos V = mat_nan.
Proof.
  destruct V as [x y z]. cbn [vy]. intros Hy.
  unfold _rotation_matrix_reprs_to_xz_about_z, _rotation_matrix_reprs_to_reprs,
    rotation_matrix, vmul, vcross. cbn [vx vy vz].
  apply rotation_matrix_general_zero_axis.
  - destruct (mul_zero_r_cases z) as [-> | [-> | ->]];
      destruct (is_zero_cases y Hy) as [-> | ->]; zero_or_nan_const.
  - destruct (mul_zero_r_cases z) as [-> | [-> | ->]];
      destruct (mul_zero_r_cases (x * 1)) as [-> | [-> | ->]]; zero_or_nan_const.
  - destruct (mul_zero_r_cases (x * 1)) as [-> | [-> | ->]];
      destruct (is_zero_cases y Hy) as [-> | ->]; zero_or_nan_const.
Qed.

(** X7. [_rotation_matrix_reprs_to_xz_about_z] returns the all-NaN matrix
    for every vector whose Y component is a zero, that is for every vector
    that already lies in the XZ plane: the vector without its Z component
    is then parallel to the X axis, and the rotation axis is a zero
    vector. The result is not the identity, and applying it to the vector
    gives NaN components. *)
Theorem xz_about_z_zero_y (V : Vec3) :
  PrimFloat.is_zero (vy V) = true ->
  _rotation_matrix_reprs_to_xz_about_z np_sin np_cos np_arccos V = mat_nan /\
  _rotation_matrix_reprs_to_xz_about_z np_sin np_cos np_arccos V <> midentity /\
  vec_all_nan
    (mapply (_rotation_matrix_reprs_to_xz_about_z np_sin np_cos np_arccos V) V) = true.
Proof.
  intros Hy. rewrite (xz_about_z_degenerate V Hy).
  split; [reflexivity|]. split; [exact mat_nan_not_identity|].
  destruct V as [x y z]. unfold mapply, vdot, vec_all_nan, mat_nan. cbn.
  rewrite !nan_mul_l, !nan_add_l. reflexivity.
Qed.

End ZeroAxis.

(** *** NaN propagation through matrix products *)

Lemma matrix_product_nan_r (m : Mat3) : matrix_product m mat_nan = mat_nan.
Proof.
  destruct m as [[a b c] [d e f] [g h i]].
  unfold matrix_product, mat_nan, vdot, mrow, mcol, mget, vget. cbn.
  rewrite !nan_mul_r, !nan_add_l. reflexivity.
Qed.

Lemma matrix_product_nan_l (m : Mat3) : matrix_product mat_nan m = mat_nan.
Proof.
  destruct m as [[a b c] [d e f] [g h i]].
  unfold matrix_product, mat_nan, vdot, mrow, mcol, mget, vget. cbn.
  rewrite !nan_mul_l, !nan_add_l. reflexivity.
Qed.

Lemma mapply_nan (v : Vec3) : mapply mat_nan v = mkVec3 nan nan nan.
Proof.
  destruct v as [x y z]. unfold mapply, vdot, mat_nan. cbn.
  rewrite !nan_mul_l, !nan_add_l. reflexivity.
Qed.

(** *** Finite numbers and zeros *)

Lemma signed_zero_is_zero (a : float) : signed_zero a -> PrimFloat.is_zero a = true.
Proof. intros [-> | ->]; reflexivity. Qed.

Lemma finite_cases (a : float) :
  PrimFloat.is_finite a = true ->
  (exists s, Prim2SF a = SpecFloat.S754_zero s) \/
  (exists s m e, Prim2SF a = SpecFloat.S754_finite s m e).
Proof.
  unfold PrimFloat.is_finite, PrimFloat.is_nan, PrimFloat.is_infinity.
  rewrite !FloatAxioms.eqb_spec, abs_spec.
  destruct (Prim2SF a) as [s|s| |s m e] eqn:Ha; cbn; intros H.
  - left. eexists; reflexivity.
  - destruct s; discriminate H.
  - discriminate H.
  - right. do 3 eexists; reflexivity.
Qed.

Lemma finite_mul_signed_zero (a z : float) :
  PrimFloat.is_finite a = true -> signed_zero z -> signed_zero (a * z).
Proof.
  intros Ha Hz. unfold signed_zero.
  destruct (finite_cases a Ha) as [[s Hs] | (s & m & e & Hs)];
    destruct Hz as [-> | ->]; destruct s;
    first [ left; apply Prim2SF_inj; rewrite mul_spec, Hs; reflexivity
          | right; apply Prim2SF_inj; rewrite mul_spec, Hs; reflexivity ].
Qed.

Lemma signed_zero_add (a b : float) :
  signed_zero a -> signed_zero b -> signed_zero (a + b).
Proof.
  intros [-> | ->] [-> | ->]; first [left; reflexivity | right; reflexivity].
Qed.

Lemma vdot_finite_zero (r z : Vec3) :
  vec_finite r = true ->
  signed_zero (vx z) -> signed_zero (vy z) -> signed_zero (vz z) ->
  signed_zero (vdot r z).
Proof.
  unfold vec_finite. intros Hr Hx Hy Hz.
  apply andb_prop in Hr as [Hr Hr2]. apply andb_prop in Hr as [Hr0 Hr1].
  unfold vdot. repeat apply signed_zero_add; apply finite_mul_signed_zero; assumption.
Qed.

End NumericFacts.

(** ** Numerical properties of the transformations *)

Module TransformationFacts.
Import Numeric NumericFacts.
Local Open Scope float_scope.

Lemma zip_with_neqb_refl (xs : list Z) :
  existsb (fun x => x) (zip_with_Z (fun x y => negb (Z.eqb x y)) xs xs) = false.
Proof.
  induction xs as [|x xs IH]; [reflexivity|].
  cbn. rewrite Z.eqb_refl. exact IH.
Qed.

Lemma obstime_ne_refl (t : option Time) :
  exists d, obstime_ne t t = Ok d /\ np_any d = false.
Proof.
  destruct t as [[x|xs]|]; cbn.
  - eexists; split; [reflexivity|]. cbn. rewrite Z.eqb_refl. reflexivity.
  - rewrite Nat.eqb_refl. eexists; split; [reflexivity|]. apply zip_with_neqb_refl.
  - eexists; split; reflexivity.
Qed.

Section Ephemeris.

Variables np_sin np_cos np_arccos : float -> float.
Variable get_body_barycentric : string -> option Time -> result Vec3.
Variable get_body_barycentric_posvel : string -> option Time -> result (Vec3 * Vec3).
Variable transform_to : Frame -> Frame -> result Frame.

(** X8. When the Sun-Earth vector has a zero Y component in the mean
    ecliptic frame of date (the Earth is in the XZ plane of that frame),
    the rotation matrix from HME to HEE is the all-NaN matrix, and every
    coordinate that [hme_to_hee] returns has the position (NaN, NaN, NaN). *)
Theorem hme_to_hee_earth_in_xz_plane (hmecoord heeframe sun_earth' : Frame)
  (se : Vec3) (c : CartesianRepresentation) :
  let int_frame :=
    mkFrame HeliocentricMeanEcliptic None (obstime heeframe) (obstime heeframe) ObsNone in
  _sun_earth_icrf get_body_barycentric (obstime heeframe) = Ok se ->
  transform_to
    (mkFrame HCRS (Some (mkRepresentation (Cartesian se) None)) (obstime heeframe)
       None ObsNone) int_frame = Ok sun_earth' ->
  frame_cartesian np_sin np_cos sun_earth' = Ok c ->
  PrimFloat.is_zero (vy (xyz c)) = true ->
  _rotation_matrix_hme_to_hee np_sin np_cos np_arccos get_body_barycentric transform_to
    int_frame = Ok mat_nan /\
  forall r,
    hme_to_hee np_sin np_cos np_arccos get_body_barycentric transform_to
      hmecoord heeframe = Ok r ->
    exists vel,
      _data r = Some (mkRepresentation (Cartesian (mkVec3 nan nan nan)) vel).
Proof.
  intros int_frame Hse Htr Hc Hy.
  assert (Hm : _rotation_matrix_hme_to_hee np_sin np_cos np_arccos get_body_barycentric
                 transform_to int_frame = Ok mat_nan).
  { unfold _rotation_matrix_hme_to_hee. cbn [obstime int_frame].
    rewrite Hse. cbn [bind]. rewrite Htr. cbn [bind]. rewrite Hc. cbn [bind].
    rewrite (xz_about_z_degenerate _ _ _ _ Hy), matrix_product_nan_r. reflexivity. }
  split; [exact Hm|].
  intros r Hr. unfold hme_to_hee in Hr.
  destruct (transform_to hmecoord _) as [h|e]; cbn [bind] in Hr; [|discriminate Hr].
  destruct (transform_to h _) as [ic|e]; cbn [bind] in Hr; [|discriminate Hr].
  fold int_frame in Hr. rewrite Hm in Hr. cbn [bind] in Hr.
  destruct (frame_cartesian np_sin np_cos ic) as [ci|e]; cbn [bind] in Hr;
    [|discriminate Hr].
  injection Hr as <-.
  unfold realize_frame, of_cartesian, cartesian_transform. cbn [_data xyz differentials].
  rewrite mapply_nan. eauto.
Qed.

(** X9. When the two observation times are equal, the offset that
    [hcrs_to_hgs] returns is a zero vector (no shift of the origin),
    provided the position of the Sun given by the ephemeris and the
    returned matrix are finite. *)
Theorem hcrs_to_hgs_same_obstime_zero_offset (hcrscoord hgsframe : Frame) (M : Mat3)
  (offset : CartesianRepresentation) :
  obstime hcrscoord = obstime hgsframe ->
  (forall p, get_body_barycentric "sun" (obstime hgsframe) = Ok p -> vec_finite p = true) ->
  (forall p v, get_body_barycentric_posvel "sun" (obstime hgsframe) = Ok (p, v) ->
               vec_finite p = true) ->
  hcrs_to_hgs np_sin np_cos np_arccos get_body_barycentric get_body_barycentric_posvel
    hcrscoord hgsframe = Ok (M, offset) ->
  mat_finite M = true ->
  vec_is_zero (xyz offset) = true.
Proof.
  intros Ht Hsun Hsunv H HM.
  assert (Hzero : forall p, vec_finite p = true ->
            vec_is_zero (mapply M (vscale p 0)) = true).
  { intros [px py pz] Hp. unfold vec_finite in Hp. cbn [vx vy vz] in Hp.
    apply andb_prop in Hp as [Hp Hp2]. apply andb_prop in Hp as [Hp0 Hp1].
    unfold mat_finite in HM.
    apply andb_prop in HM as [HM HM2]. apply andb_prop in HM as [HM0 HM1].
    assert (Hz : forall a, PrimFloat.is_finite a = true -> signed_zero (a * 0)).
    { intros a Ha. apply finite_mul_signed_zero; [exact Ha | left; reflexivity]. }
    unfold vec_is_zero, mapply, vscale. cbn [vx vy vz].
    rewrite !signed_zero_is_zero; [reflexivity| | |];
      apply vdot_finite_zero; cbn [vx vy vz]; auto. }
  unfold hcrs_to_hgs in H. rewrite Ht in H.
  destruct (obstime_ne_refl (obstime hgsframe)) as (d & Hd & Hany).
  destruct (obstime hgsframe) as [t|] eqn:Hobs; [|discriminate H].
  rewrite Hd in H.
  destruct (has_differentials hcrscoord || has_differentials hgsframe).
  - destruct (get_body_barycentric_posvel "sun" (Some t)) as [[sp sv]|e] eqn:Hs;
      cbn [bind] in H; [|discriminate H].
    destruct (get_body_barycentric_posvel "earth" (Some t)) as [[ep ev]|e];
      cbn [bind] in H; [|discriminate H].
    rewrite Hany in H. cbn [bind] in H. injection H as <- <-.
    cbn [xyz cartesian_transform]. apply Hzero. exact (Hsunv sp sv eq_refl).
  - destruct (get_body_barycentric "sun" (Some t)) as [sp|e] eqn:Hs;
      cbn [bind] in H; [|discriminate H].
    destruct (get_body_barycentric "earth" (Some t)) as [ep|e];
      cbn [bind] in H; [|discriminate H].
    rewrite Hany in H. cbn [bind] in H. injection H as <- <-.
    cbn [xyz cartesian_transform]. apply Hzero. exact (Hsun sp eq_refl).
Qed.

End Ephemeris.

End TransformationFacts.

(** ** Properties of the documentation graph *)

Module DocGraphFacts.
Import DocGraph.

Lemma unchanged_on_refl (w : World) : unchanged_on w w.
Proof. split; [reflexivity | auto]. Qed.

Lemma unchanged_on_write (w0 w : World) (l : nat) (g : TransformGraph) :
  heap w0 !! l = None -> unchanged_on w0 w -> unchanged_on w0 (write w l g).
Proof.
  intros Hfresh [Ha Hh]. split; [exact Ha|].
  intros l' g' Hl'. cbn.
  rewrite lookup_insert_ne; [auto|].
  intros ->. rewrite Hfresh in Hl'. discriminate.
Qed.

Lemma unchanged_on_bind_global (w0 w : World) (l : nat) :
  unchanged_on w0 w -> unchanged_on w0 (bind_global w l).
Proof. intros [Ha Hh]. split; assumption. Qed.

Lemma unchanged_on_registered (w0 w : World) (live : TransformGraph) :
  heap w0 !! astropy_frame_transform_graph w0 = Some live ->
  unchanged_on w0 w ->
  forall a b, registered_transform w a b = registered_transform w0 a b.
Proof.
  intros Hlive [Ha Hh] a b. unfold registered_transform.
  rewrite Ha, Hlive, (Hh _ _ Hlive). reflexivity.
Qed.

Lemma fresh_not_in_heap (w : World) : heap w !! fresh (dom (heap w)) = None.
Proof. apply not_elem_of_dom, is_fresh. Qed.

Section Library.

Variable build_names : gmap string (gmap string string) -> gmap string string.
Variable make_transform_graph_docs : World -> string.

Lemma cull_frame_step (w : World) (small : nat) (graph : gmap string (gmap string string))
  (names : gmap string string) (frame : string) :
  heap w !! small = Some (mkTransformGraph graph (Some names)) ->
  exists graph',
    cull_frame w small frame = Ok (write w small (mkTransformGraph graph' (Some names))).
Proof.
  intros Hs. unfold cull_frame, read. rewrite Hs. cbn. eexists. reflexivity.
Qed.

Lemma pop_name_step (w : World) (small : nat) (graph : gmap string (gmap string string))
  (names : gmap string string) (name : string) :
  heap w !! small = Some (mkTransformGraph graph (Some names)) ->
  is_Some (names !! name) ->
  pop_name build_names w small name =
  Ok (write w small (mkTransformGraph graph (Some (delete name names)))).
Proof.
  intros Hs [c Hc]. unfold pop_name, cached_names, read. rewrite Hs. cbn.
  rewrite Hs. cbn. rewrite Hc. reflexivity.
Qed.

Lemma small_is_write (w : World) (small : nat) (graph : gmap string (gmap string string))
  (names : gmap string string) :
  small_is (write w small (mkTransformGraph graph (Some names))) small names.
Proof. exists graph. cbn. apply lookup_insert_eq. Qed.

Lemma cull_loop (w0 : World) (small : nat) (names : gmap string string)
  (frames : list string) :
  heap w0 !! small = None ->
  forall w, unchanged_on w0 w -> small_is w small names ->
  exists w' states,
    run_loop (fun w => cull_frame w small) w frames = Ok (w', states) /\
    unchanged_on w0 w' /\ small_is w' small names /\
    frame_transform_graph w' = frame_transform_graph w /\
    Forall (unchanged_on w0) states.
Proof.
  intros Hfresh. induction frames as [|f frames IH]; intros w Hu [graph Hs]; cbn.
  - exists w, []. split_and!; try done. by exists graph.
  - destruct (cull_frame_step w small graph names f Hs) as [graph' ->]. cbn [bind].
    set (w1 := write w small _).
    assert (Hu1 : unchanged_on w0 w1) by (apply unchanged_on_write; assumption).
    destruct (IH w1 Hu1 (small_is_write _ _ _ _))
      as (w' & states & -> & Hu' & Hs' & Hg & Hall).
    cbn [bind]. exists w', (w1 :: states).
    split_and!; try done. by constructor.
Qed.

Lemma pop_loop (w0 : World) (small : nat) (items : list string) :
  heap w0 !! small = None ->
  NoDup items ->
  forall w names, unchanged_on w0 w -> small_is w small names ->
  (forall x, x ∈ items -> is_Some (names !! x)) ->
  exists w' states names',
    run_loop (fun w => pop_name build_names w small) w items = Ok (w', states) /\
    unchanged_on w0 w' /\ small_is w' small names' /\
    frame_transform_graph w' = frame_transform_graph w /\
    Forall (unchanged_on w0) states.
Proof.
  intros Hfresh Hnd.
  induction Hnd as [|x items Hx Hnd IH]; intros w names Hu [graph Hs] Hin; cbn.
  - exists w, [], names. split_and!; try done. by exists graph.
  - rewrite (pop_name_step w small graph names x Hs); [|apply Hin; left].
    cbn [bind]. set (w1 := write w small _).
    assert (Hu1 : unchanged_on w0 w1) by (apply unchanged_on_write; assumption).
    destruct (IH w1 (delete x names) Hu1 (small_is_write _ _ _ _))
      as (w' & states & names' & -> & Hu' & Hs' & Hg & Hall).
    { intros y Hy. rewrite lookup_delete_ne; [apply Hin; right; exact Hy|].
      intros ->. contradiction. }
    cbn [bind]. exists w', (w1 :: states), names'.
    split_and!; try done. by constructor.
Qed.

Lemma cull_list_in_names (names : gmap string string) :
  let cull_list :=
    filter (fun name => negb (existsb (String.eqb name) keep_list))
      (map fst (map_to_list names)) in
  NoDup cull_list /\ forall x, x ∈ cull_list -> is_Some (names !! x).
Proof.
  cbn. split.
  - apply NoDup_filter. apply NoDup_fst_map_to_list.
  - intros x Hx. apply list_elem_of_filter in Hx as [_ Hx].
    apply list_elem_of_fmap in Hx as [[k v] [-> Hkv]].
    apply elem_of_map_to_list in Hkv. cbn. eauto.
Qed.

Lemma unchanged_on_trans (w0 w1 w2 : World) :
  unchanged_on w0 w1 -> unchanged_on w1 w2 -> unchanged_on w0 w2.
Proof.
  intros [Ha1 Hh1] [Ha2 Hh2]. split; [congruence | auto].
Qed.

Lemma add_astropy_node_step (w : World) (small : nat) (names : gmap string string) :
  small_is w small names ->
  exists g1 g2,
    _add_astropy_node w small = Ok (write (write w small g1) small g2).
Proof.
  intros [graph Hs]. unfold _add_astropy_node, add_transform, read.
  rewrite Hs. cbn [bind]. cbn [heap write]. rewrite lookup_insert_eq. cbn [bind].
  eexists _, _. reflexivity.
Qed.

(** C9. Let the name of [astropy.coordinates.baseframe] refer to the live
    graph and the module-level name of [transformations.py] to a graph
    object. Then [_make_sunpy_graph] returns, and in every state it goes
    through (after each statement and each loop iteration) and in the state
    it ends in: every graph object that existed before the call has its
    contents unchanged, the name of [astropy.coordinates.baseframe] refers
    to the same object, and the transformation registered for any pair of
    classes is the one registered before the call. All writes go to a
    fresh deep copy. At the end the module-level name refers to a fresh
    object whose contents are those of the graph it referred to before. *)
Theorem pruning_preserves_live_graph (w0 : World) (live g : TransformGraph) :
  heap w0 !! astropy_frame_transform_graph w0 = Some live ->
  heap w0 !! frame_transform_graph w0 = Some g ->
  exists docstr states w_end,
    _make_sunpy_graph build_names make_transform_graph_docs w0 = Ok (docstr, states) /\
    Forall
      (fun w =>
         unchanged_on w0 w /\
         forall a b, registered_transform w a b = registered_transform w0 a b)
      states /\
    last states = Some w_end /\
    heap w0 !! frame_transform_graph w_end = None /\
    heap w_end !! frame_transform_graph w_end = Some g.
Proof.
  intros Hlive Hg.
  assert (Hreg : forall w, unchanged_on w0 w ->
            unchanged_on w0 w /\
            forall a b, registered_transform w a b = registered_transform w0 a b).
  { intros w Hu. split; [exact Hu|]. eapply unchanged_on_registered; eassumption. }
  unfold _make_sunpy_graph, deepcopy at 1, read. rewrite Hg. cbn [bind].
  set (l1 := fresh (dom (heap w0))).
  assert (Hl1 : heap w0 !! l1 = None) by apply fresh_not_in_heap.
  set (w1 := write w0 l1 g).
  assert (Hu01 : unchanged_on w0 w1)
    by (apply unchanged_on_write; [exact Hl1 | apply unchanged_on_refl]).
  assert (Hg1 : heap w1 !! frame_transform_graph w1 = Some g)
    by (destruct Hu01 as [_ Hh]; apply Hh; exact Hg).
  assert (Hb1 : heap w1 !! l1 = Some g) by apply lookup_insert_eq.
  unfold deepcopy, read. rewrite Hg1. cbn [bind].
  set (l2 := fresh (dom (heap w1))).
  assert (Hl2 : heap w1 !! l2 = None) by apply fresh_not_in_heap.
  set (w2 := write w1 l2 g).
  assert (Hu12 : unchanged_on w1 w2)
    by (apply unchanged_on_write; [exact Hl2 | apply unchanged_on_refl]).
  assert (Hs2 : heap w2 !! l2 = Some g) by apply lookup_insert_eq.
  assert (Hc : exists w3 names,
            cached_names build_names w2 l2 = Ok (w3, names) /\
            unchanged_on w1 w3 /\ small_is w3 l2 names /\
            frame_transform_graph w3 = frame_transform_graph w0).
  { unfold cached_names, read. rewrite Hs2. cbn [bind].
    destruct g as [graph [names|]]; cbn [_cached_names_dct _graph].
    - exists w2, names. split_and!; try done. by exists graph.
    - eexists _, _. split; [reflexivity|]. split_and!; try done.
      + apply unchanged_on_write; assumption.
      + apply small_is_write. }
  destruct Hc as (w3 & names & -> & Hu3 & Hs3 & Hf3). cbn [bind].
  destruct (cull_list_in_names names) as [Hnd Hin].
  destruct (cull_loop w1 l2 names (omap (fun name => names !! name)
              (filter (fun name => negb (existsb (String.eqb name) keep_list))
                 (map fst (map_to_list names)))) Hl2 w3 Hu3 Hs3)
    as (w4 & culled & -> & Hu4 & Hs4 & Hf4 & Hculled).
  cbn [bind].
  destruct (pop_loop w1 l2 _ Hl2 Hnd w4 names Hu4 Hs4 Hin)
    as (w5 & popped & names' & -> & Hu5 & Hs5 & Hf5 & Hpopped).
  cbn [bind].
  destruct (add_astropy_node_step w5 l2 names' Hs5) as (g1 & g2 & ->).
  cbn [bind].
  set (w6 := write (write w5 l2 g1) l2 g2).
  assert (Hu6 : unchanged_on w1 w6) by (do 2 (apply unchanged_on_write; [exact Hl2|]); exact Hu5).
  set (w7 := bind_global w6 l2).
  set (w8 := bind_global w7 l1).
  assert (Hu7 : unchanged_on w1 w7) by (apply unchanged_on_bind_global; exact Hu6).
  assert (Hu8 : unchanged_on w1 w8) by (apply unchanged_on_bind_global; exact Hu7).
  eexists _, _, w8. split; [reflexivity|].
  split_and!.
  - assert (Hall : Forall (unchanged_on w1)
              ([w1; w2; w3] ++ culled ++ popped ++ [w6; w7; w8])).
    { apply Forall_app. split.
      { constructor; [apply unchanged_on_refl|].
        constructor; [exact Hu12|]. constructor; [exact Hu3 | constructor]. }
      apply Forall_app. split; [exact Hculled|].
      apply Forall_app. split; [exact Hpopped|].
      constructor; [exact Hu6|].
      constructor; [exact Hu7|]. constructor; [exact Hu8 | constructor]. }
    eapply Forall_impl; [exact Hall|].
    intros w Hw. apply Hreg. eapply unchanged_on_trans; eassumption.
  - change [w6; w7; w8] with ([w6; w7] ++ [w8]).
    rewrite !app_assoc. apply last_snoc.
  - exact Hl1.
  - destruct Hu8 as [_ Hh]. apply Hh. exact Hb1.
Qed.

(** *** The contents of the pruned graph *)

Lemma edge_culled_graph (graph : gmap string (gmap string string)) (f a b : string) :
  edge (culled_graph graph f) a b =
  if bool_decide (a = f \/ b = f) then None else edge graph a b.
Proof.
  unfold edge, culled_graph. rewrite lookup_fmap.
  case_bool_decide as H.
  - destruct (decide (a = f)) as [-> | Ha].
    + destruct (graph !! f) eqn:Hf.
      * rewrite lookup_delete_eq. reflexivity.
      * rewrite Hf. reflexivity.
    + destruct H as [H|H]; [contradiction|]. subst b.
      destruct (graph !! f) eqn:Hf.
      * rewrite lookup_delete_ne by congruence.
        destruct (graph !! a); cbn; [apply lookup_delete_eq | reflexivity].
      * destruct (graph !! a); cbn; [apply lookup_delete_eq | reflexivity].
  - assert (Ha : a <> f) by tauto. assert (Hb : b <> f) by tauto.
    destruct (graph !! f) eqn:Hf.
    + rewrite lookup_delete_ne by congruence.
      destruct (graph !! a); cbn; [apply lookup_delete_ne; congruence | reflexivity].
    + destruct (graph !! a); cbn; [apply lookup_delete_ne; congruence | reflexivity].
Qed.

Lemma cull_frame_graph (w : World) (small : nat) (graph : gmap string (gmap string string))
  (cache : option (gmap string string)) (frame : string) :
  heap w !! small = Some (mkTransformGraph graph cache) ->
  cull_frame w small frame =
  Ok (write w small (mkTransformGraph (culled_graph graph frame) cache)).
Proof.
  intros Hs. unfold cull_frame, read. rewrite Hs. reflexivity.
Qed.

Lemma cull_loop_graph (small : nat) (cache : option (gmap string string))
  (frames : list string) :
  forall (w : World) (graph : gmap string (gmap string string)),
  heap w !! small = Some (mkTransformGraph graph cache) ->
  exists w' states graph',
    run_loop (fun w => cull_frame w small) w frames = Ok (w', states) /\
    heap w' !! small = Some (mkTransformGraph graph' cache) /\
    forall a b,
      edge graph' a b =
      if bool_decide (a ∈ frames \/ b ∈ frames) then None else edge graph a b.
Proof.
  induction frames as [|f frames IH]; intros w graph Hs; cbn [run_loop].
  - exists w, [], graph. split_and!; [reflexivity | exact Hs |].
    intros a b. rewrite bool_decide_eq_false_2; [reflexivity|].
    intros [H|H]; inversion H.
  - rewrite (cull_frame_graph w small graph cache f Hs). cbn [bind].
    set (w1 := write w small _).
    destruct (IH w1 (culled_graph graph f)) as (w' & states & graph' & -> & Hs' & He).
    { apply lookup_insert_eq. }
    cbn [bind]. exists w', (w1 :: states), graph'. split_and!; try done.
    intros a b. rewrite He, edge_culled_graph.
    destruct (decide (a ∈ frames \/ b ∈ frames)) as [Hr|Hr].
    + rewrite !bool_decide_eq_true_2; [reflexivity | | exact Hr].
      destruct Hr as [Hr|Hr]; [left|right]; by right.
    + rewrite (bool_decide_eq_false_2 _ Hr).
      destruct (decide (a = f \/ b = f)) as [Hf|Hf].
      * rewrite !bool_decide_eq_true_2; [reflexivity | | exact Hf].
        destruct Hf as [-> | ->]; [left|right]; by left.
      * rewrite !bool_decide_eq_false_2; [reflexivity | | exact Hf].
        intros [H|H]; apply elem_of_cons in H as [H|H]; tauto.
Qed.

Lemma edge_insert (graph : gmap string (gmap string string)) (x y t a b : string) :
  edge (<[x := <[y := t]> (default ∅ (graph !! x))]> graph) a b =
  if bool_decide (a = x /\ b = y) then Some t else edge graph a b.
Proof.
  unfold edge. case_bool_decide as H.
  - destruct H as [-> ->]. rewrite lookup_insert_eq. apply lookup_insert_eq.
  - destruct (decide (a = x)) as [-> | Ha].
    + rewrite lookup_insert_eq.
      assert (Hb : b <> y) by tauto.
      rewrite lookup_insert_ne by congruence.
      destruct (graph !! x); cbn; [reflexivity | apply lookup_empty].
    + rewrite lookup_insert_ne by congruence. reflexivity.
Qed.

Lemma pop_loop_graph (small : nat) (items : list string) :
  NoDup items ->
  forall (w : World) (graph : gmap string (gmap string string))
         (names : gmap string string),
  heap w !! small = Some (mkTransformGraph graph (Some names)) ->
  (forall x, x ∈ items -> is_Some (names !! x)) ->
  exists w' states names',
    run_loop (fun w => pop_name build_names w small) w items = Ok (w', states) /\
    heap w' !! small = Some (mkTransformGraph graph (Some names')).
Proof.
  intros Hnd.
  induction Hnd as [|x items Hx Hnd IH]; intros w graph names Hs Hin; cbn [run_loop].
  - exists w, [], names. done.
  - rewrite (pop_name_step w small graph names x Hs); [|apply Hin; left].
    cbn [bind]. set (w1 := write w small _).
    destruct (IH w1 graph (delete x names)) as (w' & states & names' & -> & Hs').
    { apply lookup_insert_eq. }
    { intros y Hy. rewrite lookup_delete_ne; [apply Hin; right; exact Hy|].
      intros ->. contradiction. }
    cbn [bind]. exists w', (w1 :: states), names'. done.
Qed.

(** X10. [_make_sunpy_graph] returns, and the graph to which the
    module-level name refers while the documentation is rendered is the
    pruned copy: it has the two edges between [Astropy] and [ICRS] that
    [_add_astropy_node] registers; apart from these, no edge starts or ends
    at a class whose name is outside the keep list, and every other edge is
    the one of the graph before the call. *)
Theorem pruned_graph_contents (w0 : World) (g : TransformGraph) :
  heap w0 !! frame_transform_graph w0 = Some g ->
  let names := default (build_names (_graph g)) (_cached_names_dct g) in
  exists states w_doc small,
    _make_sunpy_graph build_names make_transform_graph_docs w0 =
      Ok (_tweak_graph (make_transform_graph_docs w_doc), states) /\
    w_doc ∈ states /\
    heap w_doc !! frame_transform_graph w_doc = Some small /\
    forall a b,
      edge (_graph small) a b =
      if bool_decide (a = "ICRS" /\ b = "Astropy") then Some "fake_transform2"
      else if bool_decide (a = "Astropy" /\ b = "ICRS") then Some "fake_transform1"
      else if bool_decide (a ∈ cull_frames_of names \/ b ∈ cull_frames_of names) then None
      else edge (_graph g) a b.
Proof.
  intros Hg names.
  unfold _make_sunpy_graph, deepcopy at 1, read. rewrite Hg. cbn [bind].
  set (l1 := fresh (dom (heap w0))).
  assert (Hl1 : heap w0 !! l1 = None) by apply fresh_not_in_heap.
  set (w1 := write w0 l1 g).
  assert (Hg1 : heap w1 !! frame_transform_graph w1 = Some g).
  { cbn. rewrite lookup_insert_ne; [exact Hg|]. intros E. rewrite E in Hl1. cbn in Hl1.
    rewrite Hg in Hl1. discriminate. }
  unfold deepcopy, read. rewrite Hg1. cbn [bind].
  set (l2 := fresh (dom (heap w1))).
  set (w2 := write w1 l2 g).
  assert (Hs2 : heap w2 !! l2 = Some g) by apply lookup_insert_eq.
  assert (Hc : exists w3,
            cached_names build_names w2 l2 = Ok (w3, names) /\
            heap w3 !! l2 = Some (mkTransformGraph (_graph g) (Some names))).
  { unfold cached_names, read. rewrite Hs2. cbn [bind]. subst names.
    destruct g as [graph [nm|]]; cbn [_cached_names_dct _graph default].
    - exists w2. split; [reflexivity | exact Hs2].
    - eexists. split; [reflexivity | apply lookup_insert_eq]. }
  destruct Hc as (w3 & -> & Hs3). cbn [bind].
  destruct (cull_list_in_names names) as [Hnd Hin].
  fold (cull_list_of names). fold (cull_frames_of names).
  destruct (cull_loop_graph l2 (Some names) (cull_frames_of names) w3 (_graph g) Hs3)
    as (w4 & culled & graph4 & -> & Hs4 & He4).
  cbn [bind].
  destruct (pop_loop_graph l2 (cull_list_of names) Hnd w4 graph4 names Hs4 Hin)
    as (w5 & popped & names' & -> & Hs5).
  cbn [bind].
  unfold _add_astropy_node, add_transform, read. rewrite Hs5. cbn [bind].
  cbn [heap write]. rewrite lookup_insert_eq. cbn [bind _graph].
  match goal with
  | |- context [bind_global (bind_global ?w l2) l1] => set (w6 := w)
  end.
  exists ([w1; w2; w3] ++ culled ++ popped ++ [w6; bind_global w6 l2;
            bind_global (bind_global w6 l2) l1]),
    (bind_global w6 l2).
  eexists. split; [reflexivity|]. split.
  { rewrite !elem_of_app. right. right. right.
    apply elem_of_cons. right. apply elem_of_cons. by left. }
  split.
  { cbn. apply lookup_insert_eq. }
  intros a b. cbn [_graph].
  rewrite edge_insert. case_bool_decide; [reflexivity|].
  rewrite edge_insert. case_bool_decide; [reflexivity|].
  apply He4.
Qed.

End Library.

(** *** The text returned when the marker is missing *)

Lemma length_drop_last (s : string) :
  (String.length (drop_chars (String.length s - 1) s) <= 1)%nat.
Proof.
  induction s as [|c s IH]; [cbn; lia|].
  cbn [String.length]. replace (S (String.length s) - 1)%nat with (String.length s) by lia.
  destruct s as [|c' s']; [cbn; lia|].
  cbn [String.length drop_chars] in *.
  replace (S (String.length s') - 1)%nat with (String.length s') in IH by lia.
  exact IH.
Qed.

Lemma prefix_longer (old s : string) :
  (String.length s < String.length old)%nat -> String.prefix old s = false.
Proof.
  revert s. induction old as [|a old IH]; intros s H; [cbn in H; lia|].
  destruct s as [|c s]; [reflexivity|].
  cbn. cbn in H. destruct (Ascii.ascii_dec a c); [apply IH; lia | reflexivity].
Qed.

Lemma str_replace_short (s old new : string) :
  (String.length s <= 1)%nat -> (2 <= String.length old)%nat ->
  str_replace s old new = s.
Proof.
  intros Hs Ho. unfold str_replace.
  destruct s as [|c [|c' s']]; [reflexivity | | cbn in Hs; lia].
  cbn [replace_aux]. rewrite prefix_longer; [reflexivity | cbn; lia].
Qed.

(** X11. When the text produced by Astropy does not contain the marker
    ['.. Wrap the graph'], [str.find] returns [-1] and the slice keeps the
    last character only: [_tweak_graph] returns that character (the empty
    string for an empty text) and none of its replacements applies. *)
Theorem tweak_graph_without_marker (docstr : string) :
  str_find docstr ".. Wrap the graph" = (-1)%Z ->
  _tweak_graph docstr = slice_from docstr (-1) /\
  (String.length (_tweak_graph docstr) <= 1)%nat.
Proof.
  intros Hfind.
  assert (Hlen : (String.length (slice_from docstr (-1)) <= 1)%nat).
  { unfold slice_from. cbn. apply length_drop_last. }
  assert (Heq : _tweak_graph docstr = slice_from docstr (-1)).
  { unfold _tweak_graph. rewrite Hfind.
    cbn [fold_left].
    repeat (rewrite (str_replace_short (slice_from docstr (-1)));
            [| exact Hlen | vm_compute; lia]).
    reflexivity. }
  split; [exact Heq | rewrite Heq; exact Hlen].
Qed.

End DocGraphFacts.

(** ** Properties of the LYRA helpers *)

Module LyraFacts.
Import Lyra.
Local Open Scope Z_scope.

Lemma event2string_step (out : list string) (i : Z) :
  exists names,
    event2string_body out i = out ++ names /\
    length names = (if known_event i then 1 else 0)%nat.
Proof.
  unfold event2string_body, append_if, known_event.
  destruct (Z.eqb_spec i 1) as [-> | H1]; [exists ["LAR"]; split; reflexivity|].
  destruct (Z.eqb_spec i 2) as [-> | H2]; [exists ["N/A"]; split; reflexivity|].
  destruct (Z.eqb_spec i 3) as [-> | H3]; [exists ["UV occult."]; split; reflexivity|].
  destruct (Z.eqb_spec i 4) as [-> | H4]; [exists ["Vis. occult."]; split; reflexivity|].
  destruct (Z.eqb_spec i 5) as [-> | H5]; [exists ["Offpoint"]; split; reflexivity|].
  destruct (Z.eqb_spec i 6) as [-> | H6]; [exists ["SAA"]; split; reflexivity|].
  destruct (Z.eqb_spec i 7) as [-> | H7]; [exists ["Auroral zone"]; split; reflexivity|].
  destruct (Z.eqb_spec i 8) as [-> | H8]; [exists ["Moon in LYRA"]; split; reflexivity|].
  destruct (Z.eqb_spec i 9) as [-> | H9]; [exists ["Moon in SWAP"]; split; reflexivity|].
  destruct (Z.eqb_spec i 10) as [-> | H10]; [exists ["Venus in LYRA"]; split; reflexivity|].
  destruct (Z.eqb_spec i 11) as [-> | H11]; [exists ["Venus in SWAP"]; split; reflexivity|].
  exists []. split; [symmetry; apply app_nil_r|].
  destruct (Z.leb_spec 1 i), (Z.leb_spec i 11); cbn; try reflexivity. lia.
Qed.

Lemma event2string_fold (l : list Z) (out : list string) :
  exists names,
    fold_left event2string_body l out = out ++ names /\
    length names = length (filter (fun i => known_event i = true) l).
Proof.
  revert out. induction l as [|i l IH]; intros out.
  - exists []. split; [symmetry; apply app_nil_r | reflexivity].
  - cbn [fold_left].
    destruct (event2string_step out i) as (n1 & -> & Hn1).
    destruct (IH (out ++ n1)) as (n2 & -> & Hn2).
    exists (n1 ++ n2). split; [symmetry; apply app_assoc|].
    rewrite length_app, Hn1, Hn2, filter_cons.
    destruct (known_event i); cbn.
    + rewrite decide_True by reflexivity. reflexivity.
    + rewrite decide_False by discriminate. reflexivity.
Qed.

Lemma filter_length_all {A : Type} (P : A -> Prop) `{!forall x, Decision (P x)}
  (l : list A) :
  length (filter P l) = length l <-> Forall P l.
Proof.
  induction l as [|x l IH]; [split; [constructor | reflexivity]|].
  rewrite filter_cons. destruct (decide (P x)) as [Hx|Hx]; cbn.
  - split.
    + intros Hl. constructor; [exact Hx | apply IH; lia].
    + intros Hl. inversion Hl; subst. f_equal. apply IH. assumption.
  - split.
    + intros Hl. pose proof (length_filter P l). lia.
    + intros Hl. inversion Hl; subst. contradiction.
Qed.

(** X12. The list returned by [_lytaf_event2string] has one entry for every code
    between 1 and 11 and none for any other code: it is as long as its
    argument exactly when every code is between 1 and 11. *)
Theorem lytaf_event2string_length (l : list Z) :
  length (_lytaf_event2string (IntList l)) =
  length (filter (fun i => known_event i = true) l) /\
  (length (_lytaf_event2string (IntList l)) = length l <->
   Forall (fun i => 1 <= i <= 11) l).
Proof.
  unfold _lytaf_event2string.
  destruct (event2string_fold l []) as (names & -> & Hn).
  cbn [app]. split; [exact Hn|].
  rewrite Hn, filter_length_all. apply Forall_iff. intros i.
  unfold known_event. rewrite andb_true_iff, !Z.leb_le. reflexivity.
Qed.

(** *** The binary search *)

Lemma binsearch_left_below (fuel : nat) (a : list Z) (v : Z) (hi : nat) :
  (hi <= length a)%nat ->
  Forall (fun x => v <= x) a ->
  binsearch_left fuel a v 0 hi = 0%nat.
Proof.
  intros Hhi Ha. revert hi Hhi.
  induction fuel as [|fuel IH]; intros hi Hhi; [reflexivity|].
  cbn [binsearch_left]. destruct (Nat.ltb_spec 0 hi) as [Hlt|]; [|reflexivity].
  cbn [Nat.add]. rewrite Nat.sub_0_r.
  assert (Hmid : (hi / 2 < length a)%nat).
  { pose proof (Nat.div_lt hi 2 Hlt ltac:(lia)). lia. }
  assert (Hx : v <= nth (hi / 2) a 0).
  { exact (proj1 (List.Forall_nth _ a) Ha _ 0 Hmid). }
  destruct (Z.ltb_spec (nth (hi / 2) a 0) v) as [Hc|Hc]; [lia|].
  apply IH. lia.
Qed.

Lemma binsearch_left_above (fuel : nat) (a : list Z) (v : Z) (lo : nat) :
  (lo <= length a)%nat ->
  (length a - lo <= fuel)%nat ->
  Forall (fun x => x < v) a ->
  binsearch_left fuel a v lo (length a) = length a.
Proof.
  intros Hlo Hfuel Ha. revert lo Hlo Hfuel.
  induction fuel as [|fuel IH]; intros lo Hlo Hfuel; [cbn; lia|].
  cbn [binsearch_left]. destruct (Nat.ltb_spec lo (length a)) as [Hlt|]; [|lia].
  set (mid := (lo + (length a - lo) / 2)%nat).
  assert (Hmid : (mid < length a)%nat).
  { subst mid. pose proof (Nat.div_lt (length a - lo) 2 ltac:(lia) ltac:(lia)). lia. }
  assert (Hx : nth mid a 0 < v).
  { exact (proj1 (List.Forall_nth _ a) Ha _ 0 Hmid). }
  destruct (Z.ltb_spec (nth mid a 0) v) as [Hc|Hc]; [|lia].
  apply IH; subst mid; lia.
Qed.

Lemma zero_slice_all (mask : list Z) :
  zero_slice mask 0 (length mask) = replicate (length mask) 0.
Proof.
  unfold zero_slice.
  assert (H : forall (k : nat) (m : list Z),
             imap (fun i x => if (0 <=? k + i)%nat && (k + i <? k + length m)%nat
                              then 0 else x) m = replicate (length m) 0).
  { intros k m. revert k. induction m as [|x m IH]; intros k; [reflexivity|].
    cbn [imap length replicate]. f_equal.
    - rewrite Nat.add_0_r. destruct (Nat.ltb_spec k (k + S (length m))); [reflexivity|lia].
    - rewrite <- (IH (S k)). apply imap_ext. intros i y _. cbn.
      replace (k + S i)%nat with (S (k + i)) by lia.
      replace (k + S (length m))%nat with (S (k + length m)) by lia. reflexivity. }
  exact (H 0%nat mask).
Qed.

Lemma zero_slice_zeros (n start stop : nat) :
  zero_slice (replicate n 0) start stop = replicate n 0.
Proof.
  unfold zero_slice. apply list_eq. intros i.
  rewrite list_lookup_imap.
  destruct (replicate n 0 !! i) as [x|] eqn:Hx; [|reflexivity].
  apply lookup_replicate in Hx as [-> _]. cbn.
  destruct (_ && _); reflexivity.
Qed.

Lemma length_zero_slice (mask : list Z) (start stop : nat) :
  length (zero_slice mask start stop) = length mask.
Proof. apply length_imap. Qed.

Lemma np_diff_zeros (n : nat) : where_nonzero (np_diff (replicate n 0)) 0 = [].
Proof.
  assert (H : forall i, where_nonzero (np_diff (replicate n 0)) i = []).
  { induction n as [|[|n] IH]; intros i; [reflexivity | reflexivity |].
    change (replicate (S (S n)) 0) with (0 :: replicate (S n) 0).
    change (replicate (S n) 0) with (0 :: replicate n 0) in *.
    cbn [np_diff where_nonzero]. cbn. apply IH. }
  apply H.
Qed.

(** The binary search finds the boundary of a partitioned array. *)
Lemma binsearch_left_partition (a : list Z) (v : Z) (k : nat) :
  (k <= length a)%nat ->
  (forall i, (i < k)%nat -> nth i a 0 < v) ->
  (forall i, (k <= i < length a)%nat -> v <= nth i a 0) ->
  forall (fuel lo hi : nat),
    (lo <= k <= hi)%nat -> (hi <= length a)%nat -> (hi - lo <= fuel)%nat ->
    binsearch_left fuel a v lo hi = k.
Proof.
  intros Hk Hlow Hhigh.
  induction fuel as [|fuel IH]; intros lo hi Hlo Hhi Hfuel; [cbn; lia|].
  cbn [binsearch_left]. destruct (Nat.ltb_spec lo hi) as [Hlt|]; [|lia].
  set (mid := (lo + (hi - lo) / 2)%nat).
  assert (Hmid : (lo <= mid < hi)%nat).
  { subst mid. pose proof (Nat.div_lt (hi - lo) 2 ltac:(lia) ltac:(lia)). lia. }
  destruct (Z.ltb_spec (nth mid a 0) v) as [Hc|Hc].
  - assert (mid < k)%nat.
    { destruct (Nat.lt_ge_cases mid k) as [|Hge]; [assumption|].
      pose proof (Hhigh mid ltac:(lia)). lia. }
    apply IH; lia.
  - assert (k <= mid)%nat.
    { destruct (Nat.lt_ge_cases mid k) as [Hl|]; [|assumption].
      pose proof (Hlow mid Hl). lia. }
    apply IH; lia.
Qed.

Lemma zero_slice_prefix (n k : nat) :
  (k <= n)%nat ->
  zero_slice (replicate n 1) 0 k = replicate k 0 ++ replicate (n - k) 1.
Proof.
  intros Hk. unfold zero_slice. apply list_eq. intros i.
  rewrite list_lookup_imap.
  destruct (Nat.lt_ge_cases i k) as [Hi|Hi].
  - rewrite lookup_app_l by (rewrite length_replicate; lia).
    rewrite !lookup_replicate_2 by lia.
    destruct (Nat.ltb_spec i k); [reflexivity|lia].
  - rewrite lookup_app_r by (rewrite length_replicate; lia).
    rewrite length_replicate.
    destruct (Nat.lt_ge_cases i n) as [Hn|Hn].
    + rewrite !lookup_replicate_2 by lia.
      destruct (Nat.ltb_spec i k); [lia|]. reflexivity.
    + rewrite !lookup_ge_None_2 by (rewrite length_replicate; lia). reflexivity.
Qed.

Lemma where_nonzero_ones (m i : nat) : where_nonzero (np_diff (replicate m 1)) i = [].
Proof.
  revert i. induction m as [|[|m] IH]; intros i; [reflexivity | reflexivity |].
  change (replicate (S (S m)) 1) with (1 :: 1 :: replicate m 1).
  change (replicate (S m) 1) with (1 :: replicate m 1) in IH.
  cbn [np_diff where_nonzero]. cbn. apply IH.
Qed.

Lemma np_diff_cons (a b : Z) (l : list Z) :
  np_diff (a :: b :: l) = (b - a) :: np_diff (b :: l).
Proof. reflexivity. Qed.

Lemma np_diff_step (k m : nat) (i : nat) :
  (0 < m)%nat ->
  where_nonzero (np_diff (replicate (S k) 0 ++ replicate m 1)) i = [(i + k)%nat] /\
  nth k (np_diff (replicate (S k) 0 ++ replicate m 1)) 0 = 1.
Proof.
  intros Hm. revert i. induction k as [|k IH]; intros i.
  - destruct m as [|m]; [lia|].
    change (replicate 1 0 ++ replicate (S m) 1) with (0 :: 1 :: replicate m 1).
    rewrite np_diff_cons.
    change (1 :: replicate m 1) with (replicate (S m) 1).
    change (1 - 0) with 1. cbn [where_nonzero nth Z.eqb].
    rewrite where_nonzero_ones, Nat.add_0_r. split; reflexivity.
  - change (replicate (S (S k)) 0 ++ replicate m 1)
      with (0 :: 0 :: (replicate k 0 ++ replicate m 1)).
    rewrite np_diff_cons.
    change (0 :: (replicate k 0 ++ replicate m 1))
      with (replicate (S k) 0 ++ replicate m 1).
    change (0 - 0) with 0. cbn [where_nonzero nth Z.eqb].
    destruct (IH (S i)) as [H1 H2]. rewrite H1, H2.
    split; [f_equal; lia | reflexivity].
Qed.

Section Series.
Variables T D : Type.
Variable parse_time : T -> result Z.

Lemma length_parse_all (timearray : list T) (times : list Z) :
  parse_all T parse_time timearray = Ok times -> length times = length timearray.
Proof.
  revert times. induction timearray as [|tim rest IH]; intros times H; cbn in H.
  - injection H as <-. reflexivity.
  - destruct (parse_time tim) as [t|e]; cbn [bind] in H; [|discriminate H].
    destruct (parse_all T parse_time rest) as [ts|e]; cbn [bind] in H; [|discriminate H].
    injection H as <-. cbn. f_equal. apply IH. reflexivity.
Qed.

(** X13. When one of the events covers every time of the series (it starts at
    or before each of them and ends after each of them), the mask is zero
    everywhere, no discontinuity is found, and [split_series_using_lytaf]
    returns the complete series as its only interval of good data. The
    same holds when there is no event at all. *)
Theorem split_series_event_covering_all (timearray : list T) (data : list D)
  (lar : list LytafEvent) (times : list Z) :
  parse_all T parse_time timearray = Ok times ->
  lar = [] \/
  (exists ev, ev ∈ lar /\
     Forall (fun t => start_time ev <= t < end_time ev) times) ->
  split_series_using_lytaf T D parse_time timearray data lar =
  Ok [mkSubSeries D times data].
Proof.
  intros Hparse Hlar. unfold split_series_using_lytaf.
  rewrite Hparse. cbn [bind].
  pose proof (length_parse_all _ _ Hparse) as Hlen.
  set (step := fun mask ev =>
         zero_slice mask (searchsorted times (start_time ev))
           (searchsorted times (end_time ev))).
  assert (Hmask : where_nonzero
            (np_diff (fold_left step lar (replicate (length timearray) 1))) 0 = []).
  { destruct Hlar as [-> | (ev & Hin & Hcover)].
    - cbn [fold_left]. clear. induction (length timearray) as [|[|n] IH];
        [reflexivity | reflexivity |].
      assert (H : forall m i, where_nonzero (np_diff (replicate m 1)) i = []).
      { clear. induction m as [|[|m] IHm]; intros i; [reflexivity | reflexivity |].
        change (replicate (S (S m)) 1) with (1 :: 1 :: replicate m 1).
        change (replicate (S m) 1) with (1 :: replicate m 1) in IHm.
        cbn [np_diff where_nonzero]. cbn. apply IHm. }
      apply H.
    - assert (Hzero : forall l mask, length mask = length timearray ->
                ev ∈ l -> fold_left step l mask = replicate (length timearray) 0).
      { assert (Hkeep : forall l, fold_left step l (replicate (length timearray) 0) =
                          replicate (length timearray) 0).
        { induction l as [|e l IH]; [reflexivity|]. cbn [fold_left].
          unfold step at 2. rewrite zero_slice_zeros. exact IH. }
        induction l as [|e l IH]; intros mask Hm Hev; [inversion Hev|].
        cbn [fold_left]. apply elem_of_cons in Hev as [<- | Hev].
        + unfold step at 2. unfold searchsorted.
          rewrite binsearch_left_below;
            [| lia | eapply Forall_impl; [exact Hcover | intros; cbn in *; lia]].
          rewrite binsearch_left_above;
            [| lia | lia | eapply Forall_impl; [exact Hcover | intros; cbn in *; lia]].
          rewrite Hlen, <- Hm, zero_slice_all, Hm. apply Hkeep.
        + apply IH; [|exact Hev]. unfold step. rewrite length_zero_slice. exact Hm. }
      rewrite (Hzero lar _ (length_replicate _ _) Hin). apply np_diff_zeros. }
  fold step. rewrite Hmask. reflexivity.
Qed.

(** X15. For a single event that covers exactly the first [k] samples of
    the series ([0 < k < n]), the only sub-series returned is
    [datetime_array[k-1:-1]] with [data[k-1:-1]]: it begins with the last
    sample inside the event and leaves out the last sample of the series. *)
Theorem split_series_event_at_start (timearray : list T) (data : list D)
  (ev : LytafEvent) (times : list Z) (k : nat) :
  parse_all T parse_time timearray = Ok times ->
  (0 < k < length times)%nat ->
  (forall i, (i < length times)%nat -> start_time ev <= nth i times 0) ->
  (forall i, (i < k)%nat -> nth i times 0 < end_time ev) ->
  (forall i, (k <= i < length times)%nat -> end_time ev <= nth i times 0) ->
  split_series_using_lytaf T D parse_time timearray data [ev] =
  Ok [mkSubSeries D (slice times (k - 1) (length times - 1))
        (slice data (k - 1) (length data - 1))].
Proof.
  intros Hparse Hk Hstart Hin Hout. unfold split_series_using_lytaf.
  rewrite Hparse. cbn [bind fold_left].
  pose proof (length_parse_all _ _ Hparse) as Hlen.
  assert (Hs : searchsorted times (start_time ev) = 0%nat).
  { unfold searchsorted.
    apply (binsearch_left_partition times (start_time ev) 0); try lia.
    intros i Hi. apply Hstart. lia. }
  assert (He : searchsorted times (end_time ev) = k).
  { unfold searchsorted.
    apply (binsearch_left_partition times (end_time ev) k); try lia; assumption. }
  rewrite Hs, He, <- Hlen, zero_slice_prefix by lia.
  destruct k as [|k]; [lia|].
  destruct (np_diff_step k (length times - S k) 0 ltac:(lia)) as [Hw Hn].
  rewrite Hw. cbn [length Nat.eqb nth]. cbn [Nat.add]. rewrite Hn. cbn [Z.eqb].
  cbn [good_regions]. unfold slice_to_last.
  replace (S k - 1)%nat with k by lia. reflexivity.
Qed.
End Series.
(** *** The input checks *)



Section Checks.

Variable parse_time : string -> result Z.


(** X14. The input checks of [remove_lyra_artifacts] accept no [channels] other
    than a list: for [None], which is the default and which the message
    names as valid, and for any other value that is not a list, the function
    raises; when [time] and [artifacts] pass their checks the exception is
    the [TypeError] about [channels]. A list passes the check. *)
Theorem remove_lyra_artifacts_rejects_default_channels (time channels artifacts : PyVal) :
  (py_type channels <> ListType ->
   is_ok (remove_lyra_artifacts_check_inputs parse_time time channels artifacts) = false /\
   forall t types,
     _check_datetime parse_time time = Ok t ->
     py_iter artifacts = Ok types -> forallb is_str types = true ->
     remove_lyra_artifacts_check_inputs parse_time time channels artifacts =
     Raise (TypeError "channels must be None or a list of numpy arrays of dtype 'float64'.")) /\
  (py_type channels = ListType ->
   forall t types,
     _check_datetime parse_time time = Ok t ->
     py_iter artifacts = Ok types -> forallb is_str types = true ->
     remove_lyra_artifacts_check_inputs parse_time time channels artifacts = Ok t).
Proof.
  split.
  - intros Hc.
    assert (Hcheck : is_not (PType (py_type channels)) PNone &&
                     is_not (PType (py_type channels)) (PType ListType) = true).
    { destruct channels; try reflexivity. contradiction Hc. reflexivity. }
    split.
    + unfold remove_lyra_artifacts_check_inputs.
      destruct (_check_datetime parse_time time) as [t|e]; cbn [bind]; [|reflexivity].
      destruct (py_iter artifacts) as [types|e]; cbn [bind]; [|reflexivity].
      destruct (forallb is_str types); cbn [negb]; [|reflexivity].
      rewrite Hcheck. reflexivity.
    + intros t types Ht Ha Hs. unfold remove_lyra_artifacts_check_inputs.
      rewrite Ht. cbn [bind]. rewrite Ha. cbn [bind]. rewrite Hs. cbn [negb].
      rewrite Hcheck. reflexivity.
  - intros Hc t types Ht Ha Hs. unfold remove_lyra_artifacts_check_inputs.
    rewrite Ht. cbn [bind]. rewrite Ha. cbn [bind]. rewrite Hs, Hc. reflexivity.
Qed.

End Checks.

End LyraFacts.

(** ** The properties at concrete inputs *)

Module Evaluation.

Import Scenario.



(** The claim C4 as stated fails: an HGS coordinate with an observation
    time is transformed to an HGC frame whose observation time is [None]
    without any exception. *)
Lemma hgs_to_hgc_destination_without_obstime_returns :
  obstime (frame_at HeliographicCarrington None ObsNone) = None /\
  is_ok (hgs_to_hgc np_sin np_cos L0 transform_to
           (coord_at HeliographicStonyhurst (Some t0) ObsNone)
           (frame_at HeliographicCarrington None ObsNone)) = true.
Proof. split; reflexivity. Defined.

(** C4 (as amended) at concrete inputs. *)
Lemma missing_attribute_errors_witness :
  hpc_to_hcc np_sin np_cos np_arctan2 np_hypot transform_to calculate_distance
    (coord_at Helioprojective None (ObsName "earth"))
    (frame_at Heliocentric None (ObsName "earth")) =
  Raise (ConvertError "Cannot transform helioprojective coordinates to heliocentric coordinates for observer '{}' without `obstime` being specified.") /\
  hgs_to_hgc np_sin np_cos L0 transform_to
    (coord_at HeliographicStonyhurst None ObsNone)
    (frame_at HeliographicCarrington None ObsNone) =
  Raise (ValueError "To perform this transformation the coordinate Frame needs an obstime Attribute") /\
  hcrs_to_hgs np_sin np_cos np_arccos get_body_barycentric get_body_barycentric_posvel
    (coord_at HCRS (Some t0) ObsNone)
    (frame_at HeliographicStonyhurst None ObsNone) =
  Raise (ValueError "To perform this transformation the coordinate Frame needs an obstime Attribute").
Proof.
  split; [|split].
  - apply (proj1 (missing_attribute_errors np_sin np_cos np_arccos np_arctan2 np_hypot
                    get_body_barycentric get_body_barycentric_posvel L0 transform_to
                    calculate_distance
                    (coord_at Helioprojective None (ObsName "earth"))
                    (frame_at Heliocentric None (ObsName "earth")))).
    reflexivity.
  - apply (proj1 (proj2 (missing_attribute_errors np_sin np_cos np_arccos np_arctan2
                    np_hypot get_body_barycentric get_body_barycentric_posvel L0
                    transform_to calculate_distance
                    (coord_at HeliographicStonyhurst None ObsNone)
                    (frame_at HeliographicCarrington None ObsNone))));
      reflexivity.
  - apply (proj1 (proj2 (proj2 (missing_attribute_errors np_sin np_cos np_arccos
                    np_arctan2 np_hypot get_body_barycentric
                    get_body_barycentric_posvel L0 transform_to calculate_distance
                    (coord_at HCRS (Some t0) ObsNone)
                    (frame_at HeliographicStonyhurst None ObsNone))))).
    reflexivity.
Defined.


(** C6 at concrete inputs: a coordinate without observation time receives
    the target time. *)
Lemma transform_obstime_witness :
  _transform_obstime transform_to (coord_at HeliographicStonyhurst None ObsNone)
    (Some t1) =
  Ok (coord_at HeliographicStonyhurst (Some t1) ObsNone).
Proof.
  destruct (transform_obstime_spec transform_to
              (coord_at HeliographicStonyhurst None ObsNone) (Some t1))
    as (_ & _ & H & _).
  exact (H t1 unit_x eq_refl eq_refl eq_refl).
Defined.

(** C7 at concrete inputs: an HGS coordinate with a velocity, so that the
    offset of the forward transformation carries one. *)
Lemma hgs_to_hcrs_reverses_witness :
  exists (M : Mat3) (p v : Vec3),
    hcrs_to_hgs np_sin np_cos np_arccos get_body_barycentric
      get_body_barycentric_posvel
      (frame_at HCRS (Some t1) ObsNone)
      (mkFrame HeliographicStonyhurst (Some moving_x) (Some t0) None ObsNone) =
    Ok (M, mkCartesian p (Some v)) /\
    hgs_to_hcrs np_sin np_cos np_arccos get_body_barycentric
      get_body_barycentric_posvel
      (mkFrame HeliographicStonyhurst (Some moving_x) (Some t0) None ObsNone)
      (frame_at HCRS (Some t1) ObsNone) =
    Ok (matrix_transpose M,
        mkCartesian (mapply (matrix_transpose M) (vneg p))
          (Some (mapply (matrix_transpose M) (vneg v)))).
Proof.
  assert (H : exists M p v,
            hcrs_to_hgs np_sin np_cos np_arccos get_body_barycentric
              get_body_barycentric_posvel
              (frame_at HCRS (Some t1) ObsNone)
              (mkFrame HeliographicStonyhurst (Some moving_x) (Some t0) None ObsNone) =
            Ok (M, mkCartesian p (Some v))).
  { eexists _, _, _. vm_compute. reflexivity. }
  destruct H as (M & p & v & H). exists M, p, v. split; [exact H|].
  exact (proj1 (hgs_to_hcrs_reverses_hcrs_to_hgs np_sin np_cos np_arccos
                  get_body_barycentric get_body_barycentric_posvel
                  (mkFrame HeliographicStonyhurst (Some moving_x) (Some t0) None ObsNone)
                  (frame_at HCRS (Some t1) ObsNone))
           M (mkCartesian p (Some v)) H).
Defined.

(** The claim C8 as stated fails. With the Earth one length unit from the
    Sun, the HEE vector [(1, 0, 0)] is the position of the Earth: its X
    component in Geocentric Solar Ecliptic at the same time is zero, not
    [-1]. *)
Lemma hee_to_gse_x_is_not_negated :
  exists v : Vec3,
    hee_to_gse np_sin np_cos get_body_barycentric transform_to
      (coord_at HeliocentricEarthEcliptic (Some t0) ObsNone)
      (frame_at GeocentricSolarEcliptic (Some t0) ObsNone) =
    Ok (realize_frame (frame_at GeocentricSolarEcliptic (Some t0) ObsNone)
          (mkRepresentation (Cartesian v) None)) /\
    PrimFloat.eqb (vx v) 0 = true /\
    PrimFloat.eqb (vx v) (- 1) = false.
Proof.
  eexists. split; [vm_compute; reflexivity|]. split; reflexivity.
Defined.

(** C8 (as amended) at the same input. *)
Lemma hee_to_gse_components_witness :
  hee_to_gse np_sin np_cos get_body_barycentric transform_to
    (coord_at HeliocentricEarthEcliptic (Some t0) ObsNone)
    (frame_at GeocentricSolarEcliptic (Some t0) ObsNone) =
  Ok (realize_frame (frame_at GeocentricSolarEcliptic (Some t0) ObsNone)
        (mkRepresentation
           (Cartesian (mkVec3 ((1 - 1) * (-1)) ((0 - 0) * (-1)) ((0 - 0) * 1)))
           None)).
Proof.
  exact (hee_to_gse_components np_sin np_cos get_body_barycentric transform_to
           (coord_at HeliocentricEarthEcliptic (Some t0) ObsNone)
           (frame_at GeocentricSolarEcliptic (Some t0) ObsNone)
           (mkFrame HeliocentricEarthEcliptic (Some unit_x) (Some t0) None ObsNone)
           (mkVec3 1 0 0) (mkVec3 (1 - 0) (0 - 0) (0 - 0)) (mkVec3 1 0 0) None
           eq_refl eq_refl eq_refl eq_refl eq_refl eq_refl).
Defined.

(** C9 at a concrete store. *)
Lemma pruning_preserves_witness :
  exists docstr states w_end,
    DocGraph._make_sunpy_graph example_names example_docs example_world =
    Ok (docstr, states) /\
    Forall
      (fun w =>
         DocGraph.unchanged_on example_world w /\
         forall a b,
           DocGraph.registered_transform w a b =
           DocGraph.registered_transform example_world a b)
      states /\
    last states = Some w_end /\
    DocGraph.heap example_world !! DocGraph.frame_transform_graph w_end = None /\
    DocGraph.heap w_end !! DocGraph.frame_transform_graph w_end = Some example_graph.
Proof.
  exact (DocGraphFacts.pruning_preserves_live_graph example_names example_docs
           example_world example_graph example_graph eq_refl eq_refl).
Defined.

(** C10 at a concrete input: Cartesian data in, spherical data out. *)
Lemma hcc_to_hpc_returns_spherical_witness :
  exists (r : Frame) (lon lat distance : float),
    hcc_to_hpc np_sin np_cos np_arctan2 np_hypot transform_to
      (coord_at Heliocentric (Some t0) (ObsFrame earth))
      (frame_at Helioprojective (Some t0) (ObsFrame earth)) = Ok r /\
    _data r = Some (mkRepresentation (Spherical lon lat distance) None).
Proof.
  assert (H : exists r,
            hcc_to_hpc np_sin np_cos np_arctan2 np_hypot transform_to
              (coord_at Heliocentric (Some t0) (ObsFrame earth))
              (frame_at Helioprojective (Some t0) (ObsFrame earth)) = Ok r).
  { eexists. vm_compute. reflexivity. }
  destruct H as [r H].
  destruct (proj1 (hcc_to_hpc_returns_spherical np_sin np_cos np_arctan2 np_hypot
                     transform_to _ _) r H)
    as (lon & lat & distance & Hd).
  exists r, lon, lat, distance. split; assumption.
Defined.

(** [gei_to_hme] evaluated in the scenario: the exception is the
    [NameError], while the forward function and the sibling pair
    HEE <-> GSE, whose way back reads its own parameter, return. *)
Example gei_to_hme_in_scenario :
  gei_to_hme np_sin np_cos get_body_barycentric _OBLIQUITY_J2000 transform_to
    (coord_at GeocentricEarthEquatorial (Some t0) ObsNone)
    (frame_at HeliocentricMeanEcliptic (Some t0) ObsNone) =
  Raise (NameError "gsecoord").
Proof. vm_compute. reflexivity. Qed.

Example hme_to_gei_in_scenario :
  is_ok (hme_to_gei np_sin np_cos get_body_barycentric _OBLIQUITY_J2000 transform_to
           (coord_at HeliocentricMeanEcliptic (Some t0) ObsNone)
           (frame_at GeocentricEarthEquatorial (Some t0) ObsNone)) = true.
Proof. vm_compute. reflexivity. Qed.

Example hee_gse_round_trip_in_scenario :
  (let* g :=
     hee_to_gse np_sin np_cos get_body_barycentric transform_to
       (coord_at HeliocentricEarthEcliptic (Some t0) ObsNone)
       (frame_at GeocentricSolarEcliptic (Some t0) ObsNone) in
   gse_to_hee np_sin np_cos get_body_barycentric transform_to g
     (frame_at HeliocentricEarthEcliptic (Some t0) ObsNone)) =
  Ok (coord_at HeliocentricEarthEcliptic (Some t0) ObsNone).
Proof. vm_compute. reflexivity. Qed.

(** In the example store the module-level name of [transformations.py] is
    rebound during the call: one of the states has it refer to an object
    that did not exist before, the pruned copy, in which ["Galactic"] is
    no longer a source. *)
Example module_level_name_is_rebound :
  exists docstr states w g,
    DocGraph._make_sunpy_graph example_names example_docs example_world =
    Ok (docstr, states) /\
    nth_error states 6 = Some w /\
    DocGraph.heap example_world !! DocGraph.frame_transform_graph w = None /\
    DocGraph.heap w !! DocGraph.frame_transform_graph w = Some g /\
    DocGraph._graph g !! "Galactic" = None /\
    DocGraph._graph example_graph !! "Galactic" =
    Some (<["ICRS" := "gal_to_icrs"]> ∅).
Proof.
  eexists _, _, _, _. split; [vm_compute; reflexivity|].
  split; [reflexivity|]. split; [vm_compute; reflexivity|].
  split; [vm_compute; reflexivity|]. split; vm_compute; reflexivity.
Qed.

End Evaluation.

(** ** Further evaluation on the scenario *)

Module FurtherEvaluation.

Import Scenario.

(** X1 at a concrete input: a Heliocentric coordinate seen from the Earth,
    taken to HGS and back at one observation time. *)
Lemma hcc_to_hgs_to_hcc_witness :
  (let* g :=
     hcc_to_hgs np_sin np_cos np_arctan2 np_hypot transform_to
       (coord_at Heliocentric (Some t0) (ObsFrame earth))
       (frame_at HeliographicStonyhurst (Some t0) ObsNone) in
   hgs_to_hcc np_sin np_cos np_arctan2 np_hypot transform_to g
     (frame_at Heliocentric (Some t0) (ObsFrame earth))) =
  Ok (realize_frame (frame_at Heliocentric (Some t0) (ObsFrame earth))
        (of_cartesian
           (cartesian_transform
              (cartesian_transform (mkCartesian (mkVec3 1 0 0) None)
                 (_rotation_matrix_hcc_to_hgs np_sin np_cos 0 0))
              (matrix_transpose (_rotation_matrix_hcc_to_hgs np_sin np_cos 0 0))))).
Proof.
  exact (hcc_to_hgs_to_hcc np_sin np_cos np_arctan2 np_hypot transform_to
           (coord_at Heliocentric (Some t0) (ObsFrame earth))
           (frame_at HeliographicStonyhurst (Some t0) ObsNone)
           (frame_at Heliocentric (Some t0) (ObsFrame earth))
           earth 0%float 0%float 1%float (mkCartesian (mkVec3 1 0 0) None)
           eq_refl eq_refl eq_refl eq_refl (or_intror eq_refl) eq_refl eq_refl).
Defined.

(** X2 at a concrete input. *)
Lemma hgs_to_hgc_to_hgs_witness :
  (let* g :=
     hgs_to_hgc np_sin np_cos L0 transform_to
       (coord_at HeliographicStonyhurst (Some t0) ObsNone)
       (frame_at HeliographicCarrington None ObsNone) in
   hgc_to_hgs np_sin np_cos L0 transform_to g
     (frame_at HeliographicStonyhurst (Some t0) ObsNone)) =
  Ok (realize_frame (frame_at HeliographicStonyhurst (Some t0) ObsNone)
        (of_cartesian
           (cartesian_transform
              (cartesian_transform (mkCartesian (mkVec3 1 0 0) None)
                 (rotation_matrix np_sin np_cos (- 0)%float AxisZ))
              (matrix_transpose (rotation_matrix np_sin np_cos (- 0)%float AxisZ))))).
Proof.
  exact (hgs_to_hgc_to_hgs np_sin np_cos L0 transform_to
           (coord_at HeliographicStonyhurst (Some t0) ObsNone)
           (frame_at HeliographicCarrington None ObsNone)
           (frame_at HeliographicStonyhurst (Some t0) ObsNone)
           t0 0%float (mkCartesian (mkVec3 1 0 0) None)
           eq_refl eq_refl (or_introl eq_refl) eq_refl eq_refl).
Defined.

(** X3 at concrete inputs: two Helioprojective (or Heliocentric) frames
    whose observers are the name ["earth"], at different times; and the
    names ["earth"] and ["mars"]. *)
Lemma same_kind_with_unresolved_observers_witness :
  (exists msg,
     hpc_to_hpc np_arctan2 np_hypot transform_to frame_eq
       (coord_at Helioprojective (Some t0) (ObsName "earth"))
       (frame_at Helioprojective (Some t1) (ObsName "earth")) =
     Raise (ConvertError msg)) /\
  (exists msg,
     hcc_to_hcc np_arctan2 np_hypot transform_to frame_eq
       (coord_at Heliocentric (Some t0) (ObsName "earth"))
       (frame_at Heliocentric (Some t0) (ObsName "mars")) =
     Raise (ValueError msg)).
Proof.
  split.
  - destruct (same_kind_with_unresolved_observers np_arctan2 np_hypot transform_to
                frame_eq
                (coord_at Helioprojective (Some t0) (ObsName "earth"))
                (frame_at Helioprojective (Some t1) (ObsName "earth")) eq_refl)
      as (b & Hb & _ & Ht).
    injection Hb as <-. exact (proj1 (Ht eq_refl eq_refl)).
  - destruct (same_kind_with_unresolved_observers np_arctan2 np_hypot transform_to
                frame_eq
                (coord_at Heliocentric (Some t0) (ObsName "earth"))
                (frame_at Heliocentric (Some t0) (ObsName "mars")) eq_refl)
      as (b & Hb & Hf & _).
    injection Hb as <-. destruct (Hf eq_refl) as (msg & _ & H).
    exists msg. exact H.
Defined.

(** X4 at a concrete input: the destination frame carries a velocity. *)
Lemma hcrs_to_hgs_offset_velocity_witness :
  exists (M : Mat3) (offset : CartesianRepresentation) (v : Vec3),
    hcrs_to_hgs np_sin np_cos np_arccos get_body_barycentric
      get_body_barycentric_posvel
      (frame_at HCRS (Some t1) ObsNone)
      (mkFrame HeliographicStonyhurst (Some moving_x) (Some t0) None ObsNone) =
    Ok (M, offset) /\
    differentials offset = Some v.
Proof.
  assert (H : exists M offset,
            hcrs_to_hgs np_sin np_cos np_arccos get_body_barycentric
              get_body_barycentric_posvel
              (frame_at HCRS (Some t1) ObsNone)
              (mkFrame HeliographicStonyhurst (Some moving_x) (Some t0) None ObsNone) =
            Ok (M, offset)).
  { eexists _, _. vm_compute. reflexivity. }
  destruct H as (M & offset & H).
  destruct (proj2 (hcrs_to_hgs_offset_velocity np_sin np_cos np_arccos
                     get_body_barycentric get_body_barycentric_posvel
                     (frame_at HCRS (Some t1) ObsNone)
                     (mkFrame HeliographicStonyhurst (Some moving_x) (Some t0) None
                        ObsNone) M offset H) eq_refl) as [v Hv].
  exists M, offset, v. split; assumption.
Defined.

(** X5 at a concrete input. *)
Lemma heliographic_without_obstime_witness :
  hgs_to_hgc np_sin np_cos L0 transform_to
    (coord_at HeliographicStonyhurst None ObsNone)
    (frame_at HeliographicCarrington (Some t1) ObsNone) =
  Ok (realize_frame (frame_at HeliographicCarrington (Some t1) ObsNone)
        (of_cartesian
           (cartesian_transform (mkCartesian (mkVec3 1 0 0) None)
              (rotation_matrix np_sin np_cos (- 0)%float AxisZ)))).
Proof.
  exact (proj1 (heliographic_without_obstime_adopts_destination np_sin np_cos L0
                  transform_to
                  (coord_at HeliographicStonyhurst None ObsNone)
                  (frame_at HeliographicCarrington (Some t1) ObsNone)
                  t1 0%float (mkCartesian (mkVec3 1 0 0) None)
                  eq_refl eq_refl eq_refl eq_refl)).
Defined.

(** X6 at concrete inputs: a coordinate with a velocity. *)
Lemma geocentric_with_velocity_witness :
  is_ok (hee_to_gse np_sin np_cos get_body_barycentric transform_to
           (mkFrame HeliocentricEarthEcliptic (Some moving_x) (Some t0) None ObsNone)
           (frame_at GeocentricSolarEcliptic (Some t0) ObsNone)) = false /\
  is_ok (hme_to_gei np_sin np_cos get_body_barycentric _OBLIQUITY_J2000 transform_to
           (mkFrame HeliocentricMeanEcliptic (Some moving_x) (Some t0) (Some t0) ObsNone)
           (frame_at GeocentricEarthEquatorial (Some t0) ObsNone)) = false.
Proof.
  split.
  - refine (proj1 (geocentric_with_velocity_raises np_sin np_cos get_body_barycentric
                     _OBLIQUITY_J2000 transform_to
                     (mkFrame HeliocentricEarthEcliptic (Some moving_x) (Some t0) None
                        ObsNone)
                     (frame_at GeocentricSolarEcliptic (Some t0) ObsNone))
              _ (mkCartesian (mkVec3 1 0 0) (Some (mkVec3 0 1 0))) (mkVec3 0 1 0)
              eq_refl eq_refl eq_refl).
  - refine (proj2 (geocentric_with_velocity_raises np_sin np_cos get_body_barycentric
                     _OBLIQUITY_J2000 transform_to
                     (mkFrame HeliocentricMeanEcliptic (Some moving_x) (Some t0)
                        (Some t0) ObsNone)
                     (frame_at GeocentricEarthEquatorial (Some t0) ObsNone))
              _ _ (mkCartesian (mkVec3 1 0 0) (Some (mkVec3 0 1 0))) (mkVec3 0 1 0)
              eq_refl eq_refl eq_refl eq_refl).
Defined.

(** X7 at a concrete input: a vector in the XZ plane, off the X axis. *)
Lemma xz_about_z_zero_y_witness :
  _rotation_matrix_reprs_to_xz_about_z np_sin np_cos np_arccos (mkVec3 2 0 3) = mat_nan.
Proof.
  exact (proj1 (NumericFacts.xz_about_z_zero_y np_sin np_cos np_arccos (mkVec3 2 0 3)
                  eq_refl)).
Defined.

(** X8 at a concrete input: in the scenario the Earth is on the X axis. *)
Lemma hme_to_hee_earth_in_xz_plane_witness :
  exists (r : Frame) (vel : option Vec3),
    hme_to_hee np_sin np_cos np_arccos get_body_barycentric transform_to
      (coord_at HeliocentricMeanEcliptic (Some t0) ObsNone)
      (frame_at HeliocentricEarthEcliptic (Some t0) ObsNone) = Ok r /\
    _data r = Some (mkRepresentation (Cartesian (mkVec3 nan nan nan)) vel).
Proof.
  destruct (TransformationFacts.hme_to_hee_earth_in_xz_plane np_sin np_cos np_arccos
              get_body_barycentric transform_to
              (coord_at HeliocentricMeanEcliptic (Some t0) ObsNone)
              (frame_at HeliocentricEarthEcliptic (Some t0) ObsNone)
              (mkFrame HeliocentricMeanEcliptic
                 (Some (mkRepresentation (Cartesian (mkVec3 1 0 0)) None))
                 (Some t0) (Some t0) ObsNone)
              (mkVec3 1 0 0) (mkCartesian (mkVec3 1 0 0) None)
              eq_refl eq_refl eq_refl eq_refl) as [_ H].
  assert (Hr : exists r,
            hme_to_hee np_sin np_cos np_arccos get_body_barycentric transform_to
              (coord_at HeliocentricMeanEcliptic (Some t0) ObsNone)
              (frame_at HeliocentricEarthEcliptic (Some t0) ObsNone) = Ok r).
  { eexists. vm_compute. reflexivity. }
  destruct Hr as [r Hr]. destruct (H r Hr) as [vel Hvel].
  exists r, vel. split; assumption.
Defined.

(** X9 at a concrete input: both frames at the time [t0]. *)
Lemma hcrs_to_hgs_same_obstime_witness :
  exists (M : Mat3) (offset : CartesianRepresentation),
    hcrs_to_hgs np_sin np_cos np_arccos get_body_barycentric
      get_body_barycentric_posvel
      (coord_at HCRS (Some t0) ObsNone)
      (frame_at HeliographicStonyhurst (Some t0) ObsNone) = Ok (M, offset) /\
    mat_finite M = true /\
    vec_is_zero (xyz offset) = true.
Proof.
  eexists _, _. split; [vm_compute; reflexivity|].
  split; [vm_compute; reflexivity|].
  refine (TransformationFacts.hcrs_to_hgs_same_obstime_zero_offset np_sin np_cos
            np_arccos get_body_barycentric get_body_barycentric_posvel
            (coord_at HCRS (Some t0) ObsNone)
            (frame_at HeliographicStonyhurst (Some t0) ObsNone)
            _ _ eq_refl _ _ _ _).
  - intros p Hp. injection Hp as <-. reflexivity.
  - intros p v Hp. injection Hp as <- _. reflexivity.
  - vm_compute. reflexivity.
  - vm_compute. reflexivity.
Defined.

(** X10 at a concrete input: the class [Galactic] is outside the keep
    list. *)
Lemma pruned_graph_contents_witness :
  exists states w_doc small,
    DocGraph._make_sunpy_graph example_names example_docs example_world =
      Ok (DocGraph._tweak_graph (example_docs w_doc), states) /\
    DocGraph.heap w_doc !! DocGraph.frame_transform_graph w_doc = Some small /\
    DocGraph.edge (DocGraph._graph small) "ICRS" "Galactic" = None /\
    DocGraph.edge (DocGraph._graph small) "ICRS" "HCRS" = Some "icrs_to_hcrs" /\
    DocGraph.edge (DocGraph._graph small) "Astropy" "ICRS" = Some "fake_transform1".
Proof.
  destruct (DocGraphFacts.pruned_graph_contents example_names example_docs
              example_world example_graph eq_refl)
    as (states & w_doc & small & Hrun & _ & Hsmall & Hedge).
  exists states, w_doc, small. split; [exact Hrun|]. split; [exact Hsmall|].
  split; [|split].
  - rewrite (Hedge "ICRS" "Galactic"). vm_compute. reflexivity.
  - rewrite (Hedge "ICRS" "HCRS"). vm_compute. reflexivity.
  - rewrite (Hedge "Astropy" "ICRS"). vm_compute. reflexivity.
Defined.

(** X11 at a concrete input: a text without the marker. *)
Lemma tweak_graph_without_marker_witness :
  DocGraph._tweak_graph "digraph {}" = "}".
Proof.
  exact (proj1 (DocGraphFacts.tweak_graph_without_marker "digraph {}" eq_refl)).
Defined.

(** X13 at a concrete input: three samples inside one event. *)
Lemma split_series_event_covering_all_witness :
  Lyra.split_series_using_lytaf Z Z Ok [10; 20; 30]%Z [1; 2; 3]%Z
    [Lyra.mkLytafEvent 0 100] =
  Ok [Lyra.mkSubSeries Z [10; 20; 30]%Z [1; 2; 3]%Z].
Proof.
  refine (LyraFacts.split_series_event_covering_all Z Z Ok [10; 20; 30]%Z [1; 2; 3]%Z
            [Lyra.mkLytafEvent 0 100] [10; 20; 30]%Z eq_refl _).
  right. exists (Lyra.mkLytafEvent 0 100). split; [apply elem_of_cons; left; reflexivity|].
  repeat constructor; cbn; lia.
Defined.

(** X14 at a concrete input: the default [channels=None] and
    [artifacts="All"]. *)
Lemma remove_lyra_artifacts_default_channels_witness :
  Lyra.remove_lyra_artifacts_check_inputs (fun _ => Ok 0%Z)
    (Lyra.PList [Lyra.PDatetime 0; Lyra.PDatetime 1]) Lyra.PNone (Lyra.PStr "All") =
  Raise (TypeError "channels must be None or a list of numpy arrays of dtype 'float64'.").
Proof.
  refine (proj2 (proj1 (LyraFacts.remove_lyra_artifacts_rejects_default_channels
                   (fun _ => Ok 0%Z)
                   (Lyra.PList [Lyra.PDatetime 0; Lyra.PDatetime 1]) Lyra.PNone
                   (Lyra.PStr "All")) _) _ _ eq_refl eq_refl eq_refl).
  discriminate.
Defined.

(** X15 at a concrete input: four samples, the first two inside the
    event. *)
Lemma split_series_event_at_start_witness :
  Lyra.split_series_using_lytaf Z Z Ok [10; 20; 30; 40]%Z [1; 2; 3; 4]%Z
    [Lyra.mkLytafEvent 0 25] =
  Ok [Lyra.mkSubSeries Z [20; 30]%Z [2; 3]%Z].
Proof.
  refine (LyraFacts.split_series_event_at_start Z Z Ok [10; 20; 30; 40]%Z
            [1; 2; 3; 4]%Z (Lyra.mkLytafEvent 0 25) [10; 20; 30; 40]%Z 2
            eq_refl _ _ _ _).
  - cbn. lia.
  - intros i Hi. do 4 (destruct i as [|i]; [cbn; lia|]). cbn in Hi. lia.
  - intros i Hi. do 2 (destruct i as [|i]; [cbn; lia|]). lia.
  - intros i Hi. cbn in Hi. do 2 (destruct i as [|i]; [lia|]).
    do 2 (destruct i as [|i]; [cbn; lia|]). lia.
Defined.


End FurtherEvaluation.
